(** * MakeMyFuture: accounts, sessions, schedule builder and sign-up page

    A shallow embedding of [accounts.js] (password hashing, sign-up, login,
    session issuance and verification), of [ScheduleBuilder.js] (the header
    row, the entry row and the semesters grid) and of the click handler of
    [public/js/signup.js], followed by the properties proved about them.

    Conventions of the embedding.
    - A JavaScript string is a [string]; [s.length] is [String.length].
    - Integer numbers (millisecond time stamps, column counts) are in [Z];
      the one division of the program is carried out in [Q].
    - PBKDF2 belongs to Node's [crypto] module: it is a parameter of the
      development.  Random bytes, the clock and the identifier MongoDB gives
      a new document are read from an explicit environment.
    - A call that can throw returns an [option]; [None] stands for the
      exception, and every [try]/[catch] of the source is a [match] on it.
    - In the definitions that carry the source's names, [await] resumes at
      once: a call runs to its end before the next one starts.  The two
      functions whose claims depend on what runs between their awaits,
      [issue_session] and [update_semesters], are also given cut at their
      awaits, in [Awaits], so that calls can overlap. *)

From Stdlib Require Import ZArith List String Ascii Bool Lia.
From Stdlib Require Import QArith DecimalString Permutation.
From Stdlib.Strings Require Byte.
Import ListNotations.

Local Open Scope string_scope.
Local Open Scope Z_scope.

(** ** JavaScript values used by the program *)

Module JS.

(** [s.length] *)
Definition length (s : string) : Z := Z.of_nat (String.length s).

(** [a === b] on strings. *)
Definition strict_eq (a b : string) : bool := String.eqb a b.

(** [s.includes(sub)] *)
Definition includes (s sub : string) : bool :=
  match String.index 0 sub s with
  | Some _ => true
  | None => false
  end.

(** [String(n)] for an integer [n], as in ["Semester " + i]. *)
Definition Number_toString (n : Z) : string :=
  NilZero.string_of_int (Z.to_int n).

(** [arr.splice(start)]: drops the elements from [start] on; a negative
    [start] counts from the end and is clamped at 0.  The value is the
    array that is left. *)
Definition splice {A : Type} (arr : list A) (start : Z) : list A :=
  let len := Z.of_nat (List.length arr) in
  let from := if start <? 0 then Z.max (len + start) 0 else Z.min start len in
  firstn (Z.to_nat from) arr.

(** A [for (let i = lo; i < hi; i++)] loop over a state. *)
Fixpoint for_fuel {St : Type} (fuel : nat) (i hi : Z) (body : Z -> St -> St) (s : St) : St :=
  match fuel with
  | O => s
  | S fuel' =>
      if i <? hi then for_fuel fuel' (i + 1) hi body (body i s) else s
  end.

Definition for_lt {St : Type} (lo hi : Z) (body : Z -> St -> St) (s : St) : St :=
  for_fuel (Z.to_nat (hi - lo)) lo hi body s.

(** The value of a field that holds either the number [0] or a string. *)
Inductive id_value : Type :=
| Zero : id_value
| Str : string -> id_value.

End JS.

(** ** The [crypto] module *)

Module Crypto.

Definition hex_digit (n : N) : ascii :=
  match n with
  | 0%N => "0" | 1%N => "1" | 2%N => "2" | 3%N => "3"
  | 4%N => "4" | 5%N => "5" | 6%N => "6" | 7%N => "7"
  | 8%N => "8" | 9%N => "9" | 10%N => "a" | 11%N => "b"
  | 12%N => "c" | 13%N => "d" | 14%N => "e" | _ => "f"
  end%char.

(** [buf.toString('hex')] *)
Fixpoint toString_hex (buf : list Byte.byte) : string :=
  match buf with
  | [] => ""
  | b :: rest =>
      let n := Byte.to_N b in
      String (hex_digit (N.div n 16))
        (String (hex_digit (N.modulo n 16)) (toString_hex rest))
  end.

(** [crypto.pbkdf2Sync(password, salt, iterations, keylen, digest)] *)
Definition kdf : Type := string -> string -> Z -> Z -> string -> list Byte.byte.

End Crypto.

(** ** The environment of one call *)

Record env : Type := mkEnv {
  (** [(new Date()).getTime()] *)
  getTime : Z;
  (** [crypto.randomBytes(n)] *)
  randomBytes : Z -> list Byte.byte;
  (** the [insertedId] MongoDB gives the next document, as [toString()] prints it *)
  insertedId : string
}.

(** ** The database *)

(** A document of Accounts/accounts. *)
Record account : Type := mkAccount {
  a_id : string;
  a_time : Z;
  a_username : string;
  a_email : string;
  a_hash : string;
  a_salt : string
}.

(** A document of Accounts/sessions. *)
Record session : Type := mkSession {
  s_id : string;
  s_user_id : string;
  s_hash : string;
  s_salt : string;
  s_issue_time : Z
}.

Record database : Type := mkDb {
  accounts : list account;
  sessions : list session
}.

Module mongo.

(** Modelled from the spec: [mongodb-library.js] is not among the sources.
    [get_data(query, db, collection)] is the "simple keyed lookup" of the
    spec: the array of the documents of the collection whose queried field
    has the queried value, in the order of the collection.  The callers
    read its [length] and its element [0].  [None] is a thrown error; the
    lookup itself never throws. *)
Definition get_data {D : Type} (query : D -> bool) (collection : list D)
  : option (list D) :=
  Some (filter query collection).

(** Modelled from the spec: [add_data(doc, db, collection)] appends the
    document to the collection under the identifier the environment
    provides and answers with that [insertedId]. *)
Definition add_data {D : Type} (doc : string -> D) (e : env) (collection : list D)
  : option (string * list D) :=
  Some (insertedId e, (collection ++ [doc (insertedId e)])%list).

(** Modelled from the spec: [update_docs(query, {$set: ...})] applies the
    update to every document that matches the query and inserts none
    ("refresh its time").  The call in [issue_session] names no
    collection; the sessions collection is meant. *)
Definition update_docs {D : Type} (query : D -> bool) (set : D -> D)
  (collection : list D) : option (list D) :=
  Some (map (fun d => if query d then set d else d) collection).

End mongo.

(** The queries the program builds. *)
Definition by_username (username : string) (a : account) : bool :=
  String.eqb (a_username a) username.
Definition by_email (email : string) (a : account) : bool :=
  String.eqb (a_email a) email.
Definition by_user_id (user_id : string) (s : session) : bool :=
  String.eqb (s_user_id s) user_id.
Definition by_hash (hash : string) (s : session) : bool :=
  String.eqb (s_hash s) hash.

(** ** accounts.js *)

Record hashSalt : Type := mkHashSalt { salt : string; hash : string }.

Record sign_up_result : Type := mkSignUp {
  su_info : string;
  account_created : bool;
  su_user_id : JS.id_value
}.

Record login_result : Type := mkLogin {
  li_info : string;
  li_user_id : JS.id_value;
  loggedIn : bool
}.

(** The object [verify_session] returns; the last [return] of the function
    leaves [info] and [user_id] out. *)
Record verify_result : Type := mkVerify {
  v_info : option string;
  valid : bool;
  v_user_id : option JS.id_value
}.

Section Accounts.

Variable pbkdf2Sync : Crypto.kdf.

Definition validPassword (password hash salt : string) : bool :=
  let hashVerify := Crypto.toString_hex (pbkdf2Sync password salt 10000 64 "sha512") in
  JS.strict_eq hash hashVerify.

Definition genPassword (e : env) (password : string) : hashSalt :=
  let salt := Crypto.toString_hex (randomBytes e 32) in
  let genHash := Crypto.toString_hex (pbkdf2Sync password salt 10000 64 "sha512") in
  {| salt := salt; hash := genHash |}.

(** [undefined] (the value after a caught error) is [None]. *)
Definition username_exists (db : database) (username : string) : option bool :=
  match mongo.get_data (by_username username) (accounts db) with
  | Some found => Some (0 <? Z.of_nat (List.length found))
  | None => None
  end.

Definition email_exists (db : database) (email : string) : option bool :=
  match mongo.get_data (by_email email) (accounts db) with
  | Some found => Some (0 <? Z.of_nat (List.length found))
  | None => None
  end.

(** The truth value an [if] gives to a boolean or [undefined]. *)
Definition truthy (v : option bool) : bool :=
  match v with
  | Some b => b
  | None => false
  end.

Definition valid_user_pass_combo (username password : string) : bool :=
  (5 <? JS.length username) && (5 <? JS.length password).

(** [None]: the insertion threw and so did [sign_up]. *)
Definition sign_up (e : env) (db : database) (username password email : string)
  : option (sign_up_result * database) :=
  let '(message, createAccount) :=
    if truthy (username_exists db username) then ("USERNAME ALREADY EXISTS", false)
    else if negb (valid_user_pass_combo username password) then ("BAD USERNAME PASSWORD", false)
    else if truthy (email_exists db email) then ("EMAIL TAKEN", false)
    else ("CREATE ACCOUNT FAILED", true) in
  if createAccount then
    let hashSalt := genPassword e password in
    let saveMe := fun _id =>
      {| a_id := _id; a_time := getTime e; a_username := username;
         a_email := email; a_hash := hash hashSalt; a_salt := salt hashSalt |} in
    match mongo.add_data saveMe e (accounts db) with
    | Some (new_id, accounts') =>
        Some ({| su_info := "ACCOUNT CREATED"; account_created := true;
                 su_user_id := JS.Str new_id |},
              {| accounts := accounts'; sessions := sessions db |})
    | None => None
    end
  else
    Some ({| su_info := message; account_created := false; su_user_id := JS.Zero |}, db).

Definition login (db : database) (username password : string) : option login_result :=
  match mongo.get_data (by_username username) (accounts db) with
  | None => None
  | Some accounts =>
      if Z.of_nat (List.length accounts) =? 0 then
        Some {| li_info := "ACCOUNT DOES NOT EXIST"; li_user_id := JS.Zero; loggedIn := false |}
      else
        match nth_error accounts 0 with
        | None => None
        | Some account0 =>
            if negb (validPassword password (a_hash account0) (a_salt account0)) then
              Some {| li_info := "INCORRECT PASSWORD"; li_user_id := JS.Zero; loggedIn := false |}
            else
              Some {| li_info := "LOGIN SUCCESSFUL"; li_user_id := JS.Str (a_id account0);
                      loggedIn := true |}
        end
  end.

(** The value is the session sent back, [None] for [undefined], and the
    database after the call. *)
Definition issue_session (e : env) (db : database) (user_id : string)
  : option session * database :=
  let attempt : option (option session * database) :=
    match mongo.get_data (by_user_id user_id) (sessions db) with
    | None => None
    | Some matching_sessions =>
        let written :=
          if negb (Z.of_nat (List.length matching_sessions) =? 0) then
            mongo.update_docs (by_user_id user_id)
              (fun s => {| s_id := s_id s; s_user_id := s_user_id s; s_hash := s_hash s;
                           s_salt := s_salt s; s_issue_time := getTime e |})
              (sessions db)
          else
            let hashSalt := genPassword e user_id in
            let new_doc := fun _id =>
              {| s_id := _id; s_user_id := user_id; s_hash := hash hashSalt;
                 s_salt := salt hashSalt; s_issue_time := getTime e |} in
            option_map snd (mongo.add_data new_doc e (sessions db)) in
        match written with
        | None => None
        | Some sessions' =>
            match mongo.get_data (by_user_id user_id) sessions' with
            | None => Some (None, {| accounts := accounts db; sessions := sessions' |})
            | Some found =>
                Some (nth_error found 0, {| accounts := accounts db; sessions := sessions' |})
            end
        end
    end in
  match attempt with
  | Some r => r
  | None => (None, db)
  end.

(** [((new Date()).getTime() - issue_time) / 1000 / 60 / 60 / 24 > 1],
    with the quotient taken exactly.  The program divides doubles; the
    rounded divisions are monotone and exact at 86,400,000 ms, and the next
    integer above it stays well above 1, so on integer millisecond counts
    the two comparisons agree. *)
Definition older_than_a_day (now issue_time : Z) : bool :=
  negb (Qle_bool (inject_Z (now - issue_time) / 1000 / 60 / 60 / 24) 1)%Q.

Definition verify_session (e : env) (db : database) (hash : string) : verify_result :=
  match mongo.get_data (by_hash hash) (sessions db) with
  | Some sessions =>
      let default := ("INVALID", false, JS.Zero) in
      let '(info, valid, user_id) :=
        match nth_error sessions 0 with
        | None => default
        | Some my_session =>
            let issue_time := s_issue_time my_session in
            if older_than_a_day (getTime e) issue_time then ("EXPIRED", false, JS.Zero)
            else if validPassword (s_user_id my_session) hash (s_salt my_session) then
              ("VALID", true, JS.Str (s_user_id my_session))
            else default
        end in
      {| v_info := Some info; valid := valid; v_user_id := Some user_id |}
  | None => {| v_info := None; valid := false; v_user_id := None |}
  end.

End Accounts.

(** ** ScheduleBuilder.js *)

Module ScheduleBuilder.

(** A class button of the builder: the element [gen_drag_button] makes,
    with the [acr] and [name] properties [add_class] sets on it. *)
Record button : Type := mkButton {
  b_id : string;
  b_textContent : string;
  acr : string;
  name : string
}.

(** A cell of the entry row: its child nodes are one [span] followed by
    the class buttons dropped into it. *)
Record td : Type := mkTd {
  td_id : string;
  span_textContent : string;
  buttons : list button
}.

(** [td.childNodes.length] *)
Definition childNodes_length (cell : td) : Z :=
  1 + Z.of_nat (List.length (buttons cell)).

(** The file [save_schedule] hands to the browser. *)
Record file : Type := mkFile {
  filename : string;
  type : string;
  data : string
}.

(** [arr[i]] *)
Definition get {A : Type} (arr : list A) (i : Z) : option A :=
  if i <? 0 then None else nth_error arr (Z.to_nat i).

(** The array with its element [i] replaced by [f] of it. *)
Fixpoint update_at {A : Type} (i : nat) (f : A -> A) (arr : list A) : list A :=
  match arr, i with
  | [], _ => []
  | x :: rest, O => f x :: rest
  | x :: rest, S i' => x :: update_at i' f rest
  end.

Definition set_span (text : string) (cell : td) : td :=
  {| td_id := td_id cell; span_textContent := text; buttons := buttons cell |}.

Definition appendChild (b : button) (cell : td) : td :=
  {| td_id := td_id cell; span_textContent := span_textContent cell;
     buttons := (buttons cell ++ [b])%list |}.

(** The buttons without the first one that satisfies [found]; [None] when
    there is none. *)
Fixpoint remove_first (found : button -> bool) (bs : list button) : option (list button) :=
  match bs with
  | [] => None
  | c :: rest =>
      if found c then Some rest
      else option_map (cons c) (remove_first found rest)
  end.

Fixpoint join (sep : string) (parts : list string) : string :=
  match parts with
  | [] => ""
  | [p] => p
  | p :: rest => p ++ sep ++ join sep rest
  end.

Section Builder.

(** The class objects of [ClassRepo], which is not among the sources:
    the three fields the builder reads, the lookup by acronym, and the
    JSON text of one class object. *)
Variable class : Type.
Variables NAME DIVISION NUMBER : class -> string.
Variable get_class : string -> class.
Variable stringify_class : class -> string.

(** The static fields of the class and the two rows of the table it
    manages: the text of the header cells and the entry cells.
    [dispatched] lists the events sent to the document. *)
Record state : Type := mkState {
  columns : Z;
  semesters : list (list class);
  builderHeader : list string;
  builderRows : list td;
  dispatched : list string
}.

Definition set_rows (rows : list td) (st : state) : state :=
  {| columns := columns st; semesters := semesters st;
     builderHeader := builderHeader st; builderRows := rows;
     dispatched := dispatched st |}.

Definition set_header (header : list string) (st : state) : state :=
  {| columns := columns st; semesters := semesters st;
     builderHeader := header; builderRows := builderRows st;
     dispatched := dispatched st |}.

Definition set_columns (n : Z) (st : state) : state :=
  {| columns := n; semesters := semesters st;
     builderHeader := builderHeader st; builderRows := builderRows st;
     dispatched := dispatched st |}.

Definition set_semesters (sems : list (list class)) (st : state) : state :=
  {| columns := columns st; semesters := sems;
     builderHeader := builderHeader st; builderRows := builderRows st;
     dispatched := dispatched st |}.

Definition dispatchEvent (event : string) (st : state) : state :=
  {| columns := columns st; semesters := semesters st;
     builderHeader := builderHeader st; builderRows := builderRows st;
     dispatched := (dispatched st ++ [event])%list |}.

Definition update_semesters (st : state) : state :=
  let st := set_semesters [] st in
  let semesters_td := builderRows st in
  let st :=
    fold_left
      (fun st sem =>
         let sem_arr :=
           fold_left (fun sem_arr c => (sem_arr ++ [get_class (acr c)])%list)
             (buttons sem) [] in
         set_semesters (semesters st ++ [sem_arr])%list st)
      semesters_td st in
  let st :=
    set_semesters
      (JS.splice (semesters st) (Z.of_nat (List.length (semesters st)) - 1)) st in
  dispatchEvent "Semester Update" st.

(** [None]: the row has no cell and reading [childNodes] of [undefined]
    throws. *)
Definition add_class (st : state) (clas : class) : option state :=
  let semesters_td := builderRows st in
  let last := Z.of_nat (List.length semesters_td) - 1 in
  match get semesters_td last with
  | None => None
  | Some _ =>
      let new_button :=
        {| b_id := "builder" ++ DIVISION clas ++ "-" ++ NUMBER clas;
           b_textContent := NAME clas;
           acr := DIVISION clas ++ "-" ++ NUMBER clas;
           name := NAME clas |} in
      Some (set_rows
              (update_at (Z.to_nat last)
                 (fun button_area => appendChild new_button (set_span "" button_area))
                 semesters_td) st)
  end.

Fixpoint remove_class_rows (wanted : string) (rows : list td) : list td :=
  match rows with
  | [] => []
  | sem :: rest =>
      match remove_first (fun c => String.eqb (acr c) wanted) (buttons sem) with
      | Some remaining =>
          let sem := {| td_id := td_id sem; span_textContent := span_textContent sem;
                        buttons := remaining |} in
          (if childNodes_length sem =? 1 then set_span "No classes selected" sem else sem)
            :: rest
      | None => sem :: remove_class_rows wanted rest
      end
  end.

Definition remove_class (st : state) (clas : class) : state :=
  set_rows (remove_class_rows (DIVISION clas ++ "-" ++ NUMBER clas) (builderRows st)) st.

(** The [for (let clas of ClassRepo.selected)] of [fill_entries]; the
    flag is [false] when [add_class] threw, which ends the function. *)
Fixpoint add_selected (st : state) (selected : list class) : state * bool :=
  match selected with
  | [] => (st, true)
  | clas :: rest =>
      match add_class st clas with
      | Some st' => add_selected st' rest
      | None => (st, false)
      end
  end.

Definition new_entry (i : Z) : td :=
  {| td_id := "builderNode" ++ JS.Number_toString i;
     span_textContent := "No classes selected";
     buttons := [] |}.

(** [selected] is [ClassRepo.selected] once the repository is ready. *)
Definition fill_entries (selected : list class) (st : state) : state :=
  let st := set_rows [] st in
  let st :=
    JS.for_lt 0 (columns st + 1)
      (fun i st => set_rows (builderRows st ++ [new_entry i])%list st) st in
  match add_selected st selected with
  | (st, true) => update_semesters st
  | (st, false) => st
  end.

Definition update_header (selected : list class) (n : Z) (st : state) : state :=
  if n <=? 0 then st
  else
    let st := set_columns n st in
    let st := set_header [] st in
    let st :=
      JS.for_lt 1 (n + 2)
        (fun i st =>
           let textContent := "Semester " ++ JS.Number_toString i in
           let textContent := if i =? n + 1 then "Selected Classes" else textContent in
           set_header (builderHeader st ++ [textContent])%list st) st in
    fill_entries selected st.

Definition initializeContent (selected : list class) (st : state) : state :=
  update_header selected (columns st) st.

(** [initialize] on a page whose table is in any state. *)
Definition initialize (selected : list class) (page : state) : state :=
  let st := set_columns 1 page in
  let st := set_semesters [] st in
  initializeContent selected st.

(** [document.getElementById(id)] for the id of a class button of the row,
    on a page where no other element carries that id: the first button of
    the row with it.  Ids of other elements of the page are outside of the
    embedding. *)
Definition getButtonById (id : string) (rows : list td) : option button :=
  find (fun c => String.eqb (b_id c) id) (flat_map buttons rows).

(** The row after the button with that [id] left its cell. *)
Fixpoint detach (id : string) (rows : list td) : list td :=
  match rows with
  | [] => []
  | sem :: rest =>
      match remove_first (fun c => String.eqb (b_id c) id) (buttons sem) with
      | Some remaining =>
          {| td_id := td_id sem; span_textContent := span_textContent sem;
             buttons := remaining |} :: rest
      | None => sem :: detach id rest
      end
  end.

(** Lines 446 to 451 for the id of a cell of the row, on a page where no
    other element carries that id: the first cell with [id] gets its span
    text reset when only the span is left in it; [None] when there is no
    such cell. *)
Fixpoint reset_orig (id : string) (rows : list td) : option (list td) :=
  match rows with
  | [] => None
  | sem :: rest =>
      if String.eqb (td_id sem) id then
        Some ((if childNodes_length sem =? 1
               then set_span "No classes selected" sem else sem) :: rest)
      else option_map (cons sem) (reset_orig id rest)
  end.

(** The [drop] listener of the entry cell at index [i], for a drag whose
    data name elements of the row only: [id] a class button of the row and
    [orig_parent_id] a cell of the row, or ids no element of the page
    carries.  A listener that throws leaves the state it reached. *)
Definition drop (i : nat) (orig_parent_id id : string) (st : state) : state :=
  match nth_error (builderRows st) i with
  | None => st
  | Some target =>
      if negb (String.eqb (td_id target) orig_parent_id) then
        let rows := update_at i (set_span "") (builderRows st) in
        match getButtonById id rows with
        | None => set_rows rows st
        | Some dragged =>
            let rows := update_at i (appendChild dragged) (detach id rows) in
            match reset_orig orig_parent_id rows with
            | None => set_rows rows st
            | Some rows => update_semesters (set_rows rows st)
            end
        end
      else st
  end.

(** [JSON.stringify] of an array of arrays of class objects. *)
Definition JSON_stringify (sems : list (list class)) : string :=
  "[" ++ join ","
           (map (fun sem => "[" ++ join "," (map stringify_class sem) ++ "]") sems)
      ++ "]".

Definition save_schedule (st : state) : file :=
  let data := JSON_stringify (semesters st) in
  {| filename := "schedule.json"; type := "json"; data := data |}.

(** The calls that change the builder after [initialize]. *)
Inductive call : Type :=
| Update_header (selected : list class) (n : Z)
| Add_class (clas : class)
| Remove_class (clas : class)
| Drop (i : nat) (orig_parent_id id : string)
| Update_semesters.

Definition run (c : call) (st : state) : state :=
  match c with
  | Update_header selected n => update_header selected n st
  | Add_class clas =>
      match add_class st clas with
      | Some st' => st'
      | None => st
      end
  | Remove_class clas => remove_class st clas
  | Drop i orig_parent_id id => drop i orig_parent_id id st
  | Update_semesters => update_semesters st
  end.

(** The class objects behind the buttons of a cell, in their order. *)
Definition classes_of (sem : td) : list class :=
  map (fun c => get_class (acr c)) (buttons sem).

(** The entry row has one cell per semester and the bank after them. *)
Definition well_formed (st : state) : Prop :=
  1 <= columns st /\ Z.of_nat (List.length (builderRows st)) = columns st + 1.

End Builder.

Arguments columns {class} _.
Arguments semesters {class} _.
Arguments builderHeader {class} _.
Arguments builderRows {class} _.
Arguments dispatched {class} _.
Arguments set_rows {class} rows st.
Arguments set_header {class} header st.
Arguments set_columns {class} n st.
Arguments set_semesters {class} sems st.
Arguments dispatchEvent {class} event st.
Arguments initializeContent {class} NAME DIVISION NUMBER get_class selected st.
Arguments update_semesters {class} get_class st.
Arguments add_class {class} NAME DIVISION NUMBER st clas.
Arguments remove_class {class} DIVISION NUMBER st clas.
Arguments add_selected {class} NAME DIVISION NUMBER st selected.
Arguments fill_entries {class} NAME DIVISION NUMBER get_class selected st.
Arguments update_header {class} NAME DIVISION NUMBER get_class selected n st.
Arguments initialize {class} NAME DIVISION NUMBER get_class selected page.
Arguments drop {class} get_class i orig_parent_id id st.
Arguments save_schedule {class} stringify_class st.
Arguments JSON_stringify {class} stringify_class sems.
Arguments run {class} NAME DIVISION NUMBER get_class c st.
Arguments classes_of {class} get_class sem.
Arguments well_formed {class} st.

(** The integers [lo], [lo + 1], ..., [n] of them. *)
Definition Zseq (lo : Z) (n : nat) : list Z :=
  map (fun k => lo + Z.of_nat k) (seq 0 n).

(** "Semester 1", ..., "Semester n", "Selected Classes". *)
Definition header_labels (n : Z) : list string :=
  List.app
    (map (fun i => "Semester " ++ JS.Number_toString i) (Zseq 1 (Z.to_nat n)))
    ["Selected Classes"].

(** "builderNode0", ..., "builderNode<n>". *)
Definition entry_ids (n : Z) : list string :=
  map (fun i => "builderNode" ++ JS.Number_toString i) (Zseq 0 (Z.to_nat (n + 1))).

End ScheduleBuilder.

(** ** public/js/signup.js *)

Module Signup.

(** The values of the four inputs of the page. *)
Record form : Type := mkForm {
  user : string;
  pass : string;
  confirm : string;
  email : string
}.

(** The body of the request, [{'username', 'password', 'email'}]. *)
Record body : Type := mkBody {
  username : string;
  password : string;
  body_email : string
}.

Record request : Type := mkRequest {
  route : string;
  method : string;
  req_body : option body
}.

(** The fields of the answer the handler reads. *)
Record response : Type := mkResponse {
  r_account_created : bool;
  r_info : string
}.

(** The text of the [message] element and the requests sent so far. *)
Record page : Type := mkPage {
  message : string;
  sent : list request
}.

Definition setMessage (text : string) (p : page) : page :=
  {| message := text; sent := sent p |}.

(** [fetch] sends the request; the server answers with JSON or the call
    throws ([None]). *)
Definition makeRequest (server : request -> option response)
  (route : string) (b : option body) (p : page) : option response * page :=
  let options :=
    match b with
    | Some _ => {| route := route; method := "POST"; req_body := b |}
    | None => {| route := route; method := "GET"; req_body := None |}
    end in
  (server options, {| message := message p; sent := (sent p ++ [options])%list |}).

(** The message the checks of the click handler choose. *)
Definition check_message (f : form) : string :=
  if String.eqb (user f) "" || String.eqb (pass f) ""
     || String.eqb (confirm f) "" || String.eqb (email f) "" then
    "All fields must be filled."
  else if negb (String.eqb (pass f) (confirm f)) then
    "The passwords do not match."
  else if negb (JS.includes (email f) ".") || negb (JS.includes (email f) "@") then
    "Please provide a valid email."
  else if (JS.length (user f) <? 5) || (JS.length (pass f) <? 6) then
    "Username > 5, Password > 6."
  else
    "Attempting to create account...".

(** The click listener [attachButtonScript] puts on the create button. *)
Definition click (server : request -> option response) (f : form) (p : page) : page :=
  let p := setMessage (check_message f) p in
  let '(createResponse, p) :=
    makeRequest server "/sign-up"
      (Some {| username := user f; password := pass f; body_email := email f |}) p in
  match createResponse with
  | None => p
  | Some createResponse =>
      if negb (r_account_created createResponse) then
        setMessage ("An error occurred: " ++ r_info createResponse) p
      else
        setMessage "Your account has been created!" p
  end.

End Signup.

(** ** accounts.js: the lookups by user name and by id *)

(** The query [{"_id": ObjectId(user_id)}], on identifiers as [toString()]
    prints them. *)
Definition by_id (oid : string) (a : account) : bool :=
  String.eqb (a_id a) oid.

Section Account_lookups.

(** [ObjectId(s)] of the bson package: the identifier the string denotes, as
    [toString()] prints it, or [None] when the constructor throws. *)
Variable ObjectId : string -> option string.

(** [null] is [None]. *)
Definition get_account_username (db : database) (user_id : string) : option string :=
  let username := None in
  let attempt : option string :=
    match ObjectId user_id with
    | None => None
    | Some oid =>
        match mongo.get_data (by_id oid) (accounts db) with
        | None => None
        | Some matching_accounts =>
            match nth_error matching_accounts 0 with
            | None => None
            | Some my_account => Some (a_username my_account)
            end
        end
    end in
  match attempt with
  | Some found => Some found
  | None => username
  end.

End Account_lookups.

(** [undefined] is [None]. *)
Definition get_id_username (db : database) (username : string) : option string :=
  match mongo.get_data (by_username username) (accounts db) with
  | None => None
  | Some found =>
      match nth_error found 0 with
      | None => None
      | Some account0 => Some (a_id account0)
      end
  end.

(** ** Notions the properties are stated with *)

(** [d] is the first document of the collection that satisfies [P]. *)
Definition first_with {D : Type} (P : D -> Prop) (collection : list D) (d : D) : Prop :=
  exists before after,
    collection = (before ++ d :: after)%list /\ P d /\
    forall x, In x before -> ~ P x.

(** No user has two session documents. *)
Definition one_session_per_user (collection : list session) : Prop :=
  forall user_id, (List.length (filter (by_user_id user_id) collection) <= 1)%nat.

(** The session with its [issue_time] set to [now]. *)
Definition refreshed (now : Z) (s : session) : session :=
  {| s_id := s_id s; s_user_id := s_user_id s; s_hash := s_hash s;
     s_salt := s_salt s; s_issue_time := now |}.

(** The document [sign_up] stores. *)
Definition saved_account (pbkdf2Sync : Crypto.kdf) (e : env)
  (username password email : string) : account :=
  {| a_id := insertedId e; a_time := getTime e; a_username := username;
     a_email := email;
     a_hash := hash (genPassword pbkdf2Sync e password);
     a_salt := salt (genPassword pbkdf2Sync e password) |}.

(** The document [issue_session] stores for a user without a session. *)
Definition new_session (pbkdf2Sync : Crypto.kdf) (e : env) (user_id : string) : session :=
  {| s_id := insertedId e; s_user_id := user_id;
     s_hash := hash (genPassword pbkdf2Sync e user_id);
     s_salt := salt (genPassword pbkdf2Sync e user_id);
     s_issue_time := getTime e |}.

(** ** Concrete data the properties are run on *)

Module Sample.

(** A stand-in for PBKDF2: the bytes of the password, a colon and the salt. *)
Definition kdf : Crypto.kdf :=
  fun password salt _ _ _ => list_byte_of_string (password ++ ":" ++ salt).

Definition digest (password salt : string) : string :=
  Eval vm_compute in Crypto.toString_hex (kdf password salt 10000 64 "sha512").

Definition e : env :=
  {| getTime := 200000000;
     randomBytes := fun n => repeat Byte.x2a (Z.to_nat n);
     insertedId := "61f0c0ffee0000000000000a" |}.

Definition alice : account :=
  {| a_id := "61f0c0ffee00000000000001"; a_time := 1000; a_username := "alice1";
     a_email := "alice@ohlone.edu"; a_hash := digest "secret1" "00"; a_salt := "00" |}.

(** A second account under the same user name, with another password. *)
Definition alice_again : account :=
  {| a_id := "61f0c0ffee00000000000002"; a_time := 2000; a_username := "alice1";
     a_email := "other@ohlone.edu"; a_hash := digest "secret2" "01"; a_salt := "01" |}.

Definition old_session : session :=
  {| s_id := "61f0c0ffee00000000000011"; s_user_id := "61f0c0ffee00000000000001";
     s_hash := digest "61f0c0ffee00000000000001" "aa"; s_salt := "aa";
     s_issue_time := 0 |}.

(** A session issued at the time of [e]. *)
Definition fresh_session : session :=
  {| s_id := "61f0c0ffee00000000000012"; s_user_id := "61f0c0ffee00000000000001";
     s_hash := digest "61f0c0ffee00000000000001" "aa"; s_salt := "aa";
     s_issue_time := 200000000 |}.

Definition db : database :=
  {| accounts := [alice]; sessions := [fresh_session] |}.

Definition db_two_alices : database :=
  {| accounts := [alice; alice_again]; sessions := [] |}.

(** Class objects with the three fields the builder reads. *)
Record class : Type := mkClass { NAME : string; DIVISION : string; NUMBER : string }.

Definition math101 : class := {| NAME := "Calculus I"; DIVISION := "MATH"; NUMBER := "101" |}.
Definition cs102 : class := {| NAME := "Programming"; DIVISION := "CS"; NUMBER := "102" |}.

Definition get_class (acronym : string) : class :=
  if String.eqb acronym "MATH-101" then math101 else cs102.

Definition stringify_class (c : class) : string :=
  let quote := String (Ascii.ascii_of_nat 34) EmptyString in
  "{" ++ quote ++ "NAME" ++ quote ++ ":" ++ quote ++ NAME c ++ quote ++ "}".

(** A page whose table has not been set up. *)
Definition blank : ScheduleBuilder.state class :=
  {| ScheduleBuilder.columns := 0; ScheduleBuilder.semesters := [];
     ScheduleBuilder.builderHeader := []; ScheduleBuilder.builderRows := [];
     ScheduleBuilder.dispatched := [] |}.

(** The builder after [initialize] with one class selected. *)
Definition started : ScheduleBuilder.state class :=
  ScheduleBuilder.initialize NAME DIVISION NUMBER get_class [math101] blank.

Definition filled : Signup.form :=
  {| Signup.user := "abcde"; Signup.pass := "secret1"; Signup.confirm := "secret1";
     Signup.email := "a@ohlone.edu" |}.

Definition empty_form : Signup.form :=
  {| Signup.user := ""; Signup.pass := ""; Signup.confirm := ""; Signup.email := "" |}.

Definition page0 : Signup.page := {| Signup.message := ""; Signup.sent := [] |}.

(** A server that turns every sign-up down. *)
Definition refusing (_ : Signup.request) : option Signup.response :=
  Some {| Signup.r_account_created := false; Signup.r_info := "BAD USERNAME PASSWORD" |}.

End Sample.

(** ** Further notions *)

(** The value of a hexadecimal digit; 16 for any other character. *)
Definition hex_value (c : ascii) : N :=
  match c with
  | "0" => 0 | "1" => 1 | "2" => 2 | "3" => 3
  | "4" => 4 | "5" => 5 | "6" => 6 | "7" => 7
  | "8" => 8 | "9" => 9 | "a" => 10 | "b" => 11
  | "c" => 12 | "d" => 13 | "e" => 14 | "f" => 15
  | _ => 16
  end%char%N.

(** Every stored session's hash is the digest of its user id under its salt. *)
Definition well_hashed (pbkdf2Sync : Crypto.kdf) (collection : list session) : Prop :=
  forall s, In s collection ->
    validPassword pbkdf2Sync (s_user_id s) (s_hash s) (s_salt s) = true.

(** The buttons of the entry row, cell after cell. *)
Definition all_buttons (rows : list ScheduleBuilder.td) : list ScheduleBuilder.button :=
  flat_map ScheduleBuilder.buttons rows.

(** A cell shows "No classes selected" exactly when it holds no button, and
    an empty text otherwise. *)
Definition span_consistent (cell : ScheduleBuilder.td) : Prop :=
  ScheduleBuilder.span_textContent cell
  = match ScheduleBuilder.buttons cell with
    | [] => "No classes selected"
    | _ :: _ => ""
    end.

(** The button [add_class] makes for a class. *)
Definition class_button {class : Type} (NAME DIVISION NUMBER : class -> string)
  (clas : class) : ScheduleBuilder.button :=
  {| ScheduleBuilder.b_id := "builder" ++ DIVISION clas ++ "-" ++ NUMBER clas;
     ScheduleBuilder.b_textContent := NAME clas;
     ScheduleBuilder.acr := DIVISION clas ++ "-" ++ NUMBER clas;
     ScheduleBuilder.name := NAME clas |}.

(** The bank of a table rebuilt for [n] semesters with [selected] in it. *)
Definition bank_with {class : Type} (NAME DIVISION NUMBER : class -> string)
  (n : Z) (selected : list class) : ScheduleBuilder.td :=
  {| ScheduleBuilder.td_id := "builderNode" ++ JS.Number_toString n;
     ScheduleBuilder.span_textContent :=
       match selected with
       | [] => "No classes selected"
       | _ :: _ => ""
       end;
     ScheduleBuilder.buttons := map (class_button NAME DIVISION NUMBER) selected |}.

(** ** The awaits of [issue_session] and [update_semesters]

    Both functions are [async] and give way at each [await]; the
    definitions above run a call to its end in one piece.  Here a call is
    cut at its awaits, so that the steps of two calls can be put in any
    order. *)

Module Awaits.

Section Issue_session_steps.

Variable pbkdf2Sync : Crypto.kdf.

(** Line 232: the lookup of the user's sessions. *)
Definition issue_session_lookup (db : database) (user_id : string)
  : option (list session) :=
  mongo.get_data (by_user_id user_id) (sessions db).

(** Lines 233 to 244: the refresh or the insertion, chosen by what the
    lookup returned when it ran. *)
Definition issue_session_write (e : env) (db : database) (user_id : string)
  (matching_sessions : list session) : option database :=
  let written :=
    if negb (Z.of_nat (List.length matching_sessions) =? 0) then
      mongo.update_docs (by_user_id user_id)
        (fun s => {| s_id := s_id s; s_user_id := s_user_id s; s_hash := s_hash s;
                     s_salt := s_salt s; s_issue_time := getTime e |})
        (sessions db)
    else
      let hashSalt := genPassword pbkdf2Sync e user_id in
      let new_doc := fun _id =>
        {| s_id := _id; s_user_id := user_id; s_hash := hash hashSalt;
           s_salt := salt hashSalt; s_issue_time := getTime e |} in
      option_map snd (mongo.add_data new_doc e (sessions db)) in
  option_map (fun sessions' => {| accounts := accounts db; sessions := sessions' |}) written.

(** Lines 246 and 247: the session sent back. *)
Definition issue_session_answer (db : database) (user_id : string)
  : option (option session) :=
  option_map (fun found => nth_error found 0)
    (mongo.get_data (by_user_id user_id) (sessions db)).

(** One call with nothing between its awaits. *)
Definition issue_session_alone (e : env) (db : database) (user_id : string)
  : option session * database :=
  match issue_session_lookup db user_id with
  | None => (None, db)
  | Some matching_sessions =>
      match issue_session_write e db user_id matching_sessions with
      | None => (None, db)
      | Some db' =>
          match issue_session_answer db' user_id with
          | None => (None, db')
          | Some answer => (answer, db')
          end
      end
  end.

(** Two calls for one user, the second started before the first has
    written: both lookups run on the database as it was, then the first
    call writes, then the second. *)
Definition issue_session_overlapping (e1 e2 : env) (db : database) (user_id : string)
  : option database :=
  match issue_session_lookup db user_id, issue_session_lookup db user_id with
  | Some found1, Some found2 =>
      match issue_session_write e1 db user_id found1 with
      | Some db1 => issue_session_write e2 db1 user_id found2
      | None => None
      end
  | _, _ => None
  end.

End Issue_session_steps.

Section Update_semesters_steps.

Variable class : Type.
Variable get_class : string -> class.

(** A call of [update_semesters] waiting at [await ClassRepo.get_class(c.acr)]:
    the cells after the current one, the buttons of the current cell from
    the awaited one on, and [sem_arr].  [ScheduleBuilder.semesters] is not
    part of it: every step reads the static field anew.  The entry row is
    taken not to change while calls wait. *)
Record waiting : Type := mkWaiting {
  cells_left : list ScheduleBuilder.td;
  buttons_left : list ScheduleBuilder.button;
  sem_arr : list class
}.

(** Lines 548 to 553, after the loops. *)
Definition after_loops (st : ScheduleBuilder.state class) : ScheduleBuilder.state class :=
  let st :=
    ScheduleBuilder.set_semesters
      (JS.splice (ScheduleBuilder.semesters st)
         (Z.of_nat (List.length (ScheduleBuilder.semesters st)) - 1)) st in
  ScheduleBuilder.dispatchEvent "Semester Update" st.

(** The outer loop from the given cells on, up to the next [await] or the
    end of the call. *)
Fixpoint outer_loop (cells : list ScheduleBuilder.td) (st : ScheduleBuilder.state class)
  : ScheduleBuilder.state class * option waiting :=
  match cells with
  | [] => (after_loops st, None)
  | sem :: rest =>
      match ScheduleBuilder.buttons sem with
      | [] =>
          outer_loop rest
            (ScheduleBuilder.set_semesters (ScheduleBuilder.semesters st ++ [[]])%list st)
      | _ :: _ =>
          (st, Some {| cells_left := rest; buttons_left := ScheduleBuilder.buttons sem;
                       sem_arr := [] |})
      end
  end.

(** The call up to its first [await]. *)
Definition start (st : ScheduleBuilder.state class)
  : ScheduleBuilder.state class * option waiting :=
  let st := ScheduleBuilder.set_semesters [] st in
  outer_loop (ScheduleBuilder.builderRows st) st.

(** The call from the [await] it waits at up to the next one or the end. *)
Definition resume (w : waiting) (st : ScheduleBuilder.state class)
  : ScheduleBuilder.state class * option waiting :=
  match buttons_left w with
  | [] => (st, None)
  | c :: more =>
      let sem_arr := (sem_arr w ++ [get_class (ScheduleBuilder.acr c)])%list in
      match more with
      | _ :: _ =>
          (st, Some {| cells_left := cells_left w; buttons_left := more;
                       sem_arr := sem_arr |})
      | [] =>
          outer_loop (cells_left w)
            (ScheduleBuilder.set_semesters
               (ScheduleBuilder.semesters st ++ [sem_arr])%list st)
      end
  end.

(** A call resumed again and again with nothing in between. *)
Fixpoint run_on (fuel : nat) (r : ScheduleBuilder.state class * option waiting)
  : ScheduleBuilder.state class :=
  match r with
  | (st, None) => st
  | (st, Some w) =>
      match fuel with
      | O => st
      | S fuel' => run_on fuel' (resume w st)
      end
  end.

(** One call of [update_semesters] run to its end with no other code
    between its awaits: one [await] for each button of the row. *)
Definition update_semesters_alone (st : ScheduleBuilder.state class)
  : ScheduleBuilder.state class :=
  run_on (List.length (all_buttons (ScheduleBuilder.builderRows st))) (start st).

(** What runs next on the page: a new call of [update_semesters], or the
    [k]-th call made so far going on from the [await] it waits at. *)
Inductive event : Type :=
| Call
| Resume (k : nat).

(** The static fields and, for each call made so far, where it waits
    ([None] once it has returned). *)
Definition step (ev : event) (p : ScheduleBuilder.state class * list (option waiting))
  : ScheduleBuilder.state class * list (option waiting) :=
  match ev with
  | Call =>
      let (st, w) := start (fst p) in
      (st, (snd p ++ [w])%list)
  | Resume k =>
      match nth_error (snd p) k with
      | Some (Some w) =>
          let (st, w') := resume w (fst p) in
          (st, ScheduleBuilder.update_at k (fun _ => w') (snd p))
      | _ => p
      end
  end.

Definition run_events (evs : list event) (st : ScheduleBuilder.state class)
  : ScheduleBuilder.state class * list (option waiting) :=
  fold_left (fun p ev => step ev p) evs (st, []).

End Update_semesters_steps.

Arguments cells_left {class} _.
Arguments buttons_left {class} _.
Arguments sem_arr {class} _.
Arguments after_loops {class} st.
Arguments outer_loop {class} cells st.
Arguments start {class} st.
Arguments resume {class} get_class w st.
Arguments run_on {class} get_class fuel r.
Arguments update_semesters_alone {class} get_class st.
Arguments step {class} get_class ev p.
Arguments run_events {class} get_class evs st.

End Awaits.

Module Trial.

(** [ObjectId] on strings of 24 characters, the others throw. *)
Definition ObjectId (s : string) : option string :=
  if Nat.eqb (String.length s) 24 then Some s else None.

Definition e_later : env :=
  {| getTime := 250000000;
     randomBytes := fun n => repeat Byte.x2a (Z.to_nat n);
     insertedId := "61f0c0ffee0000000000000b" |}.

(** The environment of a second call: a later time, other random bytes
    and another identifier. *)
Definition e_second : env :=
  {| getTime := 200000005;
     randomBytes := fun n => repeat Byte.x2b (Z.to_nat n);
     insertedId := "61f0c0ffee0000000000000d" |}.

Definition e_much_later : env :=
  {| getTime := 900000000;
     randomBytes := fun n => repeat Byte.x2a (Z.to_nat n);
     insertedId := "61f0c0ffee0000000000000c" |}.

(** A database whose one session is a day and more old at the time of
    [Sample.e]. *)
Definition db_old : database :=
  {| accounts := [Sample.alice]; sessions := [Sample.old_session] |}.

Definition no_sessions : database :=
  {| accounts := [Sample.alice]; sessions := [] |}.

Definition passing : Signup.form :=
  {| Signup.user := "bobby77"; Signup.pass := "hunter22"; Signup.confirm := "hunter22";
     Signup.email := "bob@ohlone.edu" |}.

(** A server that cannot be reached. *)
Definition unreachable (_ : Signup.request) : option Signup.response := None.

(** The builder of [Sample.started] after a second class was selected. *)
Definition two_in_bank : ScheduleBuilder.state Sample.class :=
  ScheduleBuilder.run Sample.NAME Sample.DIVISION Sample.NUMBER Sample.get_class
    (ScheduleBuilder.Add_class Sample.class Sample.cs102) Sample.started.

(** A session of another user, under another salt. *)
Definition other_session : session :=
  {| s_id := "61f0c0ffee00000000000013"; s_user_id := "61f0c0ffee00000000000002";
     s_hash := Sample.digest "61f0c0ffee00000000000002" "bb"; s_salt := "bb";
     s_issue_time := 150000000 |}.

Definition db_two_users : database :=
  {| accounts := [Sample.alice]; sessions := [Sample.fresh_session; other_session] |}.

(** The builder of [Sample.started] after its class was dragged from the
    bank into the first semester. *)
Definition math_in_first : ScheduleBuilder.state Sample.class :=
  ScheduleBuilder.drop Sample.get_class 0 "builderNode1" "builderMATH-101" Sample.started.

End Trial.

(** * Properties *)

(** ** Auxiliary facts *)

Lemma older_than_a_day_spec (now issue_time : Z) :
  older_than_a_day now issue_time = true <-> 86400000 < now - issue_time.
Proof.
  unfold older_than_a_day. rewrite negb_true_iff.
  rewrite <- not_true_iff_false, Qle_bool_iff.
  unfold Qle, Qdiv, Qmult, Qinv, inject_Z. simpl. lia.
Qed.

Lemma older_than_a_day_false (now issue_time : Z) :
  older_than_a_day now issue_time = false <-> now - issue_time <= 86400000.
Proof.
  rewrite <- not_true_iff_false, older_than_a_day_spec. lia.
Qed.

Lemma filter_nil_iff {D : Type} (q : D -> bool) (l : list D) :
  filter q l = [] <-> forall x, In x l -> q x = false.
Proof.
  induction l as [|d l IH]; simpl.
  - split; [intros _ x []|reflexivity].
  - destruct (q d) eqn:Hd.
    + split; [discriminate|]. intros H. specialize (H d (or_introl eq_refl)). congruence.
    + rewrite IH. split.
      * intros H x [<-|Hx]; auto.
      * intros H x Hx. apply H. now right.
Qed.

(** The lookup puts the first matching document at index 0. *)
Lemma filter_first {D : Type} (q : D -> bool) (before after : list D) (d : D) :
  q d = true -> (forall x, In x before -> q x = false) ->
  filter q (before ++ d :: after) = d :: filter q after.
Proof.
  intros Hd Hb. rewrite filter_app.
  replace (filter q before) with (@nil D) by (symmetry; now apply filter_nil_iff).
  simpl. now rewrite Hd.
Qed.

(** A non-empty lookup has a first matching document. *)
Lemma filter_cons_first {D : Type} (q : D -> bool) (l : list D) (d : D) (rest : list D) :
  filter q l = d :: rest ->
  exists before after,
    l = (before ++ d :: after)%list /\ q d = true /\
    (forall x, In x before -> q x = false) /\ rest = filter q after.
Proof.
  induction l as [|x l IH]; simpl; [discriminate|].
  destruct (q x) eqn:Hx.
  - intros [= -> <-]. exists [], l. simpl. repeat split; auto. intros y [].
  - intros H. destruct (IH H) as (before & after & -> & Hd & Hb & Hr).
    exists (x :: before), after. simpl. repeat split; auto.
    intros y [<-|Hy]; auto.
Qed.

Lemma length_pos_iff_exists {D : Type} (q : D -> bool) (l : list D) :
  (0 <? Z.of_nat (List.length (filter q l))) = true <-> exists x, In x l /\ q x = true.
Proof.
  rewrite Z.ltb_lt. split.
  - destruct (filter q l) as [|d rest] eqn:Hf; simpl; [lia|]. intros _.
    exists d. apply filter_In. rewrite Hf. now left.
  - intros (x & Hin & Hq).
    assert (Hx : In x (filter q l)) by (apply filter_In; auto).
    destruct (filter q l); [destruct Hx|simpl; lia].
Qed.

Lemma length_pos_false_iff {D : Type} (q : D -> bool) (l : list D) :
  (0 <? Z.of_nat (List.length (filter q l))) = false <-> forall x, In x l -> q x = false.
Proof.
  rewrite <- not_true_iff_false, length_pos_iff_exists. split.
  - intros H x Hx. destruct (q x) eqn:Hq; auto. exfalso. apply H. eauto.
  - intros H (x & Hx & Hq). rewrite (H x Hx) in Hq. discriminate.
Qed.

Lemma by_username_true (u : string) (a : account) : by_username u a = true <-> a_username a = u.
Proof. apply String.eqb_eq. Qed.

Lemma by_username_false (u : string) (a : account) : by_username u a = false <-> a_username a <> u.
Proof. apply String.eqb_neq. Qed.

Lemma by_email_false (m : string) (a : account) : by_email m a = false <-> a_email a <> m.
Proof. apply String.eqb_neq. Qed.

Lemma by_user_id_true (u : string) (s : session) : by_user_id u s = true <-> s_user_id s = u.
Proof. apply String.eqb_eq. Qed.

Lemma by_user_id_false (u : string) (s : session) : by_user_id u s = false <-> s_user_id s <> u.
Proof. apply String.eqb_neq. Qed.

Lemma by_hash_true (h : string) (s : session) : by_hash h s = true <-> s_hash s = h.
Proof. apply String.eqb_eq. Qed.

Lemma by_hash_false (h : string) (s : session) : by_hash h s = false <-> s_hash s <> h.
Proof. apply String.eqb_neq. Qed.

(** ** Password hashing *)

Section Accounts_properties.

Variable pbkdf2Sync : Crypto.kdf.

Lemma validPassword_iff (password hash salt : string) :
  validPassword pbkdf2Sync password hash salt = true
  <-> Crypto.toString_hex (pbkdf2Sync password salt 10000 64 "sha512") = hash.
Proof.
  unfold validPassword, JS.strict_eq. rewrite String.eqb_eq.
  split; intros H; now symmetry.
Qed.

(** C1. For every password [p], [genPassword p] returns the hex of the 32
    random bytes as [salt] and, as [hash], the hex PBKDF2-SHA512 digest of
    [p] with that salt (10000 iterations, 64-byte key); [validPassword p'
    hash salt] is true exactly when the digest of [p'] with [salt] is
    [hash]; and a generated pair validates the password it was made from. *)
Theorem genPassword_validPassword_roundtrip (e : env) (p : string) :
  salt (genPassword pbkdf2Sync e p) = Crypto.toString_hex (randomBytes e 32) /\
  hash (genPassword pbkdf2Sync e p)
    = Crypto.toString_hex
        (pbkdf2Sync p (salt (genPassword pbkdf2Sync e p)) 10000 64 "sha512") /\
  (forall p' h s : string,
      validPassword pbkdf2Sync p' h s = true
      <-> Crypto.toString_hex (pbkdf2Sync p' s 10000 64 "sha512") = h) /\
  validPassword pbkdf2Sync p
    (hash (genPassword pbkdf2Sync e p)) (salt (genPassword pbkdf2Sync e p)) = true.
Proof.
  split; [reflexivity|]. split; [reflexivity|]. split.
  - intros p' h s. apply validPassword_iff.
  - apply validPassword_iff. reflexivity.
Qed.

(** ** Sign-up *)

Lemma username_exists_true (db : database) (u : string) :
  truthy (username_exists db u) = true
  <-> exists a, In a (accounts db) /\ a_username a = u.
Proof.
  unfold username_exists, mongo.get_data, truthy.
  rewrite length_pos_iff_exists. split; intros (a & Ha & Hq); exists a; split; auto;
    now apply by_username_true.
Qed.

Lemma username_exists_false (db : database) (u : string) :
  truthy (username_exists db u) = false
  <-> forall a, In a (accounts db) -> a_username a <> u.
Proof.
  unfold username_exists, mongo.get_data, truthy.
  rewrite length_pos_false_iff. split; intros H a Ha; apply by_username_false; auto.
Qed.

Lemma email_exists_true (db : database) (m : string) :
  truthy (email_exists db m) = true
  <-> exists a, In a (accounts db) /\ a_email a = m.
Proof.
  unfold email_exists, mongo.get_data, truthy.
  rewrite length_pos_iff_exists. split; intros (a & Ha & Hq); exists a; split; auto;
    now apply String.eqb_eq.
Qed.

Lemma email_exists_false (db : database) (m : string) :
  truthy (email_exists db m) = false
  <-> forall a, In a (accounts db) -> a_email a <> m.
Proof.
  unfold email_exists, mongo.get_data, truthy.
  rewrite length_pos_false_iff. split; intros H a Ha; apply by_email_false; auto.
Qed.

Lemma valid_user_pass_combo_spec (username password : string) :
  valid_user_pass_combo username password = true
  <-> 5 < JS.length username /\ 5 < JS.length password.
Proof.
  unfold valid_user_pass_combo. now rewrite andb_true_iff, !Z.ltb_lt.
Qed.

(** [sign_up] by the first check that fails. *)
Lemma sign_up_cases (e : env) (db : database) (username password email : string) :
  sign_up pbkdf2Sync e db username password email
  = Some
      (if truthy (username_exists db username) then
         ({| su_info := "USERNAME ALREADY EXISTS"; account_created := false;
             su_user_id := JS.Zero |}, db)
       else if negb (valid_user_pass_combo username password) then
         ({| su_info := "BAD USERNAME PASSWORD"; account_created := false;
             su_user_id := JS.Zero |}, db)
       else if truthy (email_exists db email) then
         ({| su_info := "EMAIL TAKEN"; account_created := false;
             su_user_id := JS.Zero |}, db)
       else
         ({| su_info := "ACCOUNT CREATED"; account_created := true;
             su_user_id := JS.Str (insertedId e) |},
          {| accounts :=
               (accounts db ++ [saved_account pbkdf2Sync e username password email])%list;
             sessions := sessions db |})).
Proof.
  unfold sign_up.
  destruct (truthy (username_exists db username)); [reflexivity|].
  destruct (negb (valid_user_pass_combo username password)); [reflexivity|].
  destruct (truthy (email_exists db email)); reflexivity.
Qed.


(** ** Login *)

Lemma login_lookup_empty (db : database) (username password : string) :
  (forall a, In a (accounts db) -> a_username a <> username) ->
  login pbkdf2Sync db username password
  = Some {| li_info := "ACCOUNT DOES NOT EXIST"; li_user_id := JS.Zero; loggedIn := false |}.
Proof.
  intros Hno. unfold login, mongo.get_data.
  replace (filter (by_username username) (accounts db)) with (@nil account); [reflexivity|].
  symmetry. apply filter_nil_iff. intros a Ha. apply by_username_false. auto.
Qed.

Lemma login_lookup_first (db : database) (username password : string) (a : account) :
  first_with (fun a => a_username a = username) (accounts db) a ->
  login pbkdf2Sync db username password
  = Some (if validPassword pbkdf2Sync password (a_hash a) (a_salt a)
          then {| li_info := "LOGIN SUCCESSFUL"; li_user_id := JS.Str (a_id a);
                  loggedIn := true |}
          else {| li_info := "INCORRECT PASSWORD"; li_user_id := JS.Zero;
                  loggedIn := false |}).
Proof.
  intros (before & after & Hdb & Ha & Hb). unfold login, mongo.get_data.
  rewrite Hdb, filter_first.
  - simpl. now destruct (validPassword pbkdf2Sync password (a_hash a) (a_salt a)).
  - now apply by_username_true.
  - intros x Hx. apply by_username_false. exact (Hb x Hx).
Qed.

Lemma first_with_or_none (db : database) (username : string) :
  (forall a, In a (accounts db) -> a_username a <> username) \/
  exists a, first_with (fun a => a_username a = username) (accounts db) a.
Proof.
  destruct (filter (by_username username) (accounts db)) as [|a rest] eqn:Hf.
  - left. intros a Ha. apply by_username_false.
    now apply (proj1 (filter_nil_iff _ _) Hf).
  - right. exists a. destruct (filter_cons_first _ _ _ _ Hf) as (b & c & Hdb & Ha & Hb & _).
    exists b, c. repeat split; auto.
    + now apply by_username_true.
    + intros x Hx. apply by_username_false. auto.
Qed.

Lemma first_with_unique {D : Type} (P : D -> Prop) (l : list D) (d d' : D) :
  first_with P l d -> first_with P l d' -> d = d'.
Proof.
  intros (b & c & Hl & Hd & Hb) (b' & c' & Hl' & Hd' & Hb').
  revert b' l Hl Hl' Hb'. induction b as [|x b IH]; intros [|x' b'] l Hl Hl' Hb'; subst l.
  - simpl in Hl'. congruence.
  - simpl in Hl'. injection Hl' as -> _. destruct (Hb' x' (or_introl eq_refl)). exact Hd.
  - simpl in Hl'. injection Hl' as -> _. destruct (Hb d' (or_introl eq_refl)). exact Hd'.
  - simpl in Hl'. injection Hl' as -> Hl'.
    apply (IH (fun y Hy => Hb y (or_intror Hy)) b' (b ++ d :: c)%list eq_refl Hl').
    intros y Hy. apply Hb'. now right.
Qed.

(** C4, as amended.  [login] returns a result.  It reports [loggedIn: true]
    exactly when an account has the user name and the password validates
    against the hash and salt of the first such account of the collection;
    then the info is "LOGIN SUCCESSFUL" and the user id is that account's
    [_id].  When the password does not validate against that first account
    the result is "INCORRECT PASSWORD", and when no account has the user
    name it is "ACCOUNT DOES NOT EXIST", both with user id 0 and
    [loggedIn: false]. *)
Theorem login_first_account (db : database) (username password : string) :
  exists r,
    login pbkdf2Sync db username password = Some r /\
    (loggedIn r = true <->
       exists a, first_with (fun a => a_username a = username) (accounts db) a /\
                 validPassword pbkdf2Sync password (a_hash a) (a_salt a) = true) /\
    (forall a, first_with (fun a => a_username a = username) (accounts db) a ->
       validPassword pbkdf2Sync password (a_hash a) (a_salt a) = true ->
       r = {| li_info := "LOGIN SUCCESSFUL"; li_user_id := JS.Str (a_id a);
              loggedIn := true |}) /\
    (forall a, first_with (fun a => a_username a = username) (accounts db) a ->
       validPassword pbkdf2Sync password (a_hash a) (a_salt a) = false ->
       r = {| li_info := "INCORRECT PASSWORD"; li_user_id := JS.Zero;
              loggedIn := false |}) /\
    ((forall a, In a (accounts db) -> a_username a <> username) ->
       r = {| li_info := "ACCOUNT DOES NOT EXIST"; li_user_id := JS.Zero;
              loggedIn := false |}).
Proof.
  destruct (first_with_or_none db username) as [Hno|(a & Ha)].
  - rewrite (login_lookup_empty _ _ _ Hno). eexists. split; [reflexivity|].
    assert (Hnone : forall a, ~ first_with (fun a => a_username a = username) (accounts db) a).
    { intros a (b & c & Hdb & Hu & _). apply (Hno a); auto.
      rewrite Hdb. apply in_or_app. right. now left. }
    repeat split.
    + discriminate.
    + intros (a & Ha & _). now destruct (Hnone a).
    + intros a Ha. now destruct (Hnone a).
    + intros a Ha. now destruct (Hnone a).
  - rewrite (login_lookup_first _ _ _ _ Ha). eexists. split; [reflexivity|].
    assert (Hin : In a (accounts db)).
    { destruct Ha as (b & c & Hdb & _). rewrite Hdb. apply in_or_app. right. now left. }
    assert (Hu : a_username a = username) by (now destruct Ha as (b & c & _ & Hu & _)).
    destruct (validPassword pbkdf2Sync password (a_hash a) (a_salt a)) eqn:Hv.
    + repeat split.
      * intros _. exists a. auto.
      * intros a' Ha' _. now rewrite (first_with_unique _ _ _ _ Ha' Ha).
      * intros a' Ha' Hv'. rewrite (first_with_unique _ _ _ _ Ha' Ha) in Hv'. congruence.
      * intros Hno. now destruct (Hno a Hin).
    + repeat split.
      * discriminate.
      * intros (a' & Ha' & Hv'). rewrite (first_with_unique _ _ _ _ Ha' Ha) in Hv'. congruence.
      * intros a' Ha' Hv'. rewrite (first_with_unique _ _ _ _ Ha' Ha) in Hv'. congruence.
      * intros Hno. now destruct (Hno a Hin).
Qed.

(** ** Session verification *)

Lemma verify_session_lookup_first (e : env) (db : database) (hash : string) (s : session) :
  first_with (fun s => s_hash s = hash) (sessions db) s ->
  verify_session pbkdf2Sync e db hash
  = if older_than_a_day (getTime e) (s_issue_time s) then
      {| v_info := Some "EXPIRED"; valid := false; v_user_id := Some JS.Zero |}
    else if validPassword pbkdf2Sync (s_user_id s) hash (s_salt s) then
      {| v_info := Some "VALID"; valid := true; v_user_id := Some (JS.Str (s_user_id s)) |}
    else
      {| v_info := Some "INVALID"; valid := false; v_user_id := Some JS.Zero |}.
Proof.
  intros (before & after & Hdb & Hs & Hb). unfold verify_session, mongo.get_data.
  rewrite Hdb, filter_first.
  - simpl. destruct (older_than_a_day _ _); [reflexivity|].
    now destruct (validPassword _ _ _ _).
  - now apply by_hash_true.
  - intros x Hx. apply by_hash_false. exact (Hb x Hx).
Qed.

(** C2.  The hash is the key of the lookup: the stored hashes are digests
    under fresh 32-byte salts and no two sessions share one.  Then for every
    stored session whose hash field equals the given hash, [verify_session]
    returns "EXPIRED" with [valid: false] when the current time minus the
    session's issue time is strictly more than 86,400,000 ms; otherwise
    "VALID" with [valid: true] and the session's user id when the hash
    validates against the session's user id and salt; otherwise "INVALID"
    with [valid: false].  When no stored session has the hash the result
    has [valid: false]. *)
Theorem verify_session_keyed_lookup (e : env) (db : database) (hash : string) :
  NoDup (map s_hash (sessions db)) ->
  (forall s, In s (sessions db) -> s_hash s = hash ->
     (86400000 < getTime e - s_issue_time s ->
        verify_session pbkdf2Sync e db hash
        = {| v_info := Some "EXPIRED"; valid := false; v_user_id := Some JS.Zero |}) /\
     (getTime e - s_issue_time s <= 86400000 ->
        validPassword pbkdf2Sync (s_user_id s) hash (s_salt s) = true ->
        verify_session pbkdf2Sync e db hash
        = {| v_info := Some "VALID"; valid := true;
             v_user_id := Some (JS.Str (s_user_id s)) |}) /\
     (getTime e - s_issue_time s <= 86400000 ->
        validPassword pbkdf2Sync (s_user_id s) hash (s_salt s) = false ->
        verify_session pbkdf2Sync e db hash
        = {| v_info := Some "INVALID"; valid := false; v_user_id := Some JS.Zero |})) /\
  ((forall s, In s (sessions db) -> s_hash s <> hash) ->
     verify_session pbkdf2Sync e db hash
     = {| v_info := Some "INVALID"; valid := false; v_user_id := Some JS.Zero |}).
Proof.
  intros Hkey. split.
  - intros s Hin Hhash.
    assert (Hs : first_with (fun s => s_hash s = hash) (sessions db) s).
    { apply in_split in Hin. destruct Hin as (before & after & Hdb).
      exists before, after. split; [exact Hdb|]. split; [exact Hhash|].
      intros x Hx Hxh. rewrite Hdb, map_app in Hkey. simpl in Hkey.
      apply NoDup_remove_2 in Hkey. apply Hkey. apply in_or_app. left.
      rewrite Hhash, <- Hxh. now apply in_map. }
    rewrite (verify_session_lookup_first _ _ _ _ Hs). repeat split.
    + intros Hold. apply older_than_a_day_spec in Hold. now rewrite Hold.
    + intros Hnew Hv. apply older_than_a_day_false in Hnew. now rewrite Hnew, Hv.
    + intros Hnew Hv. apply older_than_a_day_false in Hnew. now rewrite Hnew, Hv.
  - intros Hno. unfold verify_session, mongo.get_data.
    replace (filter (by_hash hash) (sessions db)) with (@nil session); [reflexivity|].
    symmetry. apply filter_nil_iff. intros s Hs. apply by_hash_false. auto.
Qed.

(** ** Session issuance *)

Lemma filter_refreshed (now : Z) (user_id u : string) (l : list session) :
  filter (by_user_id u)
    (map (fun s => if by_user_id user_id s then refreshed now s else s) l)
  = map (fun s => if by_user_id user_id s then refreshed now s else s)
      (filter (by_user_id u) l).
Proof.
  induction l as [|s l IH]; simpl; [reflexivity|].
  assert (Hsame : by_user_id u (if by_user_id user_id s then refreshed now s else s)
                  = by_user_id u s) by (now destruct (by_user_id user_id s)).
  rewrite Hsame. destruct (by_user_id u s); simpl; now rewrite IH.
Qed.

Lemma head_of_lookup (user_id : string) (l : list session) (s : session) :
  In s l -> s_user_id s = user_id ->
  exists s', nth_error (filter (by_user_id user_id) l) 0 = Some s' /\
             In s' l /\ s_user_id s' = user_id.
Proof.
  intros Hin Hu.
  assert (Hf : In s (filter (by_user_id user_id) l))
    by (apply filter_In; split; [exact Hin|now apply by_user_id_true]).
  destruct (filter (by_user_id user_id) l) as [|s' rest] eqn:Hl; [destruct Hf|].
  exists s'. split; [reflexivity|].
  assert (Hs' : In s' (filter (by_user_id user_id) l)) by (rewrite Hl; now left).
  apply filter_In in Hs'. destruct Hs' as [Hs' Hq]. split; [exact Hs'|].
  now apply by_user_id_true.
Qed.

Lemma issue_session_refresh (e : env) (db : database) (user_id : string) :
  (exists s, In s (sessions db) /\ s_user_id s = user_id) ->
  issue_session pbkdf2Sync e db user_id
  = (nth_error
       (filter (by_user_id user_id)
          (map (fun s => if by_user_id user_id s then refreshed (getTime e) s else s)
             (sessions db))) 0,
     {| accounts := accounts db;
        sessions := map (fun s => if by_user_id user_id s
                                  then refreshed (getTime e) s else s) (sessions db) |}).
Proof.
  intros (s & Hin & Hu). unfold issue_session, mongo.get_data, mongo.update_docs.
  assert (Hf : In s (filter (by_user_id user_id) (sessions db)))
    by (apply filter_In; split; [exact Hin|now apply by_user_id_true]).
  destruct (filter (by_user_id user_id) (sessions db)) as [|s0 rest] eqn:Hl; [destruct Hf|].
  reflexivity.
Qed.

Lemma issue_session_insert (e : env) (db : database) (user_id : string) :
  (forall s, In s (sessions db) -> s_user_id s <> user_id) ->
  issue_session pbkdf2Sync e db user_id
  = (Some (new_session pbkdf2Sync e user_id),
     {| accounts := accounts db;
        sessions := (sessions db ++ [new_session pbkdf2Sync e user_id])%list |}).
Proof.
  intros Hno. unfold issue_session, mongo.get_data, mongo.add_data.
  assert (Hnil : filter (by_user_id user_id) (sessions db) = []).
  { apply filter_nil_iff. intros s Hs. apply by_user_id_false. auto. }
  rewrite Hnil. simpl. rewrite filter_app, Hnil. simpl.
  unfold by_user_id at 1. simpl. rewrite String.eqb_refl. reflexivity.
Qed.

Lemma session_or_none (db : database) (user_id : string) :
  (exists s, In s (sessions db) /\ s_user_id s = user_id) \/
  (forall s, In s (sessions db) -> s_user_id s <> user_id).
Proof.
  destruct (filter (by_user_id user_id) (sessions db)) as [|s rest] eqn:Hf.
  - right. intros s Hs. apply by_user_id_false. now apply (proj1 (filter_nil_iff _ _) Hf).
  - left. exists s.
    assert (Hs : In s (filter (by_user_id user_id) (sessions db))) by (rewrite Hf; now left).
    apply filter_In in Hs. destruct Hs as [Hs Hq]. split; [exact Hs|].
    now apply by_user_id_true.
Qed.

Lemma issue_session_steps (e : env) (db : database) (user_id : string) :
  issue_session pbkdf2Sync e db user_id
  = Awaits.issue_session_alone pbkdf2Sync e db user_id.
Proof.
  unfold issue_session, Awaits.issue_session_alone, Awaits.issue_session_lookup,
    Awaits.issue_session_write, Awaits.issue_session_answer,
    mongo.get_data, mongo.update_docs, mongo.add_data.
  destruct (negb _); reflexivity.
Qed.

(** C6, as amended.  A call of [issue_session] that runs with no other call
    for the user between its awaits is its lookup, its write and its
    read-back one after the other.  When a session document of the user
    exists, it sets the issue time of that user's sessions to the current
    time and inserts nothing; otherwise it appends exactly one session,
    whose salt is the hex text of 32 random bytes and whose hash is the hex
    text of PBKDF2 (10000 rounds, 64 bytes, sha512) of the user id under
    that salt, so that the hash validates against the user id and the salt.
    Either way it returns a session document of the collection that belongs
    to the user, and a collection with at most one session per user stays
    so. *)
Theorem issue_session_one_per_user (e : env) (db : database) (user_id : string) :
  accounts (snd (issue_session pbkdf2Sync e db user_id)) = accounts db /\
  ((exists s, In s (sessions db) /\ s_user_id s = user_id) ->
     sessions (snd (issue_session pbkdf2Sync e db user_id))
     = map (fun s => if String.eqb (s_user_id s) user_id
                     then refreshed (getTime e) s else s) (sessions db) /\
     List.length (sessions (snd (issue_session pbkdf2Sync e db user_id)))
     = List.length (sessions db)) /\
  ((forall s, In s (sessions db) -> s_user_id s <> user_id) ->
     sessions (snd (issue_session pbkdf2Sync e db user_id))
     = (sessions db
          ++ [{| s_id := insertedId e; s_user_id := user_id;
                 s_hash :=
                   Crypto.toString_hex
                     (pbkdf2Sync user_id (Crypto.toString_hex (randomBytes e 32))
                        10000 64 "sha512");
                 s_salt := Crypto.toString_hex (randomBytes e 32);
                 s_issue_time := getTime e |}])%list /\
     validPassword pbkdf2Sync user_id
       (Crypto.toString_hex
          (pbkdf2Sync user_id (Crypto.toString_hex (randomBytes e 32)) 10000 64 "sha512"))
       (Crypto.toString_hex (randomBytes e 32)) = true) /\
  (exists s,
      fst (issue_session pbkdf2Sync e db user_id) = Some s /\
      In s (sessions (snd (issue_session pbkdf2Sync e db user_id))) /\
      s_user_id s = user_id) /\
  (one_session_per_user (sessions db) ->
   one_session_per_user (sessions (snd (issue_session pbkdf2Sync e db user_id)))) /\
  issue_session pbkdf2Sync e db user_id
  = Awaits.issue_session_alone pbkdf2Sync e db user_id.
Proof.
  destruct (session_or_none db user_id) as [Hex|Hno].
  - rewrite <- issue_session_steps. rewrite (issue_session_refresh _ _ _ Hex). simpl.
    split; [reflexivity|]. split; [|split; [|split; [|split; [|reflexivity]]]].
    + intros _. split; [reflexivity|apply length_map].
    + intros Hno. destruct Hex as (s & Hs & Hu). now destruct (Hno s Hs).
    + destruct Hex as (s & Hs & Hu).
      apply (head_of_lookup user_id _
               (if by_user_id user_id s then refreshed (getTime e) s else s)).
      * apply in_map_iff. exists s. split; [reflexivity|exact Hs].
      * now destruct (by_user_id user_id s).
    + intros Hone u. rewrite filter_refreshed, length_map. apply Hone.
  - rewrite <- issue_session_steps. rewrite (issue_session_insert _ _ _ Hno). simpl.
    split; [reflexivity|]. split; [|split; [|split; [|split; [|reflexivity]]]].
    + intros (s & Hs & Hu). now destruct (Hno s Hs).
    + intros _. split; [reflexivity|].
      unfold validPassword, JS.strict_eq. apply String.eqb_refl.
    + exists (new_session pbkdf2Sync e user_id). split; [reflexivity|].
      split; [|reflexivity]. apply in_or_app. right. now left.
    + intros Hone u. rewrite filter_app, length_app. simpl.
      destruct (by_user_id u (new_session pbkdf2Sync e user_id)) eqn:Hq; simpl.
      * apply by_user_id_true in Hq. simpl in Hq. subst u.
        replace (filter (by_user_id user_id) (sessions db)) with (@nil session);
          [simpl; lia|].
        symmetry. apply filter_nil_iff. intros s Hs. apply by_user_id_false. auto.
      * specialize (Hone u). lia.
Qed.

(** ** Collections with unique keys

    On a collection in which the looked-up field is unique, the first
    matching document is the only one, and the results above hold for any
    stored document with the key. *)

Lemma first_with_of_unique {D K : Type} (key : D -> K) (k : K) (l : list D) (d : D) :
  NoDup (map key l) -> In d l -> key d = k ->
  first_with (fun x => key x = k) l d.
Proof.
  intros Hnodup Hin Hk. apply in_split in Hin. destruct Hin as (before & after & ->).
  exists before, after. split; [reflexivity|]. split; [exact Hk|].
  intros x Hx Hkx. rewrite map_app in Hnodup. simpl in Hnodup.
  apply NoDup_remove_2 in Hnodup. apply Hnodup. apply in_or_app. left.
  rewrite Hk, <- Hkx. now apply in_map.
Qed.

(** X23.  With unique user names, [login] succeeds exactly when some
    stored account has the user name and a hash the password validates
    against. *)
Lemma login_unique_usernames (db : database) (username password : string) :
  NoDup (map a_username (accounts db)) ->
  ((exists r, login pbkdf2Sync db username password = Some r /\ loggedIn r = true)
   <-> (exists a, In a (accounts db) /\ a_username a = username /\
                  validPassword pbkdf2Sync password (a_hash a) (a_salt a) = true)).
Proof.
  intros Hnodup. split.
  - intros (r & Hrun & Hin).
    destruct (first_with_or_none db username) as [Hno|(a & Ha)].
    + rewrite (login_lookup_empty _ _ _ Hno) in Hrun. injection Hrun as <-. discriminate.
    + rewrite (login_lookup_first _ _ _ _ Ha) in Hrun.
      destruct (validPassword pbkdf2Sync password (a_hash a) (a_salt a)) eqn:Hv;
        injection Hrun as <-; [|discriminate].
      destruct Ha as (b & c & Hdb & Hu & _). exists a. repeat split; auto.
      rewrite Hdb. apply in_or_app. right. now left.
  - intros (a & Ha & Hu & Hv).
    pose proof (first_with_of_unique a_username username _ a Hnodup Ha Hu) as Hfirst.
    rewrite (login_lookup_first _ _ _ _ Hfirst), Hv. eexists. split; reflexivity.
Qed.

(** [sign_up] keeps the user names unique. *)
Lemma sign_up_keeps_usernames_unique
    (e : env) (db db' : database) (username password email : string) (r : sign_up_result) :
  NoDup (map a_username (accounts db)) ->
  sign_up pbkdf2Sync e db username password email = Some (r, db') ->
  NoDup (map a_username (accounts db')).
Proof.
  intros Hnodup. rewrite sign_up_cases.
  destruct (truthy (username_exists db username)) eqn:Hex; [now intros [= _ <-]|].
  destruct (negb _); [now intros [= _ <-]|].
  destruct (truthy (email_exists db email)); [now intros [= _ <-]|].
  intros [= _ <-]. simpl. rewrite map_app. simpl.
  apply NoDup_app; [exact Hnodup|repeat constructor; intros []|].
  intros u Hu [<-|[]]. apply in_map_iff in Hu. destruct Hu as (a & Hau & Ha).
  exact (proj1 (username_exists_false _ _) Hex a Ha Hau).
Qed.

(** X24.  [sign_up] stores only user names longer than 5: when every
    stored user name has more than 5 characters before a call, every one
    has after it. *)
Lemma sign_up_keeps_usernames_long
    (e : env) (db db' : database) (username password email : string) (r : sign_up_result) :
  (forall a, In a (accounts db) -> 5 < JS.length (a_username a)) ->
  sign_up pbkdf2Sync e db username password email = Some (r, db') ->
  forall a, In a (accounts db') -> 5 < JS.length (a_username a).
Proof.
  intros Hlong. rewrite sign_up_cases.
  destruct (truthy (username_exists db username)); [now intros [= _ <-]|].
  destruct (valid_user_pass_combo username password) eqn:Hv; cbn [negb];
    [|now intros [= _ <-]].
  destruct (truthy (email_exists db email)); [now intros [= _ <-]|].
  intros [= _ <-] a. simpl. rewrite in_app_iff. intros [Ha|[<-|[]]]; [now apply Hlong|].
  simpl. now apply valid_user_pass_combo_spec in Hv.
Qed.

(** On such a collection a user name of length 5 is never taken and the
    answer is the one of the length check. *)
Lemma sign_up_length_five_on_long_usernames
    (e : env) (db : database) (username password email : string) :
  (forall a, In a (accounts db) -> 5 < JS.length (a_username a)) ->
  JS.length username = 5 ->
  sign_up pbkdf2Sync e db username password email
  = Some ({| su_info := "BAD USERNAME PASSWORD"; account_created := false;
             su_user_id := JS.Zero |}, db).
Proof.
  intros Hlong Hu. rewrite sign_up_cases.
  replace (truthy (username_exists db username)) with false.
  - unfold valid_user_pass_combo. rewrite Hu. reflexivity.
  - symmetry. apply username_exists_false. intros a Ha Heq.
    specialize (Hlong a Ha). rewrite Heq in Hlong. lia.
Qed.

(** With unique hashes, [verify_session] answers from any stored session
    that has the hash. *)
Lemma verify_session_unique_hash (e : env) (db : database) (hash : string) (s : session) :
  NoDup (map s_hash (sessions db)) -> In s (sessions db) -> s_hash s = hash ->
  verify_session pbkdf2Sync e db hash
  = if older_than_a_day (getTime e) (s_issue_time s) then
      {| v_info := Some "EXPIRED"; valid := false; v_user_id := Some JS.Zero |}
    else if validPassword pbkdf2Sync (s_user_id s) hash (s_salt s) then
      {| v_info := Some "VALID"; valid := true; v_user_id := Some (JS.Str (s_user_id s)) |}
    else
      {| v_info := Some "INVALID"; valid := false; v_user_id := Some JS.Zero |}.
Proof.
  intros Hnodup Hin Hh. apply verify_session_lookup_first.
  now apply first_with_of_unique.
Qed.

End Accounts_properties.

(** ** Loops *)

Lemma Zseq_cons (lo : Z) (n : nat) :
  ScheduleBuilder.Zseq lo (S n) = lo :: ScheduleBuilder.Zseq (lo + 1) n.
Proof.
  unfold ScheduleBuilder.Zseq. simpl. rewrite Z.add_0_r. f_equal.
  rewrite <- seq_shift, map_map. apply map_ext. intros k. lia.
Qed.

Lemma Zseq_snoc (lo : Z) (n : nat) :
  ScheduleBuilder.Zseq lo (S n)
  = (ScheduleBuilder.Zseq lo n ++ [lo + Z.of_nat n])%list.
Proof.
  unfold ScheduleBuilder.Zseq. rewrite seq_S, map_app. reflexivity.
Qed.

Lemma Zseq_length (lo : Z) (n : nat) : List.length (ScheduleBuilder.Zseq lo n) = n.
Proof. unfold ScheduleBuilder.Zseq. now rewrite length_map, length_seq. Qed.

Lemma Zseq_bounds (lo : Z) (n : nat) (i : Z) :
  In i (ScheduleBuilder.Zseq lo n) -> lo <= i < lo + Z.of_nat n.
Proof.
  unfold ScheduleBuilder.Zseq. rewrite in_map_iff. intros (k & <- & Hk).
  apply in_seq in Hk. lia.
Qed.

(** The loop runs its body on [lo], [lo + 1], ..., [hi - 1] and stops. *)
Lemma for_lt_fold {St : Type} (lo hi : Z) (body : Z -> St -> St) (s : St) :
  JS.for_lt lo hi body s
  = fold_left (fun s i => body i s) (ScheduleBuilder.Zseq lo (Z.to_nat (hi - lo))) s.
Proof.
  unfold JS.for_lt. remember (Z.to_nat (hi - lo)) as fuel eqn:Hfuel.
  revert lo s Hfuel. induction fuel as [|fuel IH]; intros lo s Hfuel; [reflexivity|].
  rewrite Zseq_cons. simpl.
  replace (lo <? hi) with true by (symmetry; apply Z.ltb_lt; lia).
  apply IH. lia.
Qed.

Section ScheduleBuilder_properties.

Variable class : Type.
Variables NAME DIVISION NUMBER : class -> string.
Variable get_class : string -> class.
Variable stringify_class : class -> string.

Local Abbreviation state := (ScheduleBuilder.state class).
Local Abbreviation update_semesters := (ScheduleBuilder.update_semesters get_class).
Local Abbreviation add_class := (ScheduleBuilder.add_class NAME DIVISION NUMBER).
Local Abbreviation add_selected := (ScheduleBuilder.add_selected NAME DIVISION NUMBER).
Local Abbreviation remove_class := (ScheduleBuilder.remove_class DIVISION NUMBER).
Local Abbreviation fill_entries := (ScheduleBuilder.fill_entries NAME DIVISION NUMBER get_class).
Local Abbreviation update_header := (ScheduleBuilder.update_header NAME DIVISION NUMBER get_class).
Local Abbreviation initialize := (ScheduleBuilder.initialize NAME DIVISION NUMBER get_class).
Local Abbreviation drop := (ScheduleBuilder.drop get_class).
Local Abbreviation run := (ScheduleBuilder.run NAME DIVISION NUMBER get_class).
Local Abbreviation classes_of := (ScheduleBuilder.classes_of get_class).
Local Abbreviation save_schedule := (ScheduleBuilder.save_schedule stringify_class).

(** *** [update_semesters] *)

Lemma push_all {A B : Type} (g : A -> B) (l : list A) (acc : list B) :
  fold_left (fun acc c => (acc ++ [g c])%list) l acc = (acc ++ map g l)%list.
Proof.
  revert acc. induction l as [|c l IH]; intros acc; simpl.
  - now rewrite app_nil_r.
  - rewrite IH, <- app_assoc. reflexivity.
Qed.

Lemma collect_semesters (rows : list ScheduleBuilder.td) (st : state) :
  fold_left
    (fun st sem =>
       let sem_arr :=
         fold_left (fun sem_arr c => (sem_arr ++ [get_class (ScheduleBuilder.acr c)])%list)
           (ScheduleBuilder.buttons sem) [] in
       ScheduleBuilder.set_semesters (ScheduleBuilder.semesters st ++ [sem_arr])%list st)
    rows st
  = ScheduleBuilder.set_semesters
      (ScheduleBuilder.semesters st ++ map classes_of rows)%list st.
Proof.
  revert st. induction rows as [|sem rows IH]; intros st; simpl.
  - rewrite app_nil_r. now destruct st.
  - rewrite IH. simpl. rewrite push_all, <- app_assoc. reflexivity.
Qed.

Lemma splice_last {A : Type} (l : list A) :
  JS.splice l (Z.of_nat (List.length l) - 1) = removelast l.
Proof.
  unfold JS.splice. rewrite removelast_firstn_len.
  destruct l as [|x l]; [reflexivity|].
  replace (Z.of_nat (List.length (x :: l)) - 1 <? 0) with false
    by (symmetry; apply Z.ltb_ge; simpl List.length; lia).
  f_equal. simpl List.length. lia.
Qed.

Lemma removelast_map {A B : Type} (g : A -> B) (l : list A) :
  removelast (map g l) = map g (removelast l).
Proof.
  induction l as [|x l IH]; [reflexivity|].
  destruct l as [|y l]; [reflexivity|].
  change (g x :: removelast (map g (y :: l)) = g x :: map g (removelast (y :: l))).
  now rewrite IH.
Qed.

Lemma update_semesters_eq (st : state) :
  update_semesters st
  = {| ScheduleBuilder.columns := ScheduleBuilder.columns st;
       ScheduleBuilder.semesters := map classes_of (removelast (ScheduleBuilder.builderRows st));
       ScheduleBuilder.builderHeader := ScheduleBuilder.builderHeader st;
       ScheduleBuilder.builderRows := ScheduleBuilder.builderRows st;
       ScheduleBuilder.dispatched :=
         (ScheduleBuilder.dispatched st ++ ["Semester Update"])%list |}.
Proof.
  unfold ScheduleBuilder.update_semesters.
  cbn [ScheduleBuilder.set_semesters ScheduleBuilder.builderRows].
  rewrite collect_semesters. simpl.
  rewrite splice_last, removelast_map. reflexivity.
Qed.

(** *** The entry row keeps its length *)

Lemma update_at_length {A : Type} (i : nat) (f : A -> A) (l : list A) :
  List.length (ScheduleBuilder.update_at i f l) = List.length l.
Proof.
  revert i. induction l as [|x l IH]; intros [|i]; simpl; auto.
Qed.

Lemma add_class_rows (st st' : state) (clas : class) :
  add_class st clas = Some st' ->
  ScheduleBuilder.columns st' = ScheduleBuilder.columns st /\
  ScheduleBuilder.builderHeader st' = ScheduleBuilder.builderHeader st /\
  List.length (ScheduleBuilder.builderRows st') = List.length (ScheduleBuilder.builderRows st) /\
  map ScheduleBuilder.td_id (ScheduleBuilder.builderRows st')
  = map ScheduleBuilder.td_id (ScheduleBuilder.builderRows st).
Proof.
  unfold ScheduleBuilder.add_class.
  destruct (ScheduleBuilder.get _ _); [|discriminate].
  intros [= <-]. simpl. repeat split.
  - apply update_at_length.
  - generalize (Z.to_nat (Z.of_nat (List.length (ScheduleBuilder.builderRows st)) - 1)).
    induction (ScheduleBuilder.builderRows st) as [|x l IH]; intros [|i]; simpl; auto.
    now rewrite IH.
Qed.

Lemma add_selected_rows (selected : list class) (st : state) :
  ScheduleBuilder.columns (fst (add_selected st selected)) = ScheduleBuilder.columns st /\
  ScheduleBuilder.builderHeader (fst (add_selected st selected))
  = ScheduleBuilder.builderHeader st /\
  List.length (ScheduleBuilder.builderRows (fst (add_selected st selected)))
  = List.length (ScheduleBuilder.builderRows st) /\
  map ScheduleBuilder.td_id (ScheduleBuilder.builderRows (fst (add_selected st selected)))
  = map ScheduleBuilder.td_id (ScheduleBuilder.builderRows st).
Proof.
  revert st. induction selected as [|clas rest IH]; intros st; simpl; [auto|].
  destruct (add_class st clas) as [st'|] eqn:Hadd; simpl; [|auto].
  destruct (add_class_rows _ _ _ Hadd) as (Hc & Hh & Hl & Hi).
  destruct (IH st') as (Hc' & Hh' & Hl' & Hi').
  repeat split; congruence.
Qed.

Lemma remove_class_rows_length (wanted : string) (rows : list ScheduleBuilder.td) :
  List.length (ScheduleBuilder.remove_class_rows wanted rows) = List.length rows.
Proof.
  induction rows as [|sem rows IH]; simpl; [reflexivity|].
  destruct (ScheduleBuilder.remove_first _ _); simpl; auto.
Qed.

Lemma detach_length (id : string) (rows : list ScheduleBuilder.td) :
  List.length (ScheduleBuilder.detach id rows) = List.length rows.
Proof.
  induction rows as [|sem rows IH]; simpl; [reflexivity|].
  destruct (ScheduleBuilder.remove_first _ _); simpl; auto.
Qed.

Lemma reset_orig_length (id : string) (rows rows' : list ScheduleBuilder.td) :
  ScheduleBuilder.reset_orig id rows = Some rows' -> List.length rows' = List.length rows.
Proof.
  revert rows'. induction rows as [|sem rows IH]; intros rows'; simpl; [discriminate|].
  destruct (String.eqb _ _).
  - intros [= <-]. reflexivity.
  - destruct (ScheduleBuilder.reset_orig id rows) as [r|]; [|discriminate].
    intros [= <-]. simpl. f_equal. now apply IH.
Qed.

(** *** [fill_entries] and [update_header] *)

Lemma append_entries (l : list Z) (st : state) :
  fold_left
    (fun st i =>
       ScheduleBuilder.set_rows
         (ScheduleBuilder.builderRows st ++ [ScheduleBuilder.new_entry i])%list st) l st
  = ScheduleBuilder.set_rows
      (ScheduleBuilder.builderRows st ++ map ScheduleBuilder.new_entry l)%list st.
Proof.
  revert st. induction l as [|i l IH]; intros st; simpl.
  - rewrite app_nil_r. now destruct st.
  - rewrite IH. simpl. rewrite <- app_assoc. reflexivity.
Qed.

Lemma append_headers (f : Z -> string) (l : list Z) (st : state) :
  fold_left
    (fun st i =>
       ScheduleBuilder.set_header (ScheduleBuilder.builderHeader st ++ [f i])%list st) l st
  = ScheduleBuilder.set_header (ScheduleBuilder.builderHeader st ++ map f l)%list st.
Proof.
  revert st. induction l as [|i l IH]; intros st; simpl.
  - rewrite app_nil_r. now destruct st.
  - rewrite IH. simpl. rewrite <- app_assoc. reflexivity.
Qed.

Lemma fill_entries_rows (selected : list class) (st : state) :
  ScheduleBuilder.columns (fill_entries selected st) = ScheduleBuilder.columns st /\
  ScheduleBuilder.builderHeader (fill_entries selected st) = ScheduleBuilder.builderHeader st /\
  map ScheduleBuilder.td_id (ScheduleBuilder.builderRows (fill_entries selected st))
  = ScheduleBuilder.entry_ids (ScheduleBuilder.columns st) /\
  List.length (ScheduleBuilder.builderRows (fill_entries selected st))
  = Z.to_nat (ScheduleBuilder.columns st + 1).
Proof.
  unfold ScheduleBuilder.fill_entries.
  rewrite for_lt_fold, append_entries.
  cbn [ScheduleBuilder.set_rows ScheduleBuilder.columns ScheduleBuilder.builderRows app].
  rewrite Z.sub_0_r.
  set (st1 := ScheduleBuilder.set_rows _ _).
  assert (Hc1 : ScheduleBuilder.columns st1 = ScheduleBuilder.columns st) by reflexivity.
  assert (Hh1 : ScheduleBuilder.builderHeader st1 = ScheduleBuilder.builderHeader st)
    by reflexivity.
  assert (Hi1 : map ScheduleBuilder.td_id (ScheduleBuilder.builderRows st1)
                = ScheduleBuilder.entry_ids (ScheduleBuilder.columns st)).
  { unfold st1, ScheduleBuilder.entry_ids. simpl. now rewrite map_map. }
  assert (Hl1 : List.length (ScheduleBuilder.builderRows st1)
                = Z.to_nat (ScheduleBuilder.columns st + 1)).
  { unfold st1. simpl. now rewrite length_map, Zseq_length. }
  destruct (add_selected_rows selected st1) as (Hc & Hh & Hl & Hi).
  destruct (add_selected st1 selected) as [st2 [|]]; cbn [fst] in Hc, Hh, Hl, Hi.
  - rewrite update_semesters_eq. simpl. repeat split; congruence.
  - repeat split; congruence.
Qed.

Lemma header_labels_eq (n : Z) :
  1 <= n ->
  map (fun i => if i =? n + 1 then "Selected Classes"
                else "Semester " ++ JS.Number_toString i)
    (ScheduleBuilder.Zseq 1 (Z.to_nat (n + 2 - 1)))
  = ScheduleBuilder.header_labels n.
Proof.
  intros Hn. unfold ScheduleBuilder.header_labels.
  replace (Z.to_nat (n + 2 - 1)) with (S (Z.to_nat n)) by lia.
  rewrite Zseq_snoc, map_app. f_equal.
  - apply map_ext_in. intros i Hi. apply Zseq_bounds in Hi.
    replace (i =? n + 1) with false by (symmetry; apply Z.eqb_neq; lia). reflexivity.
  - cbn [map]. replace (1 + Z.of_nat (Z.to_nat n) =? n + 1) with true
      by (symmetry; apply Z.eqb_eq; lia). reflexivity.
Qed.

Lemma header_labels_length (n : Z) :
  1 <= n -> Z.of_nat (List.length (ScheduleBuilder.header_labels n)) = n + 1.
Proof.
  intros Hn. unfold ScheduleBuilder.header_labels.
  rewrite length_app, length_map, Zseq_length. simpl. lia.
Qed.

Lemma update_header_positive (selected : list class) (n : Z) (st : state) :
  1 <= n ->
  ScheduleBuilder.columns (update_header selected n st) = n /\
  ScheduleBuilder.builderHeader (update_header selected n st)
  = ScheduleBuilder.header_labels n /\
  Z.of_nat (List.length (ScheduleBuilder.builderHeader (update_header selected n st)))
  = n + 1 /\
  map ScheduleBuilder.td_id (ScheduleBuilder.builderRows (update_header selected n st))
  = ScheduleBuilder.entry_ids n /\
  Z.of_nat (List.length (ScheduleBuilder.builderRows (update_header selected n st)))
  = n + 1.
Proof.
  intros Hn. unfold ScheduleBuilder.update_header.
  replace (n <=? 0) with false by (symmetry; apply Z.leb_gt; lia).
  rewrite for_lt_fold, append_headers.
  cbn [ScheduleBuilder.set_header ScheduleBuilder.set_columns
       ScheduleBuilder.builderHeader app].
  rewrite header_labels_eq by exact Hn.
  match goal with
  | |- context [fill_entries selected ?s] =>
      destruct (fill_entries_rows selected s) as (Hc & Hh & Hi & Hl)
  end.
  simpl in Hc, Hh, Hi, Hl.
  rewrite Hc, Hh, Hi, Hl. repeat split.
  - now apply header_labels_length.
  - lia.
Qed.

Lemma update_header_nonpositive (selected : list class) (n : Z) (st : state) :
  n <= 0 -> update_header selected n st = st.
Proof.
  intros Hn. unfold ScheduleBuilder.update_header.
  replace (n <=? 0) with true by (symmetry; apply Z.leb_le; lia). reflexivity.
Qed.

(** C7.  For an integer [n >= 1], [update_header n] sets the columns to [n],
    makes the header row the [n + 1] cells "Semester 1", ..., "Semester n",
    "Selected Classes", and rebuilds the entry row with the [n + 1] cells
    builderNode0, ..., builderNode<n>.  For [n <= 0] it returns at once:
    the state, and with it the columns, the header row and the entry row,
    is the one it was called on. *)
Theorem update_header_rebuilds_rows (selected : list class) (n : Z) (st : state) :
  (1 <= n ->
     ScheduleBuilder.columns (update_header selected n st) = n /\
     ScheduleBuilder.builderHeader (update_header selected n st)
     = ScheduleBuilder.header_labels n /\
     Z.of_nat (List.length (ScheduleBuilder.builderHeader (update_header selected n st)))
     = n + 1 /\
     map ScheduleBuilder.td_id (ScheduleBuilder.builderRows (update_header selected n st))
     = ScheduleBuilder.entry_ids n /\
     Z.of_nat (List.length (ScheduleBuilder.builderRows (update_header selected n st)))
     = n + 1) /\
  (n <= 0 -> update_header selected n st = st).
Proof.
  split; [apply update_header_positive|apply update_header_nonpositive].
Qed.

(** *** The shape of the entry row is an invariant *)

Lemma update_header_well_formed (selected : list class) (n : Z) (st : state) :
  ScheduleBuilder.well_formed st ->
  ScheduleBuilder.well_formed (update_header selected n st).
Proof.
  intros Hwf. destruct (Z_le_gt_dec n 0) as [Hn|Hn].
  - now rewrite (update_header_nonpositive selected n st Hn).
  - destruct (update_header_positive selected n st) as (Hc & _ & _ & _ & Hl); [lia|].
    unfold ScheduleBuilder.well_formed. rewrite Hc, Hl. lia.
Qed.

Lemma update_semesters_well_formed (st : state) :
  ScheduleBuilder.well_formed st -> ScheduleBuilder.well_formed (update_semesters st).
Proof. rewrite update_semesters_eq. exact (fun H => H). Qed.

Lemma drop_well_formed (i : nat) (orig_parent_id id : string) (st : state) :
  ScheduleBuilder.well_formed st ->
  ScheduleBuilder.well_formed (drop i orig_parent_id id st).
Proof.
  intros Hwf. unfold ScheduleBuilder.drop.
  destruct (nth_error _ i) as [target|]; [|exact Hwf].
  destruct (negb _); [|exact Hwf].
  assert (Hclear : forall rows,
             List.length rows = List.length (ScheduleBuilder.builderRows st) ->
             ScheduleBuilder.well_formed (ScheduleBuilder.set_rows rows st)).
  { intros rows Hrows. unfold ScheduleBuilder.well_formed in *. simpl.
    rewrite Hrows. exact Hwf. }
  destruct (ScheduleBuilder.getButtonById _ _) as [dragged|].
  - destruct (ScheduleBuilder.reset_orig _ _) as [rows|] eqn:Hreset.
    + apply update_semesters_well_formed, Hclear.
      rewrite (reset_orig_length _ _ _ Hreset).
      now rewrite update_at_length, detach_length, update_at_length.
    + apply Hclear. now rewrite update_at_length, detach_length, update_at_length.
  - apply Hclear. apply update_at_length.
Qed.

Lemma run_well_formed (c : ScheduleBuilder.call class) (st : state) :
  ScheduleBuilder.well_formed st -> ScheduleBuilder.well_formed (run c st).
Proof.
  intros Hwf. destruct c as [selected n|clas|clas|i orig id|]; simpl.
  - now apply update_header_well_formed.
  - destruct (add_class st clas) as [st'|] eqn:Hadd; [|exact Hwf].
    destruct (add_class_rows _ _ _ Hadd) as (Hc & _ & Hl & _).
    unfold ScheduleBuilder.well_formed in *. now rewrite Hc, Hl.
  - unfold ScheduleBuilder.well_formed, ScheduleBuilder.remove_class in *. simpl.
    now rewrite remove_class_rows_length.
  - now apply drop_well_formed.
  - now apply update_semesters_well_formed.
Qed.

Lemma initialize_well_formed (selected : list class) (page : state) :
  ScheduleBuilder.well_formed (initialize selected page).
Proof.
  unfold ScheduleBuilder.initialize, ScheduleBuilder.initializeContent.
  cbn [ScheduleBuilder.set_semesters ScheduleBuilder.set_columns ScheduleBuilder.columns].
  match goal with
  | |- ScheduleBuilder.well_formed (update_header selected 1 ?s) =>
      destruct (update_header_positive selected 1 s) as (Hc & _ & _ & _ & Hl)
  end; [lia|].
  unfold ScheduleBuilder.well_formed. rewrite Hc, Hl. lia.
Qed.

(** *** [update_semesters] cut at its awaits *)

Lemma set_semesters_twice (a b : list (list class)) (st : state) :
  ScheduleBuilder.set_semesters a (ScheduleBuilder.set_semesters b st)
  = ScheduleBuilder.set_semesters a st.
Proof. reflexivity. Qed.

(** A call left alone goes through the cells that are left and ends. *)
Lemma run_on_outer_loop (cells : list ScheduleBuilder.td) :
  forall (st : state) (fuel : nat),
    (List.length (all_buttons cells) <= fuel)%nat ->
    Awaits.run_on get_class fuel (Awaits.outer_loop cells st)
    = Awaits.after_loops
        (ScheduleBuilder.set_semesters
           (ScheduleBuilder.semesters st ++ map classes_of cells)%list st).
Proof.
  induction cells as [|sem rest IH]; intros st fuel Hfuel.
  - simpl. rewrite app_nil_r. destruct st, fuel; reflexivity.
  - assert (Hwait : forall (left_in_cell : list ScheduleBuilder.button)
                      (acc : list class) (st : state) (fuel : nat),
               left_in_cell <> [] ->
               (List.length left_in_cell + List.length (all_buttons rest) <= fuel)%nat ->
               Awaits.run_on get_class fuel
                 (st, Some {| Awaits.cells_left := rest;
                              Awaits.buttons_left := left_in_cell;
                              Awaits.sem_arr := acc |})
               = Awaits.after_loops
                   (ScheduleBuilder.set_semesters
                      (ScheduleBuilder.semesters st
                         ++ (acc ++ map (fun c => get_class (ScheduleBuilder.acr c))
                                      left_in_cell)
                         :: map classes_of rest)%list st)).
    { induction left_in_cell as [|c more IHmore]; intros acc st' fuel' Hne Hf;
        [now destruct Hne|].
      destruct fuel' as [|fuel']; [simpl in Hf; lia|].
      cbn [Awaits.run_on]. unfold Awaits.resume.
      cbn [Awaits.buttons_left Awaits.sem_arr Awaits.cells_left].
      destruct more as [|c' more].
      - rewrite IH by (simpl in Hf; lia).
        rewrite set_semesters_twice. cbn [ScheduleBuilder.semesters ScheduleBuilder.set_semesters].
        simpl map. rewrite <- app_assoc. reflexivity.
      - rewrite IHmore; [|discriminate|simpl in *; lia].
        simpl map. rewrite <- app_assoc. reflexivity. }
    cbn [Awaits.outer_loop].
    destruct (ScheduleBuilder.buttons sem) as [|c more] eqn:Hbuttons.
    + rewrite IH by (unfold all_buttons in *; simpl in Hfuel; rewrite Hbuttons in Hfuel;
                     exact Hfuel).
      rewrite set_semesters_twice. cbn [ScheduleBuilder.semesters ScheduleBuilder.set_semesters].
      simpl map. unfold ScheduleBuilder.classes_of at 2. rewrite Hbuttons.
      simpl map. rewrite <- app_assoc. reflexivity.
    + rewrite Hwait; [|discriminate|].
      * simpl map. unfold ScheduleBuilder.classes_of at 2. rewrite Hbuttons. reflexivity.
      * unfold all_buttons in *. simpl in Hfuel. rewrite Hbuttons, length_app in Hfuel.
        exact Hfuel.
Qed.

Lemma update_semesters_alone_eq (st : state) :
  Awaits.update_semesters_alone get_class st = update_semesters st.
Proof.
  unfold Awaits.update_semesters_alone, Awaits.start.
  cbn [ScheduleBuilder.builderRows ScheduleBuilder.set_semesters].
  rewrite run_on_outer_loop by (cbn [ScheduleBuilder.builderRows]; lia).
  rewrite update_semesters_eq. unfold Awaits.after_loops.
  cbn [ScheduleBuilder.semesters ScheduleBuilder.set_semesters List.app].
  rewrite splice_last, removelast_map. reflexivity.
Qed.


End ScheduleBuilder_properties.

(** ** The sign-up page *)

(** The request the click handler sends for a form. *)
Lemma click_request (server : Signup.request -> option Signup.response)
    (f : Signup.form) (p : Signup.page) :
  Signup.sent (Signup.click server f p)
  = (Signup.sent p
       ++ [{| Signup.route := "/sign-up"; Signup.method := "POST";
              Signup.req_body :=
                Some {| Signup.username := Signup.user f;
                        Signup.password := Signup.pass f;
                        Signup.body_email := Signup.email f |} |}])%list.
Proof.
  unfold Signup.click, Signup.makeRequest. simpl.
  destruct (server _) as [r|]; [|reflexivity].
  now destruct (Signup.r_account_created r).
Qed.

(** C9.  Whatever the four fields hold, and so whichever client-side check
    fails or none, the click handler sends one POST request to /sign-up with
    the entered user name, password and email; and when the server answers,
    the message shown last is the success message or "An error occurred: "
    followed by the server's info string, not the message of the checks. *)
Theorem click_always_posts (server : Signup.request -> option Signup.response)
    (f : Signup.form) (p : Signup.page) :
  Signup.sent (Signup.click server f p)
  = (Signup.sent p
       ++ [{| Signup.route := "/sign-up"; Signup.method := "POST";
              Signup.req_body :=
                Some {| Signup.username := Signup.user f;
                        Signup.password := Signup.pass f;
                        Signup.body_email := Signup.email f |} |}])%list /\
  (forall createResponse,
      server {| Signup.route := "/sign-up"; Signup.method := "POST";
                Signup.req_body :=
                  Some {| Signup.username := Signup.user f;
                          Signup.password := Signup.pass f;
                          Signup.body_email := Signup.email f |} |}
      = Some createResponse ->
      Signup.message (Signup.click server f p)
      = if Signup.r_account_created createResponse
        then "Your account has been created!"
        else "An error occurred: " ++ Signup.r_info createResponse).
Proof.
  split; [apply click_request|].
  intros r Hr. unfold Signup.click, Signup.makeRequest. simpl. rewrite Hr.
  now destruct (Signup.r_account_created r).
Qed.

Lemma length_zero_iff (s : string) : JS.length s = 0 <-> s = "".
Proof.
  unfold JS.length. destruct s; simpl; split; intros H; try reflexivity; try discriminate; lia.
Qed.

Lemma eqb_empty_false (s : string) : 0 < JS.length s -> String.eqb s "" = false.
Proof.
  intros H. apply String.eqb_neq. intros ->. unfold JS.length in H. simpl in H. lia.
Qed.

Lemma includes_nonempty (s : string) (c : ascii) :
  JS.includes s (String c "") = true -> 0 < JS.length s.
Proof.
  destruct s; [|intros _; unfold JS.length; simpl; lia].
  unfold JS.includes. simpl. discriminate.
Qed.

(** The message of the checks for a form that passes the first three. *)
Lemma check_message_lengths (f : Signup.form) :
  0 < JS.length (Signup.user f) -> 0 < JS.length (Signup.pass f) ->
  Signup.confirm f = Signup.pass f ->
  JS.includes (Signup.email f) "." = true -> JS.includes (Signup.email f) "@" = true ->
  Signup.check_message f
  = if (JS.length (Signup.user f) <? 5) || (JS.length (Signup.pass f) <? 6)
    then "Username > 5, Password > 6."
    else "Attempting to create account...".
Proof.
  intros Hu Hp Hc Hdot Hat. unfold Signup.check_message.
  rewrite Hc, Hdot, Hat, String.eqb_refl.
  rewrite (eqb_empty_false _ Hu), (eqb_empty_false _ Hp).
  rewrite (eqb_empty_false _ (includes_nonempty _ _ Hdot)). reflexivity.
Qed.

(** C10.  The checks of the page turn down only user names shorter than 5
    and passwords shorter than 6, the server asks for both lengths to be
    more than 5.  So, on an accounts collection as [sign_up] fills it, where
    every stored user name has more than 5 characters, for a form with a
    user name of exactly 5 characters, a password of at least 6, a matching
    confirmation and an email with "." and "@", the checks of the page pass
    and the server turns the sign-up down with "BAD USERNAME PASSWORD",
    storing nothing. *)
Theorem length_five_passes_page_fails_server
    (pbkdf2Sync : Crypto.kdf) (e : env) (db : database) (f : Signup.form) :
  (forall a, In a (accounts db) -> 5 < JS.length (a_username a)) ->
  JS.length (Signup.user f) = 5 ->
  6 <= JS.length (Signup.pass f) ->
  Signup.confirm f = Signup.pass f ->
  JS.includes (Signup.email f) "." = true ->
  JS.includes (Signup.email f) "@" = true ->
  Signup.check_message f = "Attempting to create account..." /\
  valid_user_pass_combo (Signup.user f) (Signup.pass f) = false /\
  (forall g : Signup.form,
      0 < JS.length (Signup.user g) -> 0 < JS.length (Signup.pass g) ->
      Signup.confirm g = Signup.pass g ->
      JS.includes (Signup.email g) "." = true -> JS.includes (Signup.email g) "@" = true ->
      (Signup.check_message g = "Username > 5, Password > 6."
       <-> JS.length (Signup.user g) < 5 \/ JS.length (Signup.pass g) < 6)) /\
  (forall u p : string,
      valid_user_pass_combo u p = true <-> 5 < JS.length u /\ 5 < JS.length p) /\
  sign_up pbkdf2Sync e db (Signup.user f) (Signup.pass f) (Signup.email f)
  = Some ({| su_info := "BAD USERNAME PASSWORD"; account_created := false;
             su_user_id := JS.Zero |}, db).
Proof.
  intros Hlong Hu Hp Hc Hdot Hat.
  assert (Hv : valid_user_pass_combo (Signup.user f) (Signup.pass f) = false).
  { unfold valid_user_pass_combo. rewrite Hu. reflexivity. }
  split; [|split; [exact Hv|split; [|split; [apply valid_user_pass_combo_spec|]]]].
  - rewrite check_message_lengths; try assumption; try lia.
    replace (JS.length (Signup.user f) <? 5) with false by (symmetry; apply Z.ltb_ge; lia).
    replace (JS.length (Signup.pass f) <? 6) with false by (symmetry; apply Z.ltb_ge; lia).
    reflexivity.
  - intros g Hgu Hgp Hgc Hgdot Hgat.
    rewrite (check_message_lengths g Hgu Hgp Hgc Hgdot Hgat).
    destruct ((JS.length (Signup.user g) <? 5) || (JS.length (Signup.pass g) <? 6)) eqn:Hshort.
    + split; [intros _|reflexivity].
      apply orb_true_iff in Hshort. rewrite !Z.ltb_lt in Hshort. exact Hshort.
    + split; [discriminate|]. intros Hlt.
      apply orb_false_iff in Hshort. rewrite !Z.ltb_ge in Hshort. lia.
  - exact (sign_up_length_five_on_long_usernames pbkdf2Sync e db _ _ _ Hlong Hu).
Qed.

(** ** The properties on concrete data *)

Example update_header_two :
  ScheduleBuilder.builderHeader
    (ScheduleBuilder.update_header Sample.NAME Sample.DIVISION Sample.NUMBER
       Sample.get_class [] 2 Sample.started)
  = ["Semester 1"; "Semester 2"; "Selected Classes"].
Proof. vm_compute. reflexivity. Qed.

Example started_bank_holds_selected :
  map (fun sem => map ScheduleBuilder.acr (ScheduleBuilder.buttons sem))
    (ScheduleBuilder.builderRows Sample.started)
  = [[]; ["MATH-101"]].
Proof. vm_compute. reflexivity. Qed.

Example hex_of_bytes : Crypto.toString_hex [Byte.x00; Byte.x2a; Byte.xff] = "002aff".
Proof. reflexivity. Qed.

Example a_day_is_not_expired : older_than_a_day 86400000 0 = false.
Proof. vm_compute. reflexivity. Qed.

Example a_day_and_a_millisecond_is_expired : older_than_a_day 86400001 0 = true.
Proof. vm_compute. reflexivity. Qed.

Lemma genPassword_validPassword_roundtrip_witness :
  validPassword Sample.kdf "secret1"
    (hash (genPassword Sample.kdf Sample.e "secret1"))
    (salt (genPassword Sample.kdf Sample.e "secret1")) = true.
Proof.
  exact (proj2 (proj2 (proj2
           (genPassword_validPassword_roundtrip Sample.kdf Sample.e "secret1")))).
Defined.


Lemma login_first_account_witness :
  login Sample.kdf Sample.db "alice1" "secret1"
  = Some {| li_info := "LOGIN SUCCESSFUL";
            li_user_id := JS.Str "61f0c0ffee00000000000001"; loggedIn := true |}.
Proof.
  destruct (login_first_account Sample.kdf Sample.db "alice1" "secret1")
    as (r & Hrun & _ & Hok & _).
  rewrite Hrun. f_equal. apply (Hok Sample.alice).
  - exists [], []. split; [reflexivity|]. split; [reflexivity|]. intros x [].
  - vm_compute. reflexivity.
Defined.

(** C4 as it is worded fails on two accounts with one user name: the
    password validates against the second account, an account with that user
    name, and [login] answers from the first. *)
Lemma login_second_account_counterexample :
  ~ ((exists r, login Sample.kdf Sample.db_two_alices "alice1" "secret2" = Some r /\
                loggedIn r = true)
     <-> (exists a, In a (accounts Sample.db_two_alices) /\ a_username a = "alice1" /\
                    validPassword Sample.kdf "secret2" (a_hash a) (a_salt a) = true)).
Proof.
  intros [_ Hback].
  destruct Hback as (r & Hrun & Hin).
  - exists Sample.alice_again. split; [right; left; reflexivity|].
    split; vm_compute; reflexivity.
  - vm_compute in Hrun. injection Hrun as <-. discriminate Hin.
Qed.

Lemma verify_session_keyed_lookup_witness :
  verify_session Sample.kdf Sample.e Trial.db_two_users (s_hash Trial.other_session)
  = {| v_info := Some "VALID"; valid := true;
       v_user_id := Some (JS.Str "61f0c0ffee00000000000002") |}.
Proof.
  destruct (verify_session_keyed_lookup Sample.kdf Sample.e Trial.db_two_users
              (s_hash Trial.other_session)) as (Hstored & _).
  - vm_compute. repeat constructor; [intros [H|[]]; discriminate H|intros []].
  - destruct (Hstored Trial.other_session) as (_ & Hvalid & _).
    + right. left. reflexivity.
    + reflexivity.
    + apply Hvalid.
      * simpl. lia.
      * vm_compute. reflexivity.
Defined.

Lemma issue_session_one_per_user_witness :
  one_session_per_user
    (sessions (snd (issue_session Sample.kdf Sample.e Sample.db
                      "61f0c0ffee00000000000001"))) /\
  List.length
    (sessions (snd (issue_session Sample.kdf Sample.e Sample.db
                      "61f0c0ffee00000000000001"))) = 1%nat.
Proof.
  destruct (issue_session_one_per_user Sample.kdf Sample.e Sample.db
              "61f0c0ffee00000000000001") as (_ & Hrefresh & _ & _ & Hone & _).
  split.
  - apply Hone. intros u. simpl. destruct (by_user_id u Sample.fresh_session); simpl; lia.
  - destruct Hrefresh as (_ & Hlen).
    + exists Sample.fresh_session. split; [left; reflexivity|reflexivity].
    + rewrite Hlen. reflexivity.
Defined.

Lemma update_header_rebuilds_rows_witness :
  ScheduleBuilder.columns
    (ScheduleBuilder.update_header Sample.NAME Sample.DIVISION Sample.NUMBER
       Sample.get_class [Sample.cs102] 2 Sample.started) = 2 /\
  ScheduleBuilder.update_header Sample.NAME Sample.DIVISION Sample.NUMBER
    Sample.get_class [Sample.cs102] 0 Sample.started = Sample.started.
Proof.
  destruct (update_header_rebuilds_rows Sample.class Sample.NAME Sample.DIVISION
              Sample.NUMBER Sample.get_class [Sample.cs102] 2 Sample.started)
    as (Hpos & _).
  destruct (update_header_rebuilds_rows Sample.class Sample.NAME Sample.DIVISION
              Sample.NUMBER Sample.get_class [Sample.cs102] 0 Sample.started)
    as (_ & Hnon).
  split.
  - destruct Hpos as (Hc & _); [lia|exact Hc].
  - apply Hnon. lia.
Defined.



(** C6 as it is worded fails when two calls for one user overlap: the
    lookup and the insertion are separate awaits.  For a user without a
    session, both lookups find nothing, both calls insert, and the user has
    two session documents, under two salts and two hashes. *)
Lemma issue_session_overlap_counterexample :
  one_session_per_user (sessions Trial.no_sessions) /\
  exists db : database,
    Awaits.issue_session_overlapping Sample.kdf Sample.e Trial.e_second
      Trial.no_sessions "61f0c0ffee00000000000001" = Some db /\
    List.length (filter (by_user_id "61f0c0ffee00000000000001") (sessions db)) = 2%nat /\
    NoDup (map s_hash (sessions db)) /\
    ~ one_session_per_user (sessions db).
Proof.
  split; [intros u; simpl; lia|].
  eexists. split; [vm_compute; reflexivity|].
  split; [vm_compute; reflexivity|]. split.
  - vm_compute. repeat constructor; [intros [H|[]]; discriminate H|intros []].
  - intros Hone. specialize (Hone "61f0c0ffee00000000000001").
    vm_compute in Hone. lia.
Qed.

Lemma click_always_posts_witness :
  Signup.message (Signup.click Sample.refusing Sample.empty_form Sample.page0)
  = "An error occurred: BAD USERNAME PASSWORD" /\
  List.length (Signup.sent (Signup.click Sample.refusing Sample.empty_form Sample.page0))
  = 1%nat.
Proof.
  destruct (click_always_posts Sample.refusing Sample.empty_form Sample.page0)
    as (Hsent & Hmessage).
  split.
  - rewrite (Hmessage _ eq_refl). reflexivity.
  - rewrite Hsent. reflexivity.
Defined.

Lemma length_five_passes_page_fails_server_witness :
  Signup.check_message Sample.filled = "Attempting to create account..." /\
  sign_up Sample.kdf Sample.e Sample.db "abcde" "secret1" "a@ohlone.edu"
  = Some ({| su_info := "BAD USERNAME PASSWORD"; account_created := false;
             su_user_id := JS.Zero |}, Sample.db).
Proof.
  destruct (length_five_passes_page_fails_server Sample.kdf Sample.e Sample.db Sample.filled)
    as (Hpage & _ & _ & _ & Hrun); try reflexivity.
  - simpl. intros a [<-|[]]. vm_compute. reflexivity.
  - vm_compute. discriminate.
  - split; [exact Hpage|exact Hrun].
Defined.


(** * Further properties of accounts.js *)

(** ** The hex text of a buffer determines the buffer *)

Lemma hex_value_digit (n : N) : (n < 16)%N -> hex_value (Crypto.hex_digit n) = n.
Proof.
  intros Hn. destruct n as [|p]; [reflexivity|].
  destruct p as [p|p|]; [| |reflexivity];
    (destruct p as [p|p|]; [| |reflexivity]);
    (destruct p as [p|p|]; [| |reflexivity]);
    (destruct p as [p|p|]; [| |reflexivity]); lia.
Qed.

Lemma byte_of_hex_digits (b : Byte.byte) :
  Byte.of_N (16 * hex_value (Crypto.hex_digit (N.div (Byte.to_N b) 16))
             + hex_value (Crypto.hex_digit (N.modulo (Byte.to_N b) 16)))%N
  = Some b.
Proof.
  pose proof (Byte.to_N_bounded b) as Hb.
  rewrite !hex_value_digit.
  - rewrite <- N.div_mod by discriminate. apply Byte.of_to_N.
  - apply N.mod_lt. discriminate.
  - apply N.Div0.div_lt_upper_bound. lia.
Qed.

Lemma toString_hex_injective (buf buf' : list Byte.byte) :
  Crypto.toString_hex buf = Crypto.toString_hex buf' -> buf = buf'.
Proof.
  revert buf'. induction buf as [|b buf IH]; intros [|b' buf']; simpl;
    try discriminate; [reflexivity|].
  intros [= Hhi Hlo Hrest]. f_equal; [|now apply IH].
  pose proof (byte_of_hex_digits b) as Hb. pose proof (byte_of_hex_digits b') as Hb'.
  rewrite Hhi, Hlo in Hb. congruence.
Qed.

Section Accounts_more_properties.

Variable pbkdf2Sync : Crypto.kdf.

(** X1.  A password validates against a generated pair exactly when PBKDF2
    gives it, under the generated salt, the same bytes as the password the
    pair was made from: [validPassword] errs only on a collision of the
    KDF, never through the hex text. *)
Theorem validPassword_only_on_equal_digest (e : env) (p p' : string) :
  validPassword pbkdf2Sync p'
    (hash (genPassword pbkdf2Sync e p)) (salt (genPassword pbkdf2Sync e p)) = true
  <-> pbkdf2Sync p' (salt (genPassword pbkdf2Sync e p)) 10000 64 "sha512"
      = pbkdf2Sync p (salt (genPassword pbkdf2Sync e p)) 10000 64 "sha512".
Proof.
  rewrite validPassword_iff. simpl. split.
  - apply toString_hex_injective.
  - intros ->. reflexivity.
Qed.

(** The account a successful [sign_up] stored is the first with its user
    name. *)
Lemma sign_up_created (e : env) (db db' : database)
    (username password email : string) (r : sign_up_result) :
  sign_up pbkdf2Sync e db username password email = Some (r, db') ->
  account_created r = true ->
  r = {| su_info := "ACCOUNT CREATED"; account_created := true;
         su_user_id := JS.Str (insertedId e) |} /\
  db' = {| accounts :=
             (accounts db ++ [saved_account pbkdf2Sync e username password email])%list;
           sessions := sessions db |} /\
  (forall a, In a (accounts db) -> a_username a <> username) /\
  (forall a, In a (accounts db) -> a_email a <> email) /\
  valid_user_pass_combo username password = true.
Proof.
  rewrite sign_up_cases.
  destruct (truthy (username_exists db username)) eqn:Hu;
    [intros [= <- _]; discriminate|].
  destruct (valid_user_pass_combo username password) eqn:Hv; cbn [negb];
    [|intros [= <- _]; discriminate].
  destruct (truthy (email_exists db email)) eqn:Hm;
    [intros [= <- _]; discriminate|].
  intros [= <- <-] _. repeat split.
  - now apply username_exists_false.
  - now apply email_exists_false.
Qed.


(** X3.  [sign_up] keeps the user names and the emails of the collection
    pairwise distinct: run one call after the other, it never stores a
    second account under a user name or an email. *)
Theorem sign_up_keeps_keys_unique (e : env) (db db' : database)
    (username password email : string) (r : sign_up_result) :
  NoDup (map a_username (accounts db)) ->
  NoDup (map a_email (accounts db)) ->
  sign_up pbkdf2Sync e db username password email = Some (r, db') ->
  NoDup (map a_username (accounts db')) /\ NoDup (map a_email (accounts db')).
Proof.
  intros Hnames Hmails Hrun. split.
  - exact (sign_up_keeps_usernames_unique _ _ _ _ _ _ _ _ Hnames Hrun).
  - destruct (account_created r) eqn:Hcreated.
    + destruct (sign_up_created _ _ _ _ _ _ _ Hrun Hcreated) as (_ & -> & _ & Hfree & _).
      simpl. rewrite map_app. simpl.
      apply NoDup_app; [exact Hmails|repeat constructor; intros []|].
      intros m Hm [<-|[]]. apply in_map_iff in Hm. destruct Hm as (a & Ham & Ha).
      exact (Hfree a Ha Ham).
    + revert Hrun. rewrite sign_up_cases.
      destruct (truthy _); [now intros [= _ <-]|].
      destruct (negb _); [now intros [= _ <-]|].
      destruct (truthy _); [now intros [= _ <-]|].
      intros [= <- _]. discriminate.
Qed.

(** ** Sessions *)

Lemma verify_session_lookup_empty (e : env) (db : database) (hash : string) :
  (forall s, In s (sessions db) -> s_hash s <> hash) ->
  verify_session pbkdf2Sync e db hash
  = {| v_info := Some "INVALID"; valid := false; v_user_id := Some JS.Zero |}.
Proof.
  intros Hno. unfold verify_session, mongo.get_data.
  replace (filter (by_hash hash) (sessions db)) with (@nil session); [reflexivity|].
  symmetry. apply filter_nil_iff. intros s Hs. apply by_hash_false. auto.
Qed.

Lemma session_first_or_none (db : database) (hash : string) :
  (forall s, In s (sessions db) -> s_hash s <> hash) \/
  exists s, first_with (fun s => s_hash s = hash) (sessions db) s.
Proof.
  destruct (filter (by_hash hash) (sessions db)) as [|s rest] eqn:Hf.
  - left. intros s Hs. apply by_hash_false. now apply (proj1 (filter_nil_iff _ _) Hf).
  - right. exists s. destruct (filter_cons_first _ _ _ _ Hf) as (b & c & Hdb & Hs & Hb & _).
    exists b, c. repeat split; auto.
    + now apply by_hash_true.
    + intros x Hx. apply by_hash_false. auto.
Qed.

(** X4.  [verify_session] never vouches for a hash it has no session for:
    when the result has [valid: true], a session with that hash is stored,
    it is at most a day old, the hash is the digest of its user id under its
    salt, and the user id returned is that session's. *)
Theorem verify_session_valid_sound (e : env) (db : database) (hash : string) :
  valid (verify_session pbkdf2Sync e db hash) = true ->
  exists s,
    In s (sessions db) /\ s_hash s = hash /\
    getTime e - s_issue_time s <= 86400000 /\
    validPassword pbkdf2Sync (s_user_id s) hash (s_salt s) = true /\
    verify_session pbkdf2Sync e db hash
    = {| v_info := Some "VALID"; valid := true;
         v_user_id := Some (JS.Str (s_user_id s)) |}.
Proof.
  destruct (session_first_or_none db hash) as [Hno|(s & Hs)].
  - rewrite (verify_session_lookup_empty _ _ _ Hno). discriminate.
  - rewrite (verify_session_lookup_first _ _ _ _ _ Hs).
    destruct (older_than_a_day (getTime e) (s_issue_time s)) eqn:Hold; [discriminate|].
    destruct (validPassword pbkdf2Sync (s_user_id s) hash (s_salt s)) eqn:Hv; [|discriminate].
    intros _. exists s. destruct Hs as (b & c & Hdb & Hh & _).
    repeat split; auto.
    + rewrite Hdb. apply in_or_app. right. now left.
    + now apply older_than_a_day_false.
Qed.

(** X5.  Expiry is final: a hash that [verify_session] reports "EXPIRED"
    is reported "EXPIRED" at every later time, as long as the sessions are
    the same. *)
Theorem verify_session_expired_stays (e e' : env) (db : database) (hash : string) :
  v_info (verify_session pbkdf2Sync e db hash) = Some "EXPIRED" ->
  getTime e <= getTime e' ->
  verify_session pbkdf2Sync e' db hash
  = {| v_info := Some "EXPIRED"; valid := false; v_user_id := Some JS.Zero |}.
Proof.
  destruct (session_first_or_none db hash) as [Hno|(s & Hs)].
  - rewrite (verify_session_lookup_empty _ _ _ Hno). discriminate.
  - rewrite !(verify_session_lookup_first _ _ _ _ _ Hs).
    destruct (older_than_a_day (getTime e) (s_issue_time s)) eqn:Hold.
    + intros _ Hlater. apply older_than_a_day_spec in Hold.
      replace (older_than_a_day (getTime e') (s_issue_time s)) with true; [reflexivity|].
      symmetry. apply older_than_a_day_spec. lia.
    + destruct (validPassword _ _ _ _); discriminate.
Qed.

(** The session [issue_session] sends back. *)
Lemma issue_session_returned (e : env) (db : database) (user_id : string) :
  well_hashed pbkdf2Sync (sessions db) ->
  exists s,
    fst (issue_session pbkdf2Sync e db user_id) = Some s /\
    In s (sessions (snd (issue_session pbkdf2Sync e db user_id))) /\
    s_user_id s = user_id /\
    s_issue_time s = getTime e /\
    validPassword pbkdf2Sync user_id (s_hash s) (s_salt s) = true.
Proof.
  intros Hwell. destruct (session_or_none db user_id) as [Hex|Hno].
  - rewrite (issue_session_refresh _ _ _ _ Hex). simpl.
    destruct Hex as (x & Hx & Hu).
    destruct (head_of_lookup user_id
                (map (fun s => if by_user_id user_id s
                               then refreshed (getTime e) s else s) (sessions db))
                (if by_user_id user_id x then refreshed (getTime e) x else x))
      as (s & Hhead & Hin & Hs).
    + apply in_map_iff. exists x. split; [reflexivity|exact Hx].
    + now destruct (by_user_id user_id x).
    + exists s. split; [exact Hhead|]. split; [exact Hin|]. split; [exact Hs|].
      apply in_map_iff in Hin. destruct Hin as (y & Hy & Hyin).
      destruct (by_user_id user_id y) eqn:Hq.
      * subst s. simpl. split; [reflexivity|].
        apply by_user_id_true in Hq. rewrite <- Hq. now apply Hwell.
      * subst s. apply by_user_id_false in Hq. contradiction.
  - rewrite (issue_session_insert _ _ _ _ Hno). simpl.
    exists (new_session pbkdf2Sync e user_id). split; [reflexivity|].
    split; [apply in_or_app; right; now left|]. split; [reflexivity|].
    split; [reflexivity|]. apply validPassword_iff. reflexivity.
Qed.

(** X6.  [issue_session] keeps every stored hash the digest of its
    session's user id under its salt: a refresh leaves hash, salt and user
    id alone, and a new session gets the pair [genPassword] makes from the
    user id. *)
Theorem issue_session_keeps_hashes_valid (e : env) (db : database) (user_id : string) :
  well_hashed pbkdf2Sync (sessions db) ->
  well_hashed pbkdf2Sync (sessions (snd (issue_session pbkdf2Sync e db user_id))).
Proof.
  intros Hwell. destruct (session_or_none db user_id) as [Hex|Hno].
  - rewrite (issue_session_refresh _ _ _ _ Hex). simpl. intros s Hs.
    apply in_map_iff in Hs. destruct Hs as (x & <- & Hx).
    destruct (by_user_id user_id x); simpl; now apply Hwell.
  - rewrite (issue_session_insert _ _ _ _ Hno). simpl. intros s Hs.
    apply in_app_or in Hs. destruct Hs as [Hs|[<-|[]]]; [now apply Hwell|].
    apply validPassword_iff. reflexivity.
Qed.

(** X7.  Issuing and verifying compose: when the stored hashes are digests
    of their user ids and no two sessions share a hash after the call, the
    hash of the session [issue_session] returns verifies as "VALID" for that
    user at every time up to a day after the issue. *)
Theorem issue_session_then_verify (e e' : env) (db : database) (user_id : string) :
  well_hashed pbkdf2Sync (sessions db) ->
  NoDup (map s_hash (sessions (snd (issue_session pbkdf2Sync e db user_id)))) ->
  getTime e' - getTime e <= 86400000 ->
  exists s,
    fst (issue_session pbkdf2Sync e db user_id) = Some s /\
    verify_session pbkdf2Sync e' (snd (issue_session pbkdf2Sync e db user_id)) (s_hash s)
    = {| v_info := Some "VALID"; valid := true; v_user_id := Some (JS.Str user_id) |}.
Proof.
  intros Hwell Hnodup Hday.
  destruct (issue_session_returned e db user_id Hwell) as (s & Hret & Hin & Hu & Ht & Hv).
  exists s. split; [exact Hret|].
  rewrite (verify_session_unique_hash pbkdf2Sync e' _ (s_hash s) s Hnodup Hin eq_refl).
  rewrite Ht, Hu, Hv.
  replace (older_than_a_day (getTime e') (getTime e)) with false; [reflexivity|].
  symmetry. now apply older_than_a_day_false.
Qed.

(** X8.  Issuing again keeps the cookie: for a user whose first stored
    session is [s], [issue_session] returns [s] with only the issue time
    set to now, so the hash handed to the client before stays the one
    stored. *)
Theorem issue_session_keeps_hash (e : env) (db : database) (user_id : string) (s : session) :
  first_with (fun s => s_user_id s = user_id) (sessions db) s ->
  fst (issue_session pbkdf2Sync e db user_id) = Some (refreshed (getTime e) s).
Proof.
  intros (before & after & Hdb & Hu & Hb).
  rewrite issue_session_refresh.
  - simpl. rewrite filter_refreshed, Hdb, filter_first.
    + simpl. now replace (by_user_id user_id s) with true
        by (symmetry; now apply by_user_id_true).
    + now apply by_user_id_true.
    + intros x Hx. apply by_user_id_false. exact (Hb x Hx).
  - exists s. split; [|exact Hu]. rewrite Hdb. apply in_or_app. right. now left.
Qed.

(** X9.  [issue_session] for one user leaves the accounts and the sessions
    of every other user as they are, in their order. *)
Theorem issue_session_other_users_untouched (e : env) (db : database) (user_id : string) :
  accounts (snd (issue_session pbkdf2Sync e db user_id)) = accounts db /\
  filter (fun s => negb (by_user_id user_id s))
    (sessions (snd (issue_session pbkdf2Sync e db user_id)))
  = filter (fun s => negb (by_user_id user_id s)) (sessions db).
Proof.
  destruct (session_or_none db user_id) as [Hex|Hno].
  - rewrite (issue_session_refresh _ _ _ _ Hex). simpl. split; [reflexivity|].
    clear Hex. induction (sessions db) as [|x l IH]; simpl; [reflexivity|].
    destruct (by_user_id user_id x) eqn:Hq; simpl.
    + unfold by_user_id at 1. simpl. fold (by_user_id user_id x). rewrite Hq. exact IH.
    + rewrite Hq. simpl. now rewrite IH.
  - rewrite (issue_session_insert _ _ _ _ Hno). simpl. split; [reflexivity|].
    rewrite filter_app. simpl. unfold by_user_id at 2. simpl.
    rewrite String.eqb_refl. simpl. apply app_nil_r.
Qed.

End Accounts_more_properties.

(** ** The lookups by user name and by id *)

Lemma get_id_username_first (db : database) (username : string) (a : account) :
  first_with (fun a => a_username a = username) (accounts db) a ->
  get_id_username db username = Some (a_id a).
Proof.
  intros (before & after & Hdb & Ha & Hb). unfold get_id_username, mongo.get_data.
  rewrite Hdb, filter_first; [reflexivity|now apply by_username_true|].
  intros x Hx. apply by_username_false. exact (Hb x Hx).
Qed.

(** X10.  [get_id_username] gives [undefined] exactly when no account has
    the user name, without throwing; and whenever [login] succeeds for a
    user name, the user id it returns is the one [get_id_username] gives for
    that name. *)
Theorem get_id_username_agrees_with_login
    (pbkdf2Sync : Crypto.kdf) (db : database) (username : string) :
  (get_id_username db username = None
   <-> forall a, In a (accounts db) -> a_username a <> username) /\
  (forall password r,
      login pbkdf2Sync db username password = Some r -> loggedIn r = true ->
      exists id, get_id_username db username = Some id /\ li_user_id r = JS.Str id).
Proof.
  destruct (first_with_or_none db username) as [Hno|(a & Ha)].
  - split.
    + split; [intros _; exact Hno|]. intros _.
      unfold get_id_username, mongo.get_data.
      replace (filter (by_username username) (accounts db)) with (@nil account);
        [reflexivity|].
      symmetry. apply filter_nil_iff. intros a Ha. apply by_username_false. auto.
    + intros password r Hrun Hin.
      rewrite (login_lookup_empty _ _ _ _ Hno) in Hrun. injection Hrun as <-. discriminate.
  - rewrite (get_id_username_first _ _ _ Ha). split.
    + split; [discriminate|]. intros Hno. exfalso.
      destruct Ha as (b & c & Hdb & Hu & _). apply (Hno a); [|exact Hu].
      rewrite Hdb. apply in_or_app. right. now left.
    + intros password r Hrun Hin. exists (a_id a). split; [reflexivity|].
      rewrite (login_lookup_first _ _ _ _ _ Ha) in Hrun.
      destruct (validPassword _ _ _ _); injection Hrun as <-; [reflexivity|discriminate].
Qed.

Lemma get_account_username_first
    (ObjectId : string -> option string) (db : database) (user_id oid : string)
    (a : account) :
  ObjectId user_id = Some oid ->
  first_with (fun a => a_id a = oid) (accounts db) a ->
  get_account_username ObjectId db user_id = Some (a_username a).
Proof.
  intros Hparse (b & c & Hdb & Ha & Hb). unfold get_account_username, mongo.get_data.
  rewrite Hparse, Hdb, filter_first; [reflexivity|now apply String.eqb_eq|].
  intros x Hx. apply String.eqb_neq. exact (Hb x Hx).
Qed.

(** X11.  [get_account_username] answers with a name exactly when
    [ObjectId] accepts the string and an account has that identifier, and
    then with the user name of the first such account; a malformed or
    unknown identifier gives [null] instead of an error. *)
Theorem get_account_username_spec
    (ObjectId : string -> option string) (db : database) (user_id name : string) :
  get_account_username ObjectId db user_id = Some name
  <-> exists oid a,
        ObjectId user_id = Some oid /\
        first_with (fun a => a_id a = oid) (accounts db) a /\
        a_username a = name.
Proof.
  unfold get_account_username, mongo.get_data. split.
  - destruct (ObjectId user_id) as [oid|]; [|discriminate].
    destruct (filter (by_id oid) (accounts db)) as [|a rest] eqn:Hf; simpl; [discriminate|].
    intros [= <-]. exists oid, a. split; [reflexivity|]. split; [|reflexivity].
    destruct (filter_cons_first _ _ _ _ Hf) as (b & c & Hdb & Ha & Hb & _).
    exists b, c. split; [exact Hdb|]. split; [now apply String.eqb_eq|].
    intros x Hx. apply String.eqb_neq. exact (Hb x Hx).
  - intros (oid & a & Hparse & Hfirst & <-).
    exact (get_account_username_first _ _ _ _ _ Hparse Hfirst).
Qed.


(** * Further properties of ScheduleBuilder.js *)

Lemma update_at_last {A : Type} (f : A -> A) (pre : list A) (x : A) :
  ScheduleBuilder.update_at (List.length pre) f (pre ++ [x]) = (pre ++ [f x])%list.
Proof. induction pre as [|y pre IH]; simpl; [reflexivity|now rewrite IH]. Qed.

Lemma get_last {A : Type} (pre : list A) (x : A) :
  ScheduleBuilder.get (pre ++ [x]) (Z.of_nat (List.length (pre ++ [x])) - 1) = Some x.
Proof.
  unfold ScheduleBuilder.get. rewrite length_app. simpl.
  replace (Z.of_nat (List.length pre + 1) - 1 <? 0) with false
    by (symmetry; apply Z.ltb_ge; lia).
  replace (Z.to_nat (Z.of_nat (List.length pre + 1) - 1)) with (List.length pre) by lia.
  rewrite nth_error_app2 by lia. now rewrite Nat.sub_diag.
Qed.

Lemma all_buttons_app (l l' : list ScheduleBuilder.td) :
  all_buttons (l ++ l') = (all_buttons l ++ all_buttons l')%list.
Proof. apply flat_map_app. Qed.

Lemma Zseq_app_last (n : Z) :
  0 <= n ->
  ScheduleBuilder.Zseq 0 (Z.to_nat (n + 1))
  = (ScheduleBuilder.Zseq 0 (Z.to_nat n) ++ [n])%list.
Proof.
  intros Hn. replace (Z.to_nat (n + 1)) with (S (Z.to_nat n)) by lia.
  rewrite Zseq_snoc. do 2 f_equal. lia.
Qed.

Section ScheduleBuilder_more_properties.

Variable class : Type.
Variables NAME DIVISION NUMBER : class -> string.
Variable get_class : string -> class.

Local Abbreviation state := (ScheduleBuilder.state class).
Local Abbreviation update_semesters := (ScheduleBuilder.update_semesters get_class).
Local Abbreviation add_class := (ScheduleBuilder.add_class NAME DIVISION NUMBER).
Local Abbreviation add_selected := (ScheduleBuilder.add_selected NAME DIVISION NUMBER).
Local Abbreviation remove_class := (ScheduleBuilder.remove_class DIVISION NUMBER).
Local Abbreviation fill_entries := (ScheduleBuilder.fill_entries NAME DIVISION NUMBER get_class).
Local Abbreviation update_header := (ScheduleBuilder.update_header NAME DIVISION NUMBER get_class).
Local Abbreviation drop := (ScheduleBuilder.drop get_class).
Local Abbreviation run := (ScheduleBuilder.run NAME DIVISION NUMBER get_class).
Local Abbreviation class_button := (class_button NAME DIVISION NUMBER).
Local Abbreviation bank_with := (bank_with NAME DIVISION NUMBER).

(** ** [add_class] *)

Lemma add_class_last (st : state) (clas : class)
    (pre : list ScheduleBuilder.td) (bank : ScheduleBuilder.td) :
  ScheduleBuilder.builderRows st = (pre ++ [bank])%list ->
  add_class st clas
  = Some (ScheduleBuilder.set_rows
            (pre ++ [ScheduleBuilder.appendChild (class_button clas)
                       (ScheduleBuilder.set_span "" bank)])%list st).
Proof.
  intros Hrows. unfold ScheduleBuilder.add_class. rewrite Hrows, get_last.
  rewrite length_app. cbn [List.length].
  replace (Z.to_nat (Z.of_nat (List.length pre + 1) - 1)) with (List.length pre) by lia.
  rewrite update_at_last. reflexivity.
Qed.

(** X13.  [add_class] throws exactly when the entry row has no cell.
    Otherwise it changes the last cell only: the bank gets the button of the
    class at its end and an empty span text, and the cells before it, the
    header and the columns stay as they are. *)
Theorem add_class_appends_to_bank (st : state) (clas : class) :
  (add_class st clas = None <-> ScheduleBuilder.builderRows st = []) /\
  (forall pre bank,
      ScheduleBuilder.builderRows st = (pre ++ [bank])%list ->
      add_class st clas
      = Some {| ScheduleBuilder.columns := ScheduleBuilder.columns st;
                ScheduleBuilder.semesters := ScheduleBuilder.semesters st;
                ScheduleBuilder.builderHeader := ScheduleBuilder.builderHeader st;
                ScheduleBuilder.builderRows :=
                  (pre ++ [{| ScheduleBuilder.td_id := ScheduleBuilder.td_id bank;
                              ScheduleBuilder.span_textContent := "";
                              ScheduleBuilder.buttons :=
                                (ScheduleBuilder.buttons bank ++ [class_button clas])%list
                           |}])%list;
                ScheduleBuilder.dispatched := ScheduleBuilder.dispatched st |}).
Proof.
  split.
  - split.
    + intros Hnone.
      destruct (ScheduleBuilder.builderRows st) as [|cell rows] eqn:Hrows; [reflexivity|].
      destruct (@exists_last _ (cell :: rows)) as (pre & bank & Hlast); [discriminate|].
      rewrite <- Hrows in Hlast. rewrite (add_class_last st clas pre bank Hlast) in Hnone.
      discriminate.
    + intros Hrows. unfold ScheduleBuilder.add_class. now rewrite Hrows.
  - intros pre bank Hrows. now rewrite (add_class_last st clas pre bank Hrows).
Qed.

Lemma add_selected_last (selected : list class) (st : state)
    (pre : list ScheduleBuilder.td) (bank : ScheduleBuilder.td) :
  ScheduleBuilder.builderRows st = (pre ++ [bank])%list ->
  add_selected st selected
  = (ScheduleBuilder.set_rows
       (pre ++ [{| ScheduleBuilder.td_id := ScheduleBuilder.td_id bank;
                   ScheduleBuilder.span_textContent :=
                     match selected with
                     | [] => ScheduleBuilder.span_textContent bank
                     | _ :: _ => ""
                     end;
                   ScheduleBuilder.buttons :=
                     (ScheduleBuilder.buttons bank ++ map class_button selected)%list |}])%list
       st, true).
Proof.
  revert st bank. induction selected as [|clas rest IH]; intros st bank Hrows.
  - simpl. rewrite app_nil_r. destruct st as [c s h r d]. simpl in *. subst r.
    now destruct bank.
  - simpl. rewrite (add_class_last st clas pre bank Hrows).
    rewrite (IH _ (ScheduleBuilder.appendChild (class_button clas)
                     (ScheduleBuilder.set_span "" bank))); [|reflexivity].
    simpl. rewrite <- app_assoc. simpl. now destruct rest.
Qed.

(** ** [update_header] empties the semesters *)

Lemma fill_entries_eq (selected : list class) (st : state) :
  0 <= ScheduleBuilder.columns st ->
  fill_entries selected st
  = {| ScheduleBuilder.columns := ScheduleBuilder.columns st;
       ScheduleBuilder.semesters :=
         repeat [] (Z.to_nat (ScheduleBuilder.columns st));
       ScheduleBuilder.builderHeader := ScheduleBuilder.builderHeader st;
       ScheduleBuilder.builderRows :=
         (map ScheduleBuilder.new_entry
            (ScheduleBuilder.Zseq 0 (Z.to_nat (ScheduleBuilder.columns st)))
            ++ [bank_with (ScheduleBuilder.columns st) selected])%list;
       ScheduleBuilder.dispatched :=
         (ScheduleBuilder.dispatched st ++ ["Semester Update"])%list |}.
Proof.
  intros Hcols. unfold ScheduleBuilder.fill_entries.
  rewrite for_lt_fold, append_entries.
  cbn [ScheduleBuilder.set_rows ScheduleBuilder.columns ScheduleBuilder.builderRows app].
  rewrite Z.sub_0_r, (Zseq_app_last _ Hcols), map_app. cbn [map].
  rewrite (add_selected_last selected _
             (map ScheduleBuilder.new_entry
                (ScheduleBuilder.Zseq 0 (Z.to_nat (ScheduleBuilder.columns st))))
             (ScheduleBuilder.new_entry (ScheduleBuilder.columns st))) by reflexivity.
  rewrite update_semesters_eq. simpl. f_equal.
  rewrite removelast_last, map_map.
  rewrite <- (Zseq_length 0 (Z.to_nat (ScheduleBuilder.columns st))) at 2.
  induction (ScheduleBuilder.Zseq 0 (Z.to_nat (ScheduleBuilder.columns st)));
    simpl; [reflexivity|now f_equal].
Qed.


(** ** [remove_class] *)

Lemma remove_first_none (found : ScheduleBuilder.button -> bool)
    (bs : list ScheduleBuilder.button) :
  ScheduleBuilder.remove_first found bs = None <-> forall b, In b bs -> found b = false.
Proof.
  induction bs as [|c bs IH]; simpl.
  - split; [intros _ b []|reflexivity].
  - destruct (found c) eqn:Hc.
    + split; [discriminate|]. intros H. specialize (H c (or_introl eq_refl)). congruence.
    + destruct (ScheduleBuilder.remove_first found bs) as [rest|]; simpl.
      * split; [discriminate|]. intros H.
        pose proof (proj2 IH (fun b Hb => H b (or_intror Hb))) as Hnone. discriminate.
      * split; [|reflexivity]. intros _ b [<-|Hb]; [exact Hc|]. now apply IH.
Qed.

Lemma remove_first_some (found : ScheduleBuilder.button -> bool)
    (bs rest : list ScheduleBuilder.button) :
  ScheduleBuilder.remove_first found bs = Some rest ->
  exists b, found b = true /\ find found bs = Some b /\ Permutation bs (b :: rest).
Proof.
  revert rest. induction bs as [|c bs IH]; intros rest; simpl; [discriminate|].
  destruct (found c) eqn:Hc.
  - intros [= <-]. exists c. repeat split; auto.
  - destruct (ScheduleBuilder.remove_first found bs) as [rest'|]; simpl; [|discriminate].
    intros [= <-]. destruct (IH rest' eq_refl) as (b & Hb & Hfind & Hperm).
    exists b. repeat split; auto.
    rewrite Hperm. apply perm_swap.
Qed.

Lemma find_none_iff {A : Type} (f : A -> bool) (l : list A) :
  find f l = None <-> forall x, In x l -> f x = false.
Proof.
  split; [apply find_none|].
  induction l as [|x l IH]; simpl; [reflexivity|]. intros H.
  rewrite (H x (or_introl eq_refl)). apply IH. intros y Hy. apply H. now right.
Qed.

Lemma find_app_l {A : Type} (f : A -> bool) (l l' : list A) (x : A) :
  find f l = Some x -> find f (l ++ l') = Some x.
Proof.
  induction l as [|y l IH]; simpl; [discriminate|]. now destruct (f y).
Qed.

Lemma find_app_r {A : Type} (f : A -> bool) (l l' : list A) :
  find f l = None -> find f (l ++ l') = find f l'.
Proof.
  induction l as [|y l IH]; simpl; [reflexivity|]. destruct (f y); [discriminate|exact IH].
Qed.

Lemma remove_class_rows_absent (wanted : string) (rows : list ScheduleBuilder.td) :
  (forall b, In b (all_buttons rows) -> ScheduleBuilder.acr b <> wanted) ->
  ScheduleBuilder.remove_class_rows wanted rows = rows.
Proof.
  induction rows as [|sem rows IH]; simpl; [reflexivity|]. intros Habsent.
  replace (ScheduleBuilder.remove_first _ (ScheduleBuilder.buttons sem)) with
    (@None (list ScheduleBuilder.button)).
  - f_equal. apply IH. intros b Hb. apply Habsent. apply in_or_app. now right.
  - symmetry. apply remove_first_none. intros b Hb. apply String.eqb_neq.
    apply Habsent. apply in_or_app. now left.
Qed.

Lemma remove_class_rows_present (wanted : string) (rows : list ScheduleBuilder.td) :
  (exists b, In b (all_buttons rows) /\ ScheduleBuilder.acr b = wanted) ->
  exists b,
    ScheduleBuilder.acr b = wanted /\
    Permutation (all_buttons rows)
      (b :: all_buttons (ScheduleBuilder.remove_class_rows wanted rows)).
Proof.
  induction rows as [|sem rows IH]; simpl.
  - intros (b & [] & _).
  - intros (b & Hb & Hacr).
    destruct (ScheduleBuilder.remove_first _ (ScheduleBuilder.buttons sem))
      as [remaining|] eqn:Hrem.
    + destruct (remove_first_some _ _ _ Hrem) as (c & Hc & _ & Hperm).
      exists c. split; [now apply String.eqb_eq|].
      assert (Hsame : forall cell : ScheduleBuilder.td,
                 ScheduleBuilder.buttons
                   (if ScheduleBuilder.childNodes_length cell =? 1
                    then ScheduleBuilder.set_span "No classes selected" cell else cell)
                 = ScheduleBuilder.buttons cell)
        by (intros cell; now destruct (_ =? _)).
      unfold all_buttons. simpl. rewrite Hsame. simpl. now rewrite Hperm.
    + apply in_app_or in Hb. destruct Hb as [Hb|Hb].
      * pose proof (proj1 (remove_first_none _ _) Hrem b Hb) as Hno.
        apply String.eqb_neq in Hno. contradiction.
      * destruct IH as (c & Hc & Hperm); [exists b; auto|].
        exists c. split; [exact Hc|]. unfold all_buttons in *. simpl.
        rewrite Hperm. symmetry. apply Permutation_middle.
Qed.

Lemma remove_class_rows_ids (wanted : string) (rows : list ScheduleBuilder.td) :
  map ScheduleBuilder.td_id (ScheduleBuilder.remove_class_rows wanted rows)
  = map ScheduleBuilder.td_id rows.
Proof.
  induction rows as [|sem rows IH]; simpl; [reflexivity|].
  destruct (ScheduleBuilder.remove_first _ _); simpl; [|now rewrite IH].
  now destruct (_ =? _).
Qed.

(** X15.  [remove_class] takes away one button and no more.  When no button
    of the row carries the acronym of the class the state is unchanged; when
    one does, the buttons afterwards are the buttons before without a single
    button of that acronym, even if the class had been added twice.  The
    cells keep their ids. *)
Theorem remove_class_removes_one (st : state) (clas : class) :
  ((forall b, In b (all_buttons (ScheduleBuilder.builderRows st)) ->
      ScheduleBuilder.acr b <> DIVISION clas ++ "-" ++ NUMBER clas) ->
   remove_class st clas = st) /\
  ((exists b, In b (all_buttons (ScheduleBuilder.builderRows st)) /\
      ScheduleBuilder.acr b = DIVISION clas ++ "-" ++ NUMBER clas) ->
   exists b,
     ScheduleBuilder.acr b = DIVISION clas ++ "-" ++ NUMBER clas /\
     Permutation (all_buttons (ScheduleBuilder.builderRows st))
       (b :: all_buttons (ScheduleBuilder.builderRows (remove_class st clas)))) /\
  map ScheduleBuilder.td_id (ScheduleBuilder.builderRows (remove_class st clas))
  = map ScheduleBuilder.td_id (ScheduleBuilder.builderRows st).
Proof.
  unfold ScheduleBuilder.remove_class. split; [|split].
  - intros Habsent. rewrite remove_class_rows_absent by exact Habsent. now destruct st.
  - intros Hpresent. exact (remove_class_rows_present _ _ Hpresent).
  - simpl. apply remove_class_rows_ids.
Qed.

Lemma remove_first_last (found : ScheduleBuilder.button -> bool)
    (bs : list ScheduleBuilder.button) (b : ScheduleBuilder.button) :
  (forall x, In x bs -> found x = false) -> found b = true ->
  ScheduleBuilder.remove_first found (bs ++ [b]) = Some bs.
Proof.
  intros Hno Hb. induction bs as [|c bs IH]; simpl; [now rewrite Hb|].
  rewrite (Hno c (or_introl eq_refl)). rewrite IH; [reflexivity|].
  intros x Hx. apply Hno. now right.
Qed.

(** X16.  Selecting and unselecting a class is a round trip: when every
    cell shows "No classes selected" exactly if it is empty and no button of
    the row carries the acronym of the class, [remove_class] after
    [add_class] gives back the state [add_class] was called on. *)
Theorem add_class_then_remove_class (st st' : state) (clas : class) :
  (forall cell, In cell (ScheduleBuilder.builderRows st) -> span_consistent cell) ->
  (forall b, In b (all_buttons (ScheduleBuilder.builderRows st)) ->
     ScheduleBuilder.acr b <> DIVISION clas ++ "-" ++ NUMBER clas) ->
  add_class st clas = Some st' ->
  remove_class st' clas = st.
Proof.
  intros Hspans Habsent Hadd.
  destruct (ScheduleBuilder.builderRows st) as [|cell rows] eqn:Hrows.
  - unfold ScheduleBuilder.add_class in Hadd. rewrite Hrows in Hadd. discriminate.
  - destruct (@exists_last _ (cell :: rows)) as (pre & bank & Hlast); [discriminate|].
    rewrite Hlast in Hrows, Hspans, Habsent. clear Hlast cell rows.
    rewrite (add_class_last st clas pre bank Hrows) in Hadd. injection Hadd as <-.
    unfold ScheduleBuilder.remove_class.
    cbn [ScheduleBuilder.builderRows ScheduleBuilder.set_rows].
    assert (Hrows' :
              ScheduleBuilder.remove_class_rows (DIVISION clas ++ "-" ++ NUMBER clas)
                (pre ++ [ScheduleBuilder.appendChild (class_button clas)
                           (ScheduleBuilder.set_span "" bank)])
              = (pre ++ [bank])%list).
    { assert (Hpre : forall b, In b (all_buttons pre) ->
                 ScheduleBuilder.acr b <> DIVISION clas ++ "-" ++ NUMBER clas).
      { intros b Hb. apply Habsent. rewrite all_buttons_app. apply in_or_app. now left. }
      assert (Hbank : forall b, In b (ScheduleBuilder.buttons bank) ->
                 ScheduleBuilder.acr b <> DIVISION clas ++ "-" ++ NUMBER clas).
      { intros b Hb. apply Habsent. rewrite all_buttons_app. apply in_or_app. right.
        unfold all_buttons. simpl. now rewrite app_nil_r. }
      assert (Hcons : span_consistent bank)
        by (apply Hspans, in_or_app; right; now left).
      clear Hspans Habsent Hrows. induction pre as [|c pre IH]; simpl.
      - rewrite remove_first_last.
        + unfold span_consistent in Hcons. destruct bank as [id text bs].
          cbn [ScheduleBuilder.buttons ScheduleBuilder.span_textContent] in Hcons.
          unfold ScheduleBuilder.childNodes_length, ScheduleBuilder.set_span.
          cbn [ScheduleBuilder.buttons ScheduleBuilder.span_textContent
               ScheduleBuilder.td_id].
          destruct bs as [|b bs]; subst text.
          * reflexivity.
          * replace (1 + Z.of_nat (List.length (b :: bs)) =? 1) with false
              by (symmetry; apply Z.eqb_neq; simpl List.length; lia).
            reflexivity.
        + intros x Hx. apply String.eqb_neq. now apply Hbank.
        + apply String.eqb_refl.
      - replace (ScheduleBuilder.remove_first _ (ScheduleBuilder.buttons c)) with
          (@None (list ScheduleBuilder.button)).
        + f_equal. apply IH. intros b Hb. apply Hpre. unfold all_buttons. simpl.
          apply in_or_app. now right.
        + symmetry. apply remove_first_none. intros b Hb. apply String.eqb_neq.
          apply Hpre. unfold all_buttons. simpl. apply in_or_app. now left. }
    rewrite Hrows', <- Hrows. destruct st. reflexivity.
Qed.

(** ** [drop] *)

Lemma update_at_buttons (i : nat) (f : ScheduleBuilder.td -> ScheduleBuilder.td)
    (rows : list ScheduleBuilder.td) :
  (forall c, ScheduleBuilder.buttons (f c) = ScheduleBuilder.buttons c) ->
  all_buttons (ScheduleBuilder.update_at i f rows) = all_buttons rows.
Proof.
  intros Hf. revert i. induction rows as [|c rows IH]; intros [|i]; simpl; auto.
  - unfold all_buttons. simpl. now rewrite Hf.
  - unfold all_buttons in *. simpl. now rewrite IH.
Qed.

Lemma update_at_ids (i : nat) (f : ScheduleBuilder.td -> ScheduleBuilder.td)
    (rows : list ScheduleBuilder.td) :
  (forall c, ScheduleBuilder.td_id (f c) = ScheduleBuilder.td_id c) ->
  map ScheduleBuilder.td_id (ScheduleBuilder.update_at i f rows)
  = map ScheduleBuilder.td_id rows.
Proof.
  intros Hf. revert i. induction rows as [|c rows IH]; intros [|i]; simpl; auto.
  - now rewrite Hf.
  - now rewrite IH.
Qed.

Lemma update_at_append (i : nat) (d : ScheduleBuilder.button)
    (rows : list ScheduleBuilder.td) :
  (i < List.length rows)%nat ->
  Permutation (all_buttons (ScheduleBuilder.update_at i (ScheduleBuilder.appendChild d) rows))
    (d :: all_buttons rows).
Proof.
  revert i. induction rows as [|c rows IH]; intros i Hi; simpl in Hi; [lia|].
  destruct i as [|i]; unfold all_buttons in *; simpl.
  - rewrite <- app_assoc. simpl. symmetry. apply Permutation_middle.
  - rewrite IH by lia. symmetry. apply Permutation_middle.
Qed.

Lemma detach_perm (id : string) (rows : list ScheduleBuilder.td) (d : ScheduleBuilder.button) :
  ScheduleBuilder.getButtonById id rows = Some d ->
  Permutation (all_buttons rows) (d :: all_buttons (ScheduleBuilder.detach id rows)).
Proof.
  unfold ScheduleBuilder.getButtonById, all_buttons.
  induction rows as [|c rows IH]; simpl; [discriminate|].
  destruct (ScheduleBuilder.remove_first _ (ScheduleBuilder.buttons c))
    as [remaining|] eqn:Hrem.
  - destruct (remove_first_some _ _ _ Hrem) as (b & _ & Hfind & Hperm).
    rewrite (find_app_l _ _ _ _ Hfind). intros [= <-]. simpl. now rewrite Hperm.
  - rewrite find_app_r
      by (apply find_none_iff; now apply (proj1 (remove_first_none _ _) Hrem)).
    intros Hfind. simpl. rewrite (IH Hfind). symmetry. apply Permutation_middle.
Qed.

Lemma detach_ids (id : string) (rows : list ScheduleBuilder.td) :
  map ScheduleBuilder.td_id (ScheduleBuilder.detach id rows)
  = map ScheduleBuilder.td_id rows.
Proof.
  induction rows as [|c rows IH]; simpl; [reflexivity|].
  destruct (ScheduleBuilder.remove_first _ _); simpl; [reflexivity|now rewrite IH].
Qed.

Lemma reset_orig_same (id : string) (rows rows' : list ScheduleBuilder.td) :
  ScheduleBuilder.reset_orig id rows = Some rows' ->
  all_buttons rows' = all_buttons rows /\
  map ScheduleBuilder.td_id rows' = map ScheduleBuilder.td_id rows.
Proof.
  revert rows'. induction rows as [|c rows IH]; intros rows'; simpl; [discriminate|].
  destruct (String.eqb _ _).
  - intros [= <-]. unfold all_buttons. simpl. now destruct (_ =? _).
  - destruct (ScheduleBuilder.reset_orig id rows) as [r|]; [|discriminate].
    intros [= <-]. destruct (IH r eq_refl) as (Hb & Hi).
    unfold all_buttons in *. simpl. now rewrite Hb, Hi.
Qed.

(** X17.  A drop of a class button of the row that was dragged out of a
    cell of the row neither loses nor duplicates a class: when the dragged
    id is the id of a button of the row and the origin id the id of a cell
    of the row, the buttons of the row after [drop] are the buttons before
    it, rearranged, and the cells keep their number, their order and their
    ids, as do the columns and the header. *)
Theorem drop_keeps_buttons (i : nat) (orig_parent_id id : string) (st : state) :
  In id (map ScheduleBuilder.b_id (all_buttons (ScheduleBuilder.builderRows st))) ->
  In orig_parent_id (map ScheduleBuilder.td_id (ScheduleBuilder.builderRows st)) ->
  Permutation
    (all_buttons (ScheduleBuilder.builderRows (drop i orig_parent_id id st)))
    (all_buttons (ScheduleBuilder.builderRows st)) /\
  map ScheduleBuilder.td_id (ScheduleBuilder.builderRows (drop i orig_parent_id id st))
  = map ScheduleBuilder.td_id (ScheduleBuilder.builderRows st) /\
  ScheduleBuilder.columns (drop i orig_parent_id id st) = ScheduleBuilder.columns st /\
  ScheduleBuilder.builderHeader (drop i orig_parent_id id st)
  = ScheduleBuilder.builderHeader st.
Proof.
  intros _ _. unfold ScheduleBuilder.drop.
  destruct (nth_error (ScheduleBuilder.builderRows st) i) as [target|] eqn:Htarget;
    [|repeat split; reflexivity].
  destruct (negb _); [|repeat split; reflexivity].
  assert (Hi : (i < List.length (ScheduleBuilder.builderRows st))%nat)
    by (apply nth_error_Some; congruence).
  assert (Hclear : all_buttons (ScheduleBuilder.update_at i (ScheduleBuilder.set_span "")
                                  (ScheduleBuilder.builderRows st))
                   = all_buttons (ScheduleBuilder.builderRows st))
    by (now apply update_at_buttons).
  assert (Hclear_ids : map ScheduleBuilder.td_id
                         (ScheduleBuilder.update_at i (ScheduleBuilder.set_span "")
                            (ScheduleBuilder.builderRows st))
                       = map ScheduleBuilder.td_id (ScheduleBuilder.builderRows st))
    by (now apply update_at_ids).
  destruct (ScheduleBuilder.getButtonById _ _) as [dragged|] eqn:Hfound.
  - assert (Hmoved : Permutation
                       (all_buttons
                          (ScheduleBuilder.update_at i (ScheduleBuilder.appendChild dragged)
                             (ScheduleBuilder.detach id
                                (ScheduleBuilder.update_at i (ScheduleBuilder.set_span "")
                                   (ScheduleBuilder.builderRows st)))))
                       (all_buttons (ScheduleBuilder.builderRows st))).
    { rewrite update_at_append
        by (now rewrite detach_length, update_at_length).
      rewrite <- Hclear. symmetry. now apply detach_perm. }
    assert (Hmoved_ids : map ScheduleBuilder.td_id
                           (ScheduleBuilder.update_at i (ScheduleBuilder.appendChild dragged)
                              (ScheduleBuilder.detach id
                                 (ScheduleBuilder.update_at i (ScheduleBuilder.set_span "")
                                    (ScheduleBuilder.builderRows st))))
                         = map ScheduleBuilder.td_id (ScheduleBuilder.builderRows st)).
    { rewrite update_at_ids by reflexivity. now rewrite detach_ids. }
    destruct (ScheduleBuilder.reset_orig _ _) as [rows|] eqn:Hreset.
    + rewrite update_semesters_eq. simpl.
      destruct (reset_orig_same _ _ _ Hreset) as (Hb & Hids).
      rewrite Hb, Hids. repeat split; assumption.
    + simpl. repeat split; assumption.
  - simpl. rewrite Hclear, Hclear_ids. repeat split; reflexivity.
Qed.

(** ** The text of the cells *)

Lemma new_entry_consistent (i : Z) : span_consistent (ScheduleBuilder.new_entry i).
Proof. reflexivity. Qed.

Lemma bank_with_consistent (n : Z) (selected : list class) :
  span_consistent (bank_with n selected).
Proof. unfold span_consistent. now destruct selected. Qed.

Lemma remove_class_rows_consistent (wanted : string) (rows : list ScheduleBuilder.td) :
  (forall cell, In cell rows -> span_consistent cell) ->
  forall cell, In cell (ScheduleBuilder.remove_class_rows wanted rows) ->
               span_consistent cell.
Proof.
  induction rows as [|sem rows IH]; simpl; [intros _ cell []|]. intros Hall.
  destruct (ScheduleBuilder.remove_first _ (ScheduleBuilder.buttons sem))
    as [remaining|] eqn:Hrem.
  - intros cell [<-|Hcell]; [|apply Hall; now right].
    pose proof (Hall sem (or_introl eq_refl)) as Hsem. unfold span_consistent in *.
    unfold ScheduleBuilder.childNodes_length, ScheduleBuilder.set_span.
    cbn [ScheduleBuilder.buttons ScheduleBuilder.span_textContent ScheduleBuilder.td_id].
    destruct (ScheduleBuilder.buttons sem) as [|b bs]; [discriminate|].
    destruct remaining as [|r rs].
    + reflexivity.
    + replace (1 + Z.of_nat (List.length (r :: rs)) =? 1) with false
        by (symmetry; apply Z.eqb_neq; simpl List.length; lia).
      exact Hsem.
  - intros cell [<-|Hcell]; [apply Hall; now left|].
    apply IH; [|exact Hcell]. intros c Hc. apply Hall. now right.
Qed.

Lemma add_class_consistent (st st' : state) (clas : class) :
  (forall cell, In cell (ScheduleBuilder.builderRows st) -> span_consistent cell) ->
  add_class st clas = Some st' ->
  forall cell, In cell (ScheduleBuilder.builderRows st') -> span_consistent cell.
Proof.
  intros Hall Hadd.
  destruct (ScheduleBuilder.builderRows st) as [|c rows] eqn:Hrows.
  - unfold ScheduleBuilder.add_class in Hadd. rewrite Hrows in Hadd. discriminate.
  - destruct (@exists_last _ (c :: rows)) as (pre & bank & Hlast); [discriminate|].
    rewrite Hlast in Hrows, Hall. clear Hlast c rows.
    rewrite (add_class_last st clas pre bank Hrows) in Hadd. injection Hadd as <-.
    simpl. intros cell Hcell. apply in_app_or in Hcell.
    destruct Hcell as [Hcell|[<-|[]]].
    + apply Hall. apply in_or_app. now left.
    + unfold span_consistent. simpl. now destruct (ScheduleBuilder.buttons bank).
Qed.

(** X18.  Outside of drops the text of a cell follows its content:
    [initialize] leaves every cell showing "No classes selected" exactly
    when it holds no button and an empty text otherwise, whatever the page
    was, and [update_header], [add_class], [remove_class] and
    [update_semesters] keep it so. *)
Theorem cells_keep_their_text :
  (forall selected page cell,
      In cell (ScheduleBuilder.builderRows
                 (ScheduleBuilder.initialize NAME DIVISION NUMBER get_class selected page)) ->
      span_consistent cell) /\
  (forall (c : ScheduleBuilder.call class) (st : state),
      (forall i orig_parent_id id, c <> ScheduleBuilder.Drop class i orig_parent_id id) ->
      (forall cell, In cell (ScheduleBuilder.builderRows st) -> span_consistent cell) ->
      forall cell, In cell (ScheduleBuilder.builderRows (run c st)) -> span_consistent cell).
Proof.
  assert (Hrebuilt : forall selected n (st : state), 1 <= n ->
             forall cell, In cell (ScheduleBuilder.builderRows (update_header selected n st)) ->
                          span_consistent cell).
  { intros selected n st Hn cell Hcell.
    unfold ScheduleBuilder.update_header in Hcell.
    replace (n <=? 0) with false in Hcell by (symmetry; apply Z.leb_gt; lia).
    rewrite for_lt_fold, append_headers, fill_entries_eq in Hcell by (simpl; lia).
    simpl in Hcell. apply in_app_or in Hcell. destruct Hcell as [Hcell|[<-|[]]].
    - apply in_map_iff in Hcell. destruct Hcell as (k & <- & _). apply new_entry_consistent.
    - apply bank_with_consistent. }
  split.
  - intros selected page cell.
    unfold ScheduleBuilder.initialize, ScheduleBuilder.initializeContent.
    apply Hrebuilt. simpl. lia.
  - intros c st Hnodrop Hall.
    destruct c as [selected n|clas|clas|i orig id|]; cbn [ScheduleBuilder.run].
    + destruct (Z_le_gt_dec n 0) as [Hn|Hn].
      * now rewrite (update_header_nonpositive _ _ _ _ _ selected n st Hn).
      * apply Hrebuilt. lia.
    + destruct (add_class st clas) as [st'|] eqn:Hadd; [|exact Hall].
      exact (add_class_consistent st st' clas Hall Hadd).
    + unfold ScheduleBuilder.remove_class. simpl. now apply remove_class_rows_consistent.
    + now destruct (Hnodrop i orig id).
    + now rewrite update_semesters_eq.
Qed.

Lemma update_at_app {A : Type} (i : nat) (f : A -> A) (l l' : list A) :
  ScheduleBuilder.update_at i f (l ++ l')
  = if (i <? List.length l)%nat then (ScheduleBuilder.update_at i f l ++ l')%list
    else (l ++ ScheduleBuilder.update_at (i - List.length l) f l')%list.
Proof.
  revert i. induction l as [|x l IH]; intros i; simpl.
  - now rewrite Nat.sub_0_r.
  - destruct i as [|i]; simpl; [reflexivity|]. rewrite IH.
    change (S i <? S (List.length l))%nat with (i <? List.length l)%nat.
    now destruct (i <? List.length l)%nat.
Qed.

(** The entry row around a cell that an update at another index leaves alone. *)
Lemma update_at_around (i : nat) (f : ScheduleBuilder.td -> ScheduleBuilder.td)
    (pre post : list ScheduleBuilder.td) (src : ScheduleBuilder.td) :
  i <> List.length pre ->
  exists pre' post',
    ScheduleBuilder.update_at i f (pre ++ src :: post) = (pre' ++ src :: post')%list /\
    (pre' = ScheduleBuilder.update_at i f pre) /\
    (post' = post \/ exists k, post' = ScheduleBuilder.update_at k f post) /\
    List.length pre' = List.length pre.
Proof.
  intros Hi. rewrite update_at_app.
  destruct (i <? List.length pre)%nat eqn:Hlt.
  - exists (ScheduleBuilder.update_at i f pre), post.
    split; [reflexivity|]. split; [reflexivity|]. split; [now left|].
    apply update_at_length.
  - apply Nat.ltb_ge in Hlt.
    destruct (i - List.length pre)%nat as [|k] eqn:Hk; [lia|]. simpl.
    exists pre, (ScheduleBuilder.update_at k f post).
    split; [reflexivity|]. split; [|split; [right; now exists k|reflexivity]].
    clear Hk Hi. revert i Hlt. induction pre as [|x pre IH]; intros i Hlt.
    + now destruct i.
    + destruct i as [|i]; simpl in *; [lia|]. f_equal. apply IH. lia.
Qed.

Lemma update_at_forall (P : ScheduleBuilder.td -> Prop) (i : nat)
    (f : ScheduleBuilder.td -> ScheduleBuilder.td) (l : list ScheduleBuilder.td) :
  (forall c, In c l -> P c) -> (forall c, In c l -> P (f c)) ->
  forall c, In c (ScheduleBuilder.update_at i f l) -> P c.
Proof.
  revert i. induction l as [|x l IH]; intros i Hall Hf c; [destruct i; intros []|].
  destruct i as [|i]; simpl.
  - intros [<-|Hc]; [apply Hf; now left|apply Hall; now right].
  - intros [<-|Hc]; [apply Hall; now left|].
    apply (IH i); auto; intros y Hy; [apply Hall|apply Hf]; now right.
Qed.

Lemma detach_at (id : string) (pre post : list ScheduleBuilder.td)
    (src : ScheduleBuilder.td) (remaining : list ScheduleBuilder.button) :
  (forall c, In c pre -> forall b, In b (ScheduleBuilder.buttons c) ->
                                   ScheduleBuilder.b_id b <> id) ->
  ScheduleBuilder.remove_first (fun c => String.eqb (ScheduleBuilder.b_id c) id)
    (ScheduleBuilder.buttons src) = Some remaining ->
  ScheduleBuilder.detach id (pre ++ src :: post)
  = (pre ++ {| ScheduleBuilder.td_id := ScheduleBuilder.td_id src;
               ScheduleBuilder.span_textContent := ScheduleBuilder.span_textContent src;
               ScheduleBuilder.buttons := remaining |} :: post)%list.
Proof.
  intros Hpre Hrem. induction pre as [|c pre IH]; simpl.
  - now rewrite Hrem.
  - replace (ScheduleBuilder.remove_first _ (ScheduleBuilder.buttons c)) with
      (@None (list ScheduleBuilder.button)).
    + f_equal. apply IH. intros x Hx. apply Hpre. now right.
    + symmetry. apply remove_first_none. intros b Hb. apply String.eqb_neq.
      apply (Hpre c); [now left|exact Hb].
Qed.

Lemma reset_orig_at (id : string) (pre post : list ScheduleBuilder.td)
    (src : ScheduleBuilder.td) :
  (forall c, In c pre -> ScheduleBuilder.td_id c <> id) ->
  ScheduleBuilder.td_id src = id ->
  ScheduleBuilder.reset_orig id (pre ++ src :: post)
  = Some (pre ++ (if ScheduleBuilder.childNodes_length src =? 1
                  then ScheduleBuilder.set_span "No classes selected" src else src)
              :: post)%list.
Proof.
  intros Hpre Hsrc. induction pre as [|c pre IH]; simpl.
  - now rewrite Hsrc, String.eqb_refl.
  - replace (String.eqb (ScheduleBuilder.td_id c) id) with false
      by (symmetry; apply String.eqb_neq; apply Hpre; now left).
    rewrite IH; [reflexivity|]. intros x Hx. apply Hpre. now right.
Qed.

Lemma update_at_skip {A : Type} (i : nat) (f : A -> A) (pre post : list A) (src : A) :
  i <> List.length pre ->
  ScheduleBuilder.update_at i f (pre ++ src :: post)
  = if (i <? List.length pre)%nat
    then (ScheduleBuilder.update_at i f pre ++ src :: post)%list
    else (pre ++ src :: ScheduleBuilder.update_at (i - List.length pre - 1) f post)%list.
Proof.
  intros Hi. rewrite update_at_app.
  destruct (i <? List.length pre)%nat eqn:Hlt; [reflexivity|].
  apply Nat.ltb_ge in Hlt.
  destruct (i - List.length pre)%nat as [|k] eqn:Hk; [lia|]. simpl.
  now rewrite Nat.sub_0_r.
Qed.

Lemma update_at_twice {A : Type} (i : nat) (f g : A -> A) (l : list A) :
  ScheduleBuilder.update_at i g (ScheduleBuilder.update_at i f l)
  = ScheduleBuilder.update_at i (fun x => g (f x)) l.
Proof.
  revert i. induction l as [|x l IH]; intros [|i]; simpl; auto. now rewrite IH.
Qed.

Lemma moved_in_consistent (d : ScheduleBuilder.button) (c : ScheduleBuilder.td) :
  span_consistent (ScheduleBuilder.appendChild d (ScheduleBuilder.set_span "" c)).
Proof. unfold span_consistent. simpl. now destruct (ScheduleBuilder.buttons c). Qed.

(** The row after a drop that finds the dragged button in the cell named
    by the drag. *)
Lemma drop_rows_when (i : nat) (orig_parent_id id : string) (st : state)
    (pre post pre1 post1 pre2 post2 : list ScheduleBuilder.td)
    (src target : ScheduleBuilder.td)
    (d : ScheduleBuilder.button) (remaining : list ScheduleBuilder.button) :
  ScheduleBuilder.builderRows st = (pre ++ src :: post)%list ->
  nth_error (ScheduleBuilder.builderRows st) i = Some target ->
  String.eqb (ScheduleBuilder.td_id target) orig_parent_id = false ->
  ScheduleBuilder.td_id src = orig_parent_id ->
  ScheduleBuilder.remove_first (fun c => String.eqb (ScheduleBuilder.b_id c) id)
    (ScheduleBuilder.buttons src) = Some remaining ->
  find (fun c => String.eqb (ScheduleBuilder.b_id c) id) (ScheduleBuilder.buttons src)
  = Some d ->
  ScheduleBuilder.update_at i (ScheduleBuilder.set_span "") (pre ++ src :: post)
  = (pre1 ++ src :: post1)%list ->
  (forall s', ScheduleBuilder.update_at i (ScheduleBuilder.appendChild d)
                (pre1 ++ s' :: post1) = (pre2 ++ s' :: post2)%list) ->
  (forall c, In c pre1 -> forall b, In b (ScheduleBuilder.buttons c) ->
                                    ScheduleBuilder.b_id b <> id) ->
  (forall c, In c pre2 -> ScheduleBuilder.td_id c <> orig_parent_id) ->
  ScheduleBuilder.builderRows (drop i orig_parent_id id st)
  = (pre2
       ++ (if 1 + Z.of_nat (List.length remaining) =? 1
           then {| ScheduleBuilder.td_id := ScheduleBuilder.td_id src;
                   ScheduleBuilder.span_textContent := "No classes selected";
                   ScheduleBuilder.buttons := remaining |}
           else {| ScheduleBuilder.td_id := ScheduleBuilder.td_id src;
                   ScheduleBuilder.span_textContent := ScheduleBuilder.span_textContent src;
                   ScheduleBuilder.buttons := remaining |})
       :: post2)%list.
Proof.
  intros Hrows Htarget Hother Hsrc Hrem Hfind Hfirst Hsecond Hpre1 Hpre2.
  unfold ScheduleBuilder.drop. rewrite Htarget, Hother. cbn [negb].
  rewrite Hrows, Hfirst.
  assert (Hget : ScheduleBuilder.getButtonById id (pre1 ++ src :: post1) = Some d).
  { unfold ScheduleBuilder.getButtonById. rewrite flat_map_app. simpl.
    rewrite find_app_r; [now apply find_app_l|].
    apply find_none_iff. intros b Hb. apply String.eqb_neq.
    apply in_flat_map in Hb. destruct Hb as (c & Hc & Hb). exact (Hpre1 c Hc b Hb). }
  rewrite Hget, (detach_at id pre1 post1 src remaining Hpre1 Hrem), Hsecond.
  rewrite reset_orig_at by (exact Hpre2 || exact Hsrc).
  rewrite update_semesters_eq.
  cbn [ScheduleBuilder.builderRows ScheduleBuilder.set_rows].
  unfold ScheduleBuilder.childNodes_length, ScheduleBuilder.set_span.
  cbn [ScheduleBuilder.buttons ScheduleBuilder.td_id ScheduleBuilder.span_textContent].
  now destruct (_ =? _).
Qed.

(** X19.  A drop keeps the text of the cells right when the drag tells the
    truth: if the cell with the dragged id is the first cell of that id and
    the first to hold a button with the dragged button id, and every cell
    shows "No classes selected" exactly when it is empty, then after [drop]
    every cell still does; the cell the button left says "No classes
    selected" again once it is empty. *)
Theorem drop_keeps_text (i : nat) (orig_parent_id id : string) (st : state)
    (pre post : list ScheduleBuilder.td) (src : ScheduleBuilder.td) :
  ScheduleBuilder.builderRows st = (pre ++ src :: post)%list ->
  ScheduleBuilder.td_id src = orig_parent_id ->
  (exists b, In b (ScheduleBuilder.buttons src) /\ ScheduleBuilder.b_id b = id) ->
  (forall c, In c pre ->
     ScheduleBuilder.td_id c <> orig_parent_id /\
     forall b, In b (ScheduleBuilder.buttons c) -> ScheduleBuilder.b_id b <> id) ->
  (forall cell, In cell (ScheduleBuilder.builderRows st) -> span_consistent cell) ->
  forall cell, In cell (ScheduleBuilder.builderRows (drop i orig_parent_id id st)) ->
               span_consistent cell.
Proof.
  intros Hrows Hsrc Hhas Hpre Hall.
  destruct (nth_error (ScheduleBuilder.builderRows st) i) as [target|] eqn:Htarget;
    [|unfold ScheduleBuilder.drop; now rewrite Htarget].
  destruct (String.eqb (ScheduleBuilder.td_id target) orig_parent_id) eqn:Hother;
    [unfold ScheduleBuilder.drop; now rewrite Htarget, Hother|].
  assert (Hi : i <> List.length pre).
  { intros ->. rewrite Hrows, nth_error_app2, Nat.sub_diag in Htarget by lia.
    injection Htarget as <-. rewrite Hsrc, String.eqb_refl in Hother. discriminate. }
  destruct (ScheduleBuilder.remove_first (fun c => String.eqb (ScheduleBuilder.b_id c) id)
              (ScheduleBuilder.buttons src)) as [remaining|] eqn:Hrem.
  2:{ destruct Hhas as (b & Hb & Hid).
      pose proof (proj1 (remove_first_none _ _) Hrem b Hb) as Hno.
      apply String.eqb_neq in Hno. contradiction. }
  destruct (remove_first_some _ _ _ Hrem) as (d & _ & Hfind & Hperm).
  assert (Hsrc_ok : span_consistent src)
    by (apply Hall; rewrite Hrows; apply in_or_app; right; now left).
  assert (Hpre_ok : forall c, In c pre -> span_consistent c)
    by (intros c Hc; apply Hall; rewrite Hrows; apply in_or_app; now left).
  assert (Hpost_ok : forall c, In c post -> span_consistent c)
    by (intros c Hc; apply Hall; rewrite Hrows; apply in_or_app; right; now right).
  assert (Hleft : span_consistent
                    (if 1 + Z.of_nat (List.length remaining) =? 1
                     then {| ScheduleBuilder.td_id := ScheduleBuilder.td_id src;
                             ScheduleBuilder.span_textContent := "No classes selected";
                             ScheduleBuilder.buttons := remaining |}
                     else {| ScheduleBuilder.td_id := ScheduleBuilder.td_id src;
                             ScheduleBuilder.span_textContent :=
                               ScheduleBuilder.span_textContent src;
                             ScheduleBuilder.buttons := remaining |})).
  { unfold span_consistent in *. destruct remaining as [|r rs].
    - reflexivity.
    - replace (1 + Z.of_nat (List.length (r :: rs)) =? 1) with false
        by (symmetry; apply Z.eqb_neq; simpl List.length; lia).
      simpl. rewrite Hsrc_ok.
      destruct (ScheduleBuilder.buttons src); [discriminate|reflexivity]. }
  destruct (i <? List.length pre)%nat eqn:Hlt.
  - rewrite (drop_rows_when i orig_parent_id id st pre post
               (ScheduleBuilder.update_at i (ScheduleBuilder.set_span "") pre) post
               (ScheduleBuilder.update_at i
                  (fun c => ScheduleBuilder.appendChild d (ScheduleBuilder.set_span "" c)) pre)
               post src target d remaining Hrows Htarget Hother Hsrc Hrem Hfind).
    + intros cell Hcell. apply in_app_or in Hcell. destruct Hcell as [Hcell|[<-|Hcell]].
      * revert cell Hcell. apply update_at_forall; [exact Hpre_ok|].
        intros c _. apply moved_in_consistent.
      * exact Hleft.
      * now apply Hpost_ok.
    + now rewrite update_at_skip, Hlt.
    + intros s'. rewrite update_at_skip by (now rewrite update_at_length).
      now rewrite update_at_length, Hlt, update_at_twice.
    + apply (update_at_forall
               (fun c => forall b, In b (ScheduleBuilder.buttons c) ->
                                   ScheduleBuilder.b_id b <> id)).
      * intros c Hc. now apply Hpre.
      * intros c Hc. simpl. now apply Hpre.
    + apply (update_at_forall (fun c => ScheduleBuilder.td_id c <> orig_parent_id)).
      * intros c Hc. now apply Hpre.
      * intros c Hc. simpl. now apply Hpre.
  - rewrite (drop_rows_when i orig_parent_id id st pre post
               pre (ScheduleBuilder.update_at (i - List.length pre - 1)
                      (ScheduleBuilder.set_span "") post)
               pre (ScheduleBuilder.update_at (i - List.length pre - 1)
                      (fun c => ScheduleBuilder.appendChild d
                                  (ScheduleBuilder.set_span "" c)) post)
               src target d remaining Hrows Htarget Hother Hsrc Hrem Hfind).
    + intros cell Hcell. apply in_app_or in Hcell. destruct Hcell as [Hcell|[<-|Hcell]].
      * now apply Hpre_ok.
      * exact Hleft.
      * revert cell Hcell. apply update_at_forall; [exact Hpost_ok|].
        intros c _. apply moved_in_consistent.
    + now rewrite update_at_skip, Hlt.
    + intros s'. rewrite update_at_skip by exact Hi.
      now rewrite Hlt, update_at_twice.
    + intros c Hc. now apply Hpre.
    + intros c Hc. now apply Hpre.
Qed.

End ScheduleBuilder_more_properties.

(** * Further properties of signup.js *)

(** X20.  The checks of the page let a form through, with "Attempting to
    create account...", exactly when the confirmation equals the password,
    the email contains "." and "@", the user name has at least 5 characters
    and the password at least 6. *)
Theorem check_message_passes_iff (f : Signup.form) :
  Signup.check_message f = "Attempting to create account..."
  <-> Signup.confirm f = Signup.pass f /\
      JS.includes (Signup.email f) "." = true /\
      JS.includes (Signup.email f) "@" = true /\
      5 <= JS.length (Signup.user f) /\
      6 <= JS.length (Signup.pass f).
Proof.
  split.
  - unfold Signup.check_message.
    destruct (_ || _ || _ || _); [discriminate|].
    destruct (String.eqb (Signup.pass f) (Signup.confirm f)) eqn:Hc; [|discriminate].
    destruct (JS.includes (Signup.email f) ".") eqn:Hdot; [|discriminate].
    destruct (JS.includes (Signup.email f) "@") eqn:Hat; [|discriminate].
    destruct ((JS.length (Signup.user f) <? 5) || (JS.length (Signup.pass f) <? 6)) eqn:Hlen;
      [discriminate|].
    intros _. apply String.eqb_eq in Hc. apply orb_false_iff in Hlen.
    rewrite !Z.ltb_ge in Hlen. repeat split; auto; lia.
  - intros (Hc & Hdot & Hat & Hu & Hp).
    rewrite check_message_lengths; try assumption; try lia.
    replace (JS.length (Signup.user f) <? 5) with false by (symmetry; apply Z.ltb_ge; lia).
    replace (JS.length (Signup.pass f) <? 6) with false by (symmetry; apply Z.ltb_ge; lia).
    reflexivity.
Qed.

(** X21.  When the request fails (the fetch throws or the answer is not
    JSON) the handler stops after sending it: the request is in the log and
    the page keeps showing the message of the client-side checks. *)
Theorem click_when_request_fails (server : Signup.request -> option Signup.response)
    (f : Signup.form) (p : Signup.page) :
  server {| Signup.route := "/sign-up"; Signup.method := "POST";
            Signup.req_body :=
              Some {| Signup.username := Signup.user f;
                      Signup.password := Signup.pass f;
                      Signup.body_email := Signup.email f |} |} = None ->
  Signup.message (Signup.click server f p) = Signup.check_message f /\
  List.length (Signup.sent (Signup.click server f p)) = S (List.length (Signup.sent p)).
Proof.
  intros Hfail. unfold Signup.click, Signup.makeRequest. simpl. rewrite Hfail. simpl.
  split; [reflexivity|]. rewrite length_app. simpl. lia.
Qed.

(** X22.  The length checks of the page and of the server differ at one
    point only: for a form the page lets through, the server's
    [valid_user_pass_combo] fails exactly when the user name has 5
    characters; and a form whose lengths the server accepts passes the page
    as soon as its confirmation matches and its email has "." and "@". *)
Theorem length_checks_differ_only_at_five (f : Signup.form) :
  (Signup.check_message f = "Attempting to create account..." ->
   (valid_user_pass_combo (Signup.user f) (Signup.pass f) = false
    <-> JS.length (Signup.user f) = 5)) /\
  (valid_user_pass_combo (Signup.user f) (Signup.pass f) = true ->
   Signup.confirm f = Signup.pass f ->
   JS.includes (Signup.email f) "." = true ->
   JS.includes (Signup.email f) "@" = true ->
   Signup.check_message f = "Attempting to create account...").
Proof.
  split.
  - intros Hpage. unfold Signup.check_message in Hpage.
    destruct (_ || _ || _ || _); [discriminate|].
    destruct (negb _); [discriminate|].
    destruct (_ || _); [discriminate|].
    destruct ((JS.length (Signup.user f) <? 5) || (JS.length (Signup.pass f) <? 6)) eqn:Hlen;
      [discriminate|].
    apply orb_false_iff in Hlen. rewrite !Z.ltb_ge in Hlen.
    rewrite <- not_true_iff_false, valid_user_pass_combo_spec. lia.
  - intros Hv Hc Hdot Hat. apply valid_user_pass_combo_spec in Hv.
    rewrite check_message_lengths; try assumption; try lia.
    replace (JS.length (Signup.user f) <? 5) with false by (symmetry; apply Z.ltb_ge; lia).
    replace (JS.length (Signup.pass f) <? 6) with false by (symmetry; apply Z.ltb_ge; lia).
    reflexivity.
Qed.

(** * The further properties on concrete data *)

Example lookups_on_sample :
  get_id_username Sample.db "alice1" = Some "61f0c0ffee00000000000001" /\
  get_account_username Trial.ObjectId Sample.db "61f0c0ffee00000000000001" = Some "alice1" /\
  get_account_username Trial.ObjectId Sample.db "not an id" = None /\
  get_id_username Sample.db "nobody" = None.
Proof. repeat split; reflexivity. Qed.

Example drop_moves_first_class :
  map (fun sem => map ScheduleBuilder.acr (ScheduleBuilder.buttons sem))
    (ScheduleBuilder.builderRows
       (ScheduleBuilder.drop Sample.get_class 0 "builderNode1" "builderMATH-101"
          Trial.two_in_bank))
  = [["MATH-101"]; ["CS-102"]].
Proof. vm_compute. reflexivity. Qed.


Lemma sign_up_keeps_keys_unique_witness :
  exists r db',
    sign_up Sample.kdf Sample.e Sample.db "bobby77" "hunter22" "bob@ohlone.edu"
    = Some (r, db') /\
    NoDup (map a_username (accounts db')) /\ NoDup (map a_email (accounts db')).
Proof.
  destruct (sign_up Sample.kdf Sample.e Sample.db "bobby77" "hunter22" "bob@ohlone.edu")
    as [[r db']|] eqn:Hrun; [|vm_compute in Hrun; discriminate].
  exists r, db'. split; [reflexivity|].
  apply (sign_up_keeps_keys_unique Sample.kdf Sample.e Sample.db db'
           "bobby77" "hunter22" "bob@ohlone.edu" r).
  - simpl. repeat constructor. intros [].
  - simpl. repeat constructor. intros [].
  - exact Hrun.
Defined.

Lemma verify_session_valid_sound_witness :
  exists s,
    In s (sessions Sample.db) /\
    verify_session Sample.kdf Sample.e Sample.db (s_hash Sample.fresh_session)
    = {| v_info := Some "VALID"; valid := true;
         v_user_id := Some (JS.Str (s_user_id s)) |}.
Proof.
  destruct (verify_session_valid_sound Sample.kdf Sample.e Sample.db
              (s_hash Sample.fresh_session)) as (s & Hin & _ & _ & _ & Hrun).
  - vm_compute. reflexivity.
  - exists s. split; assumption.
Defined.

Lemma verify_session_expired_stays_witness :
  verify_session Sample.kdf Trial.e_later Trial.db_old (s_hash Sample.old_session)
  = {| v_info := Some "EXPIRED"; valid := false; v_user_id := Some JS.Zero |}.
Proof.
  apply (verify_session_expired_stays Sample.kdf Sample.e Trial.e_later).
  - vm_compute. reflexivity.
  - simpl. lia.
Defined.

Lemma sample_sessions_well_hashed : well_hashed Sample.kdf (sessions Sample.db).
Proof. intros s [<-|[]]. vm_compute. reflexivity. Qed.

Lemma issue_session_keeps_hashes_valid_witness :
  Forall (fun s => validPassword Sample.kdf (s_user_id s) (s_hash s) (s_salt s) = true)
    (sessions (snd (issue_session Sample.kdf Sample.e Sample.db "61f0c0ffee00000000000009"))).
Proof.
  apply Forall_forall.
  apply issue_session_keeps_hashes_valid. exact sample_sessions_well_hashed.
Defined.

Lemma issue_session_then_verify_witness :
  exists s,
    fst (issue_session Sample.kdf Sample.e Trial.no_sessions "61f0c0ffee00000000000001")
    = Some s /\
    verify_session Sample.kdf Trial.e_later
      (snd (issue_session Sample.kdf Sample.e Trial.no_sessions "61f0c0ffee00000000000001"))
      (s_hash s)
    = {| v_info := Some "VALID"; valid := true;
         v_user_id := Some (JS.Str "61f0c0ffee00000000000001") |}.
Proof.
  apply (issue_session_then_verify Sample.kdf Sample.e Trial.e_later Trial.no_sessions).
  - intros s [].
  - vm_compute. repeat constructor. intros [].
  - simpl. lia.
Defined.

Lemma issue_session_keeps_hash_witness :
  option_map s_hash
    (fst (issue_session Sample.kdf Trial.e_later Sample.db "61f0c0ffee00000000000001"))
  = Some (s_hash Sample.fresh_session).
Proof.
  rewrite (issue_session_keeps_hash Sample.kdf Trial.e_later Sample.db
             "61f0c0ffee00000000000001" Sample.fresh_session).
  - reflexivity.
  - exists [], []. split; [reflexivity|]. split; [reflexivity|]. intros x [].
Defined.

Lemma get_id_username_agrees_with_login_witness :
  exists id,
    get_id_username Sample.db "alice1" = Some id /\
    id = "61f0c0ffee00000000000001".
Proof.
  destruct (get_id_username_agrees_with_login Sample.kdf Sample.db "alice1") as (_ & Hlogin).
  destruct (Hlogin "secret1" _ eq_refl eq_refl) as (id & Hid & Hsame).
  exists id. split; [exact Hid|]. now injection Hsame.
Defined.


Lemma login_unique_usernames_witness :
  exists r, login Sample.kdf Sample.db "alice1" "secret1" = Some r /\ loggedIn r = true.
Proof.
  apply (login_unique_usernames Sample.kdf Sample.db "alice1" "secret1").
  - simpl. repeat constructor. intros [].
  - exists Sample.alice. split; [now left|]. split; [reflexivity|]. vm_compute. reflexivity.
Defined.

Lemma sign_up_keeps_usernames_long_witness :
  exists r db',
    sign_up Sample.kdf Sample.e Sample.db "bobby77" "hunter22" "bob@ohlone.edu"
    = Some (r, db') /\
    Forall (fun a => 5 < JS.length (a_username a)) (accounts db').
Proof.
  destruct (sign_up Sample.kdf Sample.e Sample.db "bobby77" "hunter22" "bob@ohlone.edu")
    as [[r db']|] eqn:Hrun; [|vm_compute in Hrun; discriminate].
  exists r, db'. split; [reflexivity|]. apply Forall_forall.
  apply (sign_up_keeps_usernames_long Sample.kdf Sample.e Sample.db db'
           "bobby77" "hunter22" "bob@ohlone.edu" r).
  - simpl. intros a [<-|[]]. vm_compute. reflexivity.
  - exact Hrun.
Defined.

Lemma add_class_appends_to_bank_witness :
  option_map
    (fun st => map (fun sem => map ScheduleBuilder.acr (ScheduleBuilder.buttons sem))
                 (ScheduleBuilder.builderRows st))
    (ScheduleBuilder.add_class Sample.NAME Sample.DIVISION Sample.NUMBER
       Sample.started Sample.cs102)
  = Some [[]; ["MATH-101"; "CS-102"]] /\
  ScheduleBuilder.add_class Sample.NAME Sample.DIVISION Sample.NUMBER
    Sample.blank Sample.cs102 = None.
Proof.
  destruct (add_class_appends_to_bank Sample.class Sample.NAME Sample.DIVISION
              Sample.NUMBER Sample.started Sample.cs102) as (_ & Hbank).
  destruct (add_class_appends_to_bank Sample.class Sample.NAME Sample.DIVISION
              Sample.NUMBER Sample.blank Sample.cs102) as (Hnone & _).
  split.
  - rewrite (Hbank [ScheduleBuilder.new_entry 0]
               (bank_with Sample.NAME Sample.DIVISION Sample.NUMBER 1 [Sample.math101]))
      by (vm_compute; reflexivity).
    reflexivity.
  - apply Hnone. reflexivity.
Defined.


Lemma remove_class_removes_one_witness :
  ScheduleBuilder.remove_class Sample.DIVISION Sample.NUMBER Sample.started Sample.cs102
  = Sample.started /\
  exists b,
    ScheduleBuilder.acr b = "MATH-101" /\
    Permutation (all_buttons (ScheduleBuilder.builderRows Sample.started))
      (b :: all_buttons
              (ScheduleBuilder.builderRows
                 (ScheduleBuilder.remove_class Sample.DIVISION Sample.NUMBER
                    Sample.started Sample.math101))).
Proof.
  destruct (remove_class_removes_one Sample.class Sample.DIVISION Sample.NUMBER
              Sample.started Sample.cs102) as (Habsent & _ & _).
  destruct (remove_class_removes_one Sample.class Sample.DIVISION Sample.NUMBER
              Sample.started Sample.math101) as (_ & Hpresent & _).
  split.
  - apply Habsent. vm_compute. intros b [<-|[]]. discriminate.
  - apply Hpresent. eexists. split; [vm_compute; left; reflexivity|reflexivity].
Defined.

Lemma started_cells_consistent :
  forall cell, In cell (ScheduleBuilder.builderRows Sample.started) -> span_consistent cell.
Proof. vm_compute. intros cell [<-|[<-|[]]]; reflexivity. Qed.

Lemma add_class_then_remove_class_witness :
  exists st',
    ScheduleBuilder.add_class Sample.NAME Sample.DIVISION Sample.NUMBER
      Sample.started Sample.cs102 = Some st' /\
    ScheduleBuilder.remove_class Sample.DIVISION Sample.NUMBER st' Sample.cs102
    = Sample.started.
Proof.
  eexists. split; [vm_compute; reflexivity|].
  apply (add_class_then_remove_class Sample.class Sample.NAME Sample.DIVISION Sample.NUMBER).
  - exact started_cells_consistent.
  - vm_compute. intros b [<-|[]]. discriminate.
  - vm_compute. reflexivity.
Defined.

Lemma cells_keep_their_text_witness :
  Forall span_consistent
    (ScheduleBuilder.builderRows
       (ScheduleBuilder.run Sample.NAME Sample.DIVISION Sample.NUMBER
          Sample.get_class (ScheduleBuilder.Remove_class Sample.class Sample.math101)
          Sample.started)).
Proof.
  destruct (cells_keep_their_text Sample.class Sample.NAME Sample.DIVISION Sample.NUMBER
              Sample.get_class) as (Hinit & Hrun).
  apply Forall_forall. apply Hrun.
  - discriminate.
  - apply Hinit.
Defined.

Lemma two_in_bank_cells_consistent :
  forall cell, In cell (ScheduleBuilder.builderRows Trial.two_in_bank) -> span_consistent cell.
Proof. vm_compute. intros cell [<-|[<-|[]]]; reflexivity. Qed.

Lemma drop_keeps_buttons_witness :
  Permutation
    (all_buttons
       (ScheduleBuilder.builderRows
          (ScheduleBuilder.drop Sample.get_class 0 "builderNode1" "builderCS-102"
             Trial.two_in_bank)))
    (all_buttons (ScheduleBuilder.builderRows Trial.two_in_bank)) /\
  map ScheduleBuilder.b_id
    (all_buttons
       (ScheduleBuilder.builderRows
          (ScheduleBuilder.drop Sample.get_class 0 "builderNode1" "builderCS-102"
             Trial.two_in_bank)))
  = ["builderCS-102"; "builderMATH-101"].
Proof.
  destruct (drop_keeps_buttons Sample.class Sample.get_class 0 "builderNode1"
              "builderCS-102" Trial.two_in_bank) as (Hperm & _).
  - vm_compute. right. left. reflexivity.
  - vm_compute. right. left. reflexivity.
  - split; [exact Hperm|vm_compute; reflexivity].
Defined.

Lemma drop_keeps_text_witness :
  Forall span_consistent
    (ScheduleBuilder.builderRows
       (ScheduleBuilder.drop Sample.get_class 0 "builderNode1" "builderMATH-101"
          Trial.two_in_bank)).
Proof.
  apply Forall_forall.
  apply (drop_keeps_text Sample.class Sample.get_class 0 "builderNode1" "builderMATH-101"
           Trial.two_in_bank [ScheduleBuilder.new_entry 0] []
           (bank_with Sample.NAME Sample.DIVISION Sample.NUMBER 1
              [Sample.math101; Sample.cs102])).
  - vm_compute. reflexivity.
  - reflexivity.
  - eexists. split; [left; reflexivity|reflexivity].
  - intros c [<-|[]]. split; [discriminate|intros b []].
  - exact two_in_bank_cells_consistent.
Defined.

Lemma click_when_request_fails_witness :
  Signup.message (Signup.click Trial.unreachable Sample.empty_form Sample.page0)
  = "All fields must be filled.".
Proof.
  destruct (click_when_request_fails Trial.unreachable Sample.empty_form Sample.page0 eq_refl)
    as (Hmessage & _).
  rewrite Hmessage. reflexivity.
Defined.

Lemma length_checks_differ_only_at_five_witness :
  valid_user_pass_combo (Signup.user Sample.filled) (Signup.pass Sample.filled) = false /\
  Signup.check_message Trial.passing = "Attempting to create account...".
Proof.
  destruct (length_checks_differ_only_at_five Sample.filled) as (Hfive & _).
  destruct (length_checks_differ_only_at_five Trial.passing) as (_ & Hpass).
  split.
  - apply Hfive; reflexivity.
  - apply Hpass; reflexivity.
Defined.
